(** * Testy virtual buffers (tvbuff.c): a shallow embedding and its properties

    The buffer engine of the dissection core is embedded as Rocq functions:
    - [guint]/[gint] values are integers ([Z]) with the C wrap-around written
      out at every conversion and every arithmetic step;
    - a [tvbuff_t *] is the key of a chunk in a finite map (the memchunk the
      headers are doled out from), so that aliasing, usage counts and the
      [used_in] lists behave as in the C program;
    - a [const guint8 *] is the list of bytes that can be read from it
      onwards; [p + k] drops [k] bytes, a read beyond the list is a fault;
    - THROW, failed assertions and invalid memory accesses are outcomes of a
      small state-and-error monad. *)

From Stdlib Require Import ZArith Lia.
From Stdlib.Strings Require Import Byte.
From stdpp Require Import base option list gmap.

Local Open Scope Z_scope.

(** ** Machine integers *)

Module Int.

Definition UINT_MAX : Z := 4294967295.
Definition INT_MAX : Z := 2147483647.
Definition INT_MIN : Z := -2147483648.

(** Conversion to [guint]: reduction modulo 2^32. *)
Definition guint (z : Z) : Z := z mod 4294967296.

(** Conversion to [gint]: the two's complement reading of the low 32 bits. *)
Definition gint (z : Z) : Z := (z + 2147483648) mod 4294967296 - 2147483648.

Definition guint8 (z : Z) : Z := z mod 256.
Definition guint16 (z : Z) : Z := z mod 65536.
Definition guint32 (z : Z) : Z := z mod 4294967296.
Definition guint64 (z : Z) : Z := z mod 18446744073709551616.

Definition is_guint (z : Z) : Prop := 0 <= z <= UINT_MAX.
Definition is_gint (z : Z) : Prop := INT_MIN <= z <= INT_MAX.

End Int.
Import Int.

(** ** Exceptions and outcomes *)

(** The two bounds errors, and the error a failed DISSECTOR_ASSERT throws. *)
Inductive exception : Type :=
| BoundsError
| ReportedBoundsError
| DissectorError.

(** Accesses that C leaves undefined. *)
Inductive fault : Type :=
| BadPointer        (* a tvbuff_t that was released, or a null pointer *)
| OverRead          (* a byte read beyond the allocation *)
| Uninitialized.    (* a read of a variable that was never written *)

Inductive outcome (A : Type) : Type :=
| Ret (a : A)
| Throw (e : exception)
| Fault (f : fault)
| OutOfFuel.
Arguments Ret {A} a.
Arguments Throw {A} e.
Arguments Fault {A} f.
Arguments OutOfFuel {A}.

Definition obind {A B} (o : outcome A) (k : A -> outcome B) : outcome B :=
  match o with
  | Ret a => k a
  | Throw e => Throw e
  | Fault f => Fault f
  | OutOfFuel => OutOfFuel
  end.

(** ** The data model (tvbuff.h) *)

Inductive tvbuff_type : Type :=
| TVBUFF_REAL_DATA
| TVBUFF_SUBSET
| TVBUFF_COMPOSITE.

#[global] Instance tvbuff_type_eq_dec : EqDecision tvbuff_type.
Proof. solve_decision. Defined.

(** A [tvbuff_t *]. *)
Abbreviation tvb_ptr := nat (only parsing).

(** A [const guint8 *]: the bytes readable from the pointer onwards. *)
Abbreviation data_ptr := (list byte) (only parsing).

(** [tvb_backing_t]. *)
Record tvb_backing_t : Type := {
  b_tvb : option tvb_ptr;
  b_offset : Z;
  b_length : Z
}.

(** [tvb_comp_t]; the offset tables are null until finalization. *)
Record tvb_comp_t : Type := {
  c_tvbs : list tvb_ptr;
  c_start_offsets : option (list Z);
  c_end_offsets : option (list Z)
}.

(** [tvbuff_t]. The C union [tvbuffs] is kept as two fields, of which the one
    selected by [t_type] is meaningful. [t_free_cb] records whether a release
    callback is set. *)
Record tvbuff_t : Type := {
  t_type : tvbuff_type;
  t_initialized : bool;
  t_usage_count : Z;
  t_length : Z;
  t_reported_length : Z;
  t_free_cb : bool;
  t_real_data : option data_ptr;
  t_raw_offset : Z;
  t_used_in : list tvb_ptr;
  t_ds_tvb : option tvb_ptr;
  t_subset : tvb_backing_t;
  t_composite : tvb_comp_t
}.

(** The fields of a header hold [guint] values. *)
Definition tvb_guint_fields (tvb : tvbuff_t) : Prop :=
  is_guint (t_length tvb) /\ is_guint (t_reported_length tvb).

(** ** Bounds arithmetic *)

(** [compute_offset_length]: the absolute offset and length, or the exception
    that is stored through a non-null [exception]. *)
Definition compute_offset_length (tvb : tvbuff_t) (offset length : Z)
  : exception + (Z * Z) :=
  let abs_offset : exception + Z :=
    if 0 <=? offset then
      if t_reported_length tvb <? guint offset then inl ReportedBoundsError
      else if t_length tvb <? guint offset then inl BoundsError
      else inr (guint offset)
    else
      if t_reported_length tvb <? guint (- offset) then inl ReportedBoundsError
      else if t_length tvb <? guint (- offset) then inl BoundsError
      else inr (guint (t_length tvb + offset)) in
  match abs_offset with
  | inl e => inl e
  | inr offset_ptr =>
      if length <? -1 then inl BoundsError
      else if length =? -1 then inr (offset_ptr, guint (t_length tvb - offset_ptr))
      else inr (offset_ptr, guint length)
  end.

(** [check_offset_length_no_exception]. [Ret (inl e)] is the FALSE return,
    with [e] the exception stored when the caller asked for one. *)
Definition check_offset_length_no_exception (tvb : tvbuff_t) (offset length : Z)
  : outcome (exception + (Z * Z)) :=
  if negb (t_initialized tvb) then Throw DissectorError
  else
    match compute_offset_length tvb offset length with
    | inl e => Ret (inl e)
    | inr (offset_ptr, length_ptr) =>
        let end_offset := guint (offset_ptr + length_ptr) in
        let end_offset := if end_offset <? offset_ptr then UINT_MAX else end_offset in
        if end_offset <=? t_length tvb then Ret (inr (offset_ptr, length_ptr))
        else if end_offset <=? t_reported_length tvb then Ret (inl BoundsError)
        else Ret (inl ReportedBoundsError)
    end.

(** [check_offset_length]: the same check, throwing. *)
Definition check_offset_length (tvb : tvbuff_t) (offset length : Z)
  : outcome (Z * Z) :=
  obind (check_offset_length_no_exception tvb offset length) (fun r =>
    match r with
    | inl e => Throw e
    | inr ol => Ret ol
    end).

(** ** Program state and the monad of the embedding *)

(** The memchunk of headers ([heap], [next_chunk]), the log of headers handed
    back with [g_chunk_free] and of byte arrays handed to a release callback
    or [g_free] (most recent first), and the two function-static [last_tvb]
    variables of [tvb_new_real_data] and [tvb_new_subset]. *)
Record state : Type := {
  heap : gmap tvb_ptr tvbuff_t;
  next_chunk : tvb_ptr;
  released : list tvb_ptr;
  data_released : list tvb_ptr;
  last_tvb_real : option tvb_ptr;
  last_tvb_subset : option tvb_ptr
}.

Definition initial_state : state :=
  {| heap := ∅; next_chunk := 0%nat; released := []; data_released := [];
     last_tvb_real := None; last_tvb_subset := None |}.

Definition M (A : Type) : Type := state -> outcome A * state.

Definition ret {A} (a : A) : M A := fun s => (Ret a, s).

Definition bind {A B} (m : M A) (k : A -> M B) : M B :=
  fun s =>
    match m s with
    | (Ret a, s') => k a s'
    | (Throw e, s') => (Throw e, s')
    | (Fault f, s') => (Fault f, s')
    | (OutOfFuel, s') => (OutOfFuel, s')
    end.

Notation "x <- c ;; k" := (bind c (fun x => k))
  (at level 100, c at next level, right associativity).
Notation "c ;;; k" := (bind c (fun _ => k))
  (at level 100, right associativity).

Definition throw {A} (e : exception) : M A := fun s => (Throw e, s).
Definition fault_ {A} (f : fault) : M A := fun s => (Fault f, s).
Definition out_of_fuel {A} : M A := fun s => (OutOfFuel, s).
Definition lift {A} (o : outcome A) : M A := fun s => (o, s).

(** DISSECTOR_ASSERT.
    Modelled from the spec: proto.h is not among the sources; a violated
    programmer contract aborts the dissection with a dissector error. *)
Definition DISSECTOR_ASSERT (b : bool) : M unit :=
  if b then ret tt else throw DissectorError.

(** Reading and writing a header through its pointer. *)
Definition deref (p : tvb_ptr) : M tvbuff_t :=
  fun s =>
    match heap s !! p with
    | Some t => (Ret t, s)
    | None => (Fault BadPointer, s)
    end.

Definition set_heap (h : gmap tvb_ptr tvbuff_t) (s : state) : state :=
  {| heap := h; next_chunk := next_chunk s; released := released s;
     data_released := data_released s;
     last_tvb_real := last_tvb_real s; last_tvb_subset := last_tvb_subset s |}.

Definition store (p : tvb_ptr) (t : tvbuff_t) : M unit :=
  fun s =>
    match heap s !! p with
    | Some _ => (Ret tt, set_heap (<[p := t]> (heap s)) s)
    | None => (Fault BadPointer, s)
    end.

Definition modify (p : tvb_ptr) (f : tvbuff_t -> tvbuff_t) : M unit :=
  t <- deref p ;; store p (f t).

(** Field updates. *)
Definition with_initialized (v : bool) (t : tvbuff_t) : tvbuff_t :=
  {| t_type := t_type t; t_initialized := v; t_usage_count := t_usage_count t;
     t_length := t_length t; t_reported_length := t_reported_length t;
     t_free_cb := t_free_cb t; t_real_data := t_real_data t;
     t_raw_offset := t_raw_offset t; t_used_in := t_used_in t;
     t_ds_tvb := t_ds_tvb t; t_subset := t_subset t;
     t_composite := t_composite t |}.

Definition with_usage_count (v : Z) (t : tvbuff_t) : tvbuff_t :=
  {| t_type := t_type t; t_initialized := t_initialized t; t_usage_count := v;
     t_length := t_length t; t_reported_length := t_reported_length t;
     t_free_cb := t_free_cb t; t_real_data := t_real_data t;
     t_raw_offset := t_raw_offset t; t_used_in := t_used_in t;
     t_ds_tvb := t_ds_tvb t; t_subset := t_subset t;
     t_composite := t_composite t |}.

Definition with_length (v : Z) (t : tvbuff_t) : tvbuff_t :=
  {| t_type := t_type t; t_initialized := t_initialized t;
     t_usage_count := t_usage_count t;
     t_length := v; t_reported_length := t_reported_length t;
     t_free_cb := t_free_cb t; t_real_data := t_real_data t;
     t_raw_offset := t_raw_offset t; t_used_in := t_used_in t;
     t_ds_tvb := t_ds_tvb t; t_subset := t_subset t;
     t_composite := t_composite t |}.

Definition with_reported_length (v : Z) (t : tvbuff_t) : tvbuff_t :=
  {| t_type := t_type t; t_initialized := t_initialized t;
     t_usage_count := t_usage_count t;
     t_length := t_length t; t_reported_length := v;
     t_free_cb := t_free_cb t; t_real_data := t_real_data t;
     t_raw_offset := t_raw_offset t; t_used_in := t_used_in t;
     t_ds_tvb := t_ds_tvb t; t_subset := t_subset t;
     t_composite := t_composite t |}.

Definition with_free_cb (v : bool) (t : tvbuff_t) : tvbuff_t :=
  {| t_type := t_type t; t_initialized := t_initialized t;
     t_usage_count := t_usage_count t;
     t_length := t_length t; t_reported_length := t_reported_length t;
     t_free_cb := v; t_real_data := t_real_data t;
     t_raw_offset := t_raw_offset t; t_used_in := t_used_in t;
     t_ds_tvb := t_ds_tvb t; t_subset := t_subset t;
     t_composite := t_composite t |}.

Definition with_real_data (v : option data_ptr) (t : tvbuff_t) : tvbuff_t :=
  {| t_type := t_type t; t_initialized := t_initialized t;
     t_usage_count := t_usage_count t;
     t_length := t_length t; t_reported_length := t_reported_length t;
     t_free_cb := t_free_cb t; t_real_data := v;
     t_raw_offset := t_raw_offset t; t_used_in := t_used_in t;
     t_ds_tvb := t_ds_tvb t; t_subset := t_subset t;
     t_composite := t_composite t |}.

Definition with_used_in (v : list tvb_ptr) (t : tvbuff_t) : tvbuff_t :=
  {| t_type := t_type t; t_initialized := t_initialized t;
     t_usage_count := t_usage_count t;
     t_length := t_length t; t_reported_length := t_reported_length t;
     t_free_cb := t_free_cb t; t_real_data := t_real_data t;
     t_raw_offset := t_raw_offset t; t_used_in := v;
     t_ds_tvb := t_ds_tvb t; t_subset := t_subset t;
     t_composite := t_composite t |}.

Definition with_ds_tvb (v : option tvb_ptr) (t : tvbuff_t) : tvbuff_t :=
  {| t_type := t_type t; t_initialized := t_initialized t;
     t_usage_count := t_usage_count t;
     t_length := t_length t; t_reported_length := t_reported_length t;
     t_free_cb := t_free_cb t; t_real_data := t_real_data t;
     t_raw_offset := t_raw_offset t; t_used_in := t_used_in t;
     t_ds_tvb := v; t_subset := t_subset t;
     t_composite := t_composite t |}.

Definition with_subset (v : tvb_backing_t) (t : tvbuff_t) : tvbuff_t :=
  {| t_type := t_type t; t_initialized := t_initialized t;
     t_usage_count := t_usage_count t;
     t_length := t_length t; t_reported_length := t_reported_length t;
     t_free_cb := t_free_cb t; t_real_data := t_real_data t;
     t_raw_offset := t_raw_offset t; t_used_in := t_used_in t;
     t_ds_tvb := t_ds_tvb t; t_subset := v;
     t_composite := t_composite t |}.

Definition with_composite (v : tvb_comp_t) (t : tvbuff_t) : tvbuff_t :=
  {| t_type := t_type t; t_initialized := t_initialized t;
     t_usage_count := t_usage_count t;
     t_length := t_length t; t_reported_length := t_reported_length t;
     t_free_cb := t_free_cb t; t_real_data := t_real_data t;
     t_raw_offset := t_raw_offset t; t_used_in := t_used_in t;
     t_ds_tvb := t_ds_tvb t; t_subset := t_subset t;
     t_composite := v |}.

(** ** Lifecycle *)

(** [tvb_init]: the header a fresh chunk is filled with. *)
Definition tvb_init (type : tvbuff_type) : tvbuff_t :=
  {| t_type := type; t_initialized := false; t_usage_count := 1;
     t_length := 0; t_reported_length := 0; t_free_cb := false;
     t_real_data := None; t_raw_offset := -1; t_used_in := [];
     t_ds_tvb := None;
     t_subset := {| b_tvb := None; b_offset := 0; b_length := 0 |};
     t_composite := {| c_tvbs := []; c_start_offsets := None;
                       c_end_offsets := None |} |}.

(** [tvb_new]: [g_chunk_new] hands out a chunk that was never handed out
    before, so that a released header stays recognisable. *)
Definition tvb_new (type : tvbuff_type) : M tvb_ptr :=
  fun s =>
    let p := next_chunk s in
    (Ret p,
     {| heap := <[p := tvb_init type]> (heap s); next_chunk := S p;
        released := released s; data_released := data_released s;
        last_tvb_real := last_tvb_real s;
        last_tvb_subset := last_tvb_subset s |}).

(** [g_chunk_free (tvb, tvbuff_mem_chunk)]. *)
Definition g_chunk_free (p : tvb_ptr) : M unit :=
  fun s =>
    match heap s !! p with
    | Some _ =>
        (Ret tt,
         {| heap := delete p (heap s); next_chunk := next_chunk s;
            released := p :: released s; data_released := data_released s;
            last_tvb_real := last_tvb_real s;
            last_tvb_subset := last_tvb_subset s |})
    | None => (Fault BadPointer, s)
    end.

(** The release of the byte array of [p], by [free_cb] or [g_free]. *)
Definition release_data (p : tvb_ptr) : M unit :=
  fun s =>
    (Ret tt,
     {| heap := heap s; next_chunk := next_chunk s;
        released := released s; data_released := p :: data_released s;
        last_tvb_real := last_tvb_real s;
        last_tvb_subset := last_tvb_subset s |}).

(** A walk along a [GSList] that hangs off the header [owner]: the body runs
    on each element, and the node is read again for its [next] field after
    the body has run. *)
Fixpoint slist_foreach (owner : tvb_ptr) (body : tvb_ptr -> M unit)
    (l : list tvb_ptr) : M unit :=
  match l with
  | [] => ret tt
  | x :: l' =>
      body x ;;;
      _ <- deref owner ;;
      slist_foreach owner body l'
  end.

(** [tvb_increment_usage_count]. *)
Definition tvb_increment_usage_count (tvb : tvb_ptr) (count : Z) : M Z :=
  t <- deref tvb ;;
  let c := guint (t_usage_count t + count) in
  store tvb (with_usage_count c t) ;;;
  ret c.

(** [tvb_decrement_usage_count], over the [tvb_free] it calls. *)
Definition tvb_decrement_usage_count_with (free : tvb_ptr -> M unit)
    (tvb : tvb_ptr) (count : Z) : M Z :=
  t <- deref tvb ;;
  if t_usage_count t <=? count then
    store tvb (with_usage_count 1 t) ;;;
    free tvb ;;;
    ret 0
  else
    let c := guint (t_usage_count t - count) in
    store tvb (with_usage_count c t) ;;;
    ret c.

(** [tvb_free]. The recursion runs through the backing and member pointers
    of the headers in the heap, hence the fuel. *)
Fixpoint tvb_free (fuel : nat) (tvb : tvb_ptr) : M unit :=
  match fuel with
  | O => out_of_fuel
  | S fuel' =>
      t <- deref tvb ;;
      let count := guint (t_usage_count t - 1) in
      store tvb (with_usage_count count t) ;;;
      if count =? 0 then
        match t_type t with
        | TVBUFF_REAL_DATA =>
            if t_free_cb t then release_data tvb else ret tt
        | TVBUFF_SUBSET =>
            match b_tvb (t_subset t) with
            | Some backing =>
                _ <- tvb_decrement_usage_count_with (tvb_free fuel') backing 1 ;;
                ret tt
            | None => ret tt
            end
        | TVBUFF_COMPOSITE =>
            slist_foreach tvb
              (fun member_tvb =>
                 _ <- tvb_decrement_usage_count_with (tvb_free fuel') member_tvb 1 ;;
                 ret tt)
              (c_tvbs (t_composite t)) ;;;
            t' <- deref tvb ;;
            match t_real_data t' with
            | Some _ => release_data tvb
            | None => ret tt
            end
        end ;;;
        _ <- deref tvb ;;
        g_chunk_free tvb
      else ret tt
  end.

Definition tvb_decrement_usage_count (fuel : nat) (tvb : tvb_ptr) (count : Z)
  : M Z :=
  tvb_decrement_usage_count_with (tvb_free fuel) tvb count.

(** [tvb_free_chain]. *)
Fixpoint tvb_free_chain (fuel : nat) (tvb : tvb_ptr) : M unit :=
  match fuel with
  | O => out_of_fuel
  | S fuel' =>
      t <- deref tvb ;;
      slist_foreach tvb (tvb_free_chain fuel') (t_used_in t) ;;;
      tvb_free fuel' tvb
  end.

(** [tvb_set_free_cb]. *)
Definition tvb_set_free_cb (tvb : tvb_ptr) : M unit :=
  t <- deref tvb ;;
  DISSECTOR_ASSERT (bool_decide (t_type t = TVBUFF_REAL_DATA)) ;;;
  store tvb (with_free_cb true t).

(** [add_to_used_in_list]. *)
Definition add_to_used_in_list (tvb used_in : tvb_ptr) : M unit :=
  modify tvb (fun t => with_used_in (used_in :: t_used_in t) t) ;;;
  _ <- tvb_increment_usage_count tvb 1 ;;
  ret tt.

(** [tvb_set_child_real_data_tvbuff]. *)
Definition tvb_set_child_real_data_tvbuff (parent child : tvb_ptr) : M unit :=
  p <- deref parent ;;
  c <- deref child ;;
  DISSECTOR_ASSERT (t_initialized p) ;;;
  DISSECTOR_ASSERT (t_initialized c) ;;;
  DISSECTOR_ASSERT (bool_decide (t_type c = TVBUFF_REAL_DATA)) ;;;
  add_to_used_in_list parent child.

(** ** Construction *)

Definition set_last_tvb_real (v : option tvb_ptr) : M unit :=
  fun s =>
    (Ret tt,
     {| heap := heap s; next_chunk := next_chunk s; released := released s;
        data_released := data_released s;
        last_tvb_real := v; last_tvb_subset := last_tvb_subset s |}).

Definition set_last_tvb_subset (v : option tvb_ptr) : M unit :=
  fun s =>
    (Ret tt,
     {| heap := heap s; next_chunk := next_chunk s; released := released s;
        data_released := data_released s;
        last_tvb_real := last_tvb_real s; last_tvb_subset := v |}).

Definition get_last_tvb_real : M (option tvb_ptr) :=
  fun s => (Ret (last_tvb_real s), s).

Definition get_last_tvb_subset : M (option tvb_ptr) :=
  fun s => (Ret (last_tvb_subset s), s).

(** [tvb_set_real_data]. [data] is [None] for a null pointer. *)
Definition tvb_set_real_data (tvb : tvb_ptr) (data : option data_ptr)
    (length reported_length : Z) : M unit :=
  t <- deref tvb ;;
  DISSECTOR_ASSERT (bool_decide (t_type t = TVBUFF_REAL_DATA)) ;;;
  DISSECTOR_ASSERT (negb (t_initialized t)) ;;;
  if reported_length <? -1 then throw ReportedBoundsError
  else
    store tvb
      (with_initialized true
         (with_reported_length (guint reported_length)
            (with_length (guint length) (with_real_data data t)))).

(** [tvb_new_real_data]. *)
Definition tvb_new_real_data (fuel : nat) (data : option data_ptr)
    (length reported_length : Z) : M tvb_ptr :=
  tvb <- tvb_new TVBUFF_REAL_DATA ;;
  last_tvb <- get_last_tvb_real ;;
  match last_tvb with
  | Some l => tvb_free fuel l
  | None => ret tt
  end ;;;
  set_last_tvb_real (Some tvb) ;;;
  tvb_set_real_data tvb data length reported_length ;;;
  modify tvb (with_ds_tvb (Some tvb)) ;;;
  set_last_tvb_real None ;;;
  ret tvb.

(** [tvb_new_child_real_data]. *)
Definition tvb_new_child_real_data (fuel : nat) (parent : tvb_ptr)
    (data : option data_ptr) (length reported_length : Z) : M tvb_ptr :=
  tvb <- tvb_new_real_data fuel data length reported_length ;;
  tvb_set_child_real_data_tvbuff parent tvb ;;;
  ret tvb.

(** Pointer arithmetic on byte pointers: [p + k]. *)
Definition ptr_add (p : data_ptr) (k : Z) : data_ptr := drop (Z.to_nat k) p.

(** [tvb_set_subset]. The window is written to the header once the check of
    the backing buffer has passed; a header on which the check throws is
    only ever released afterwards. *)
Definition tvb_set_subset (tvb backing : tvb_ptr)
    (backing_offset backing_length reported_length : Z) : M unit :=
  t <- deref tvb ;;
  DISSECTOR_ASSERT (bool_decide (t_type t = TVBUFF_SUBSET)) ;;;
  DISSECTOR_ASSERT (negb (t_initialized t)) ;;;
  if reported_length <? -1 then throw ReportedBoundsError
  else
    b <- deref backing ;;
    ol <- lift (check_offset_length b backing_offset backing_length) ;;
    let subset_offset := fst ol in
    let subset_length := snd ol in
    let reported :=
      if reported_length =? -1
      then guint (t_reported_length b - subset_offset)
      else guint reported_length in
    store tvb
      (with_initialized true
         (with_reported_length reported
            (with_length subset_length
               (with_subset {| b_tvb := Some backing; b_offset := subset_offset;
                               b_length := subset_length |} t)))) ;;;
    add_to_used_in_list backing tvb ;;;
    b' <- deref backing ;;
    match t_real_data b' with
    | Some data => modify tvb (with_real_data (Some (ptr_add data subset_offset)))
    | None => ret tt
    end.

(** [tvb_new_subset]. *)
Definition tvb_new_subset (fuel : nat) (backing : tvb_ptr)
    (backing_offset backing_length reported_length : Z) : M tvb_ptr :=
  tvb <- tvb_new TVBUFF_SUBSET ;;
  last_tvb <- get_last_tvb_subset ;;
  match last_tvb with
  | Some l => tvb_free fuel l
  | None => ret tt
  end ;;;
  set_last_tvb_subset (Some tvb) ;;;
  tvb_set_subset tvb backing backing_offset backing_length reported_length ;;;
  b <- deref backing ;;
  modify tvb (with_ds_tvb (t_ds_tvb b)) ;;;
  set_last_tvb_subset None ;;;
  ret tvb.

(** [tvb_composite_append] and [tvb_composite_prepend]. *)
Definition tvb_composite_append (tvb member : tvb_ptr) : M unit :=
  t <- deref tvb ;;
  DISSECTOR_ASSERT (negb (t_initialized t)) ;;;
  DISSECTOR_ASSERT (bool_decide (t_type t = TVBUFF_COMPOSITE)) ;;;
  let composite := t_composite t in
  store tvb
    (with_composite {| c_tvbs := c_tvbs composite ++ [member];
                       c_start_offsets := c_start_offsets composite;
                       c_end_offsets := c_end_offsets composite |} t) ;;;
  add_to_used_in_list tvb member.

Definition tvb_composite_prepend (tvb member : tvb_ptr) : M unit :=
  t <- deref tvb ;;
  DISSECTOR_ASSERT (negb (t_initialized t)) ;;;
  DISSECTOR_ASSERT (bool_decide (t_type t = TVBUFF_COMPOSITE)) ;;;
  let composite := t_composite t in
  store tvb
    (with_composite {| c_tvbs := member :: c_tvbs composite;
                       c_start_offsets := c_start_offsets composite;
                       c_end_offsets := c_end_offsets composite |} t) ;;;
  add_to_used_in_list tvb member.

(** [tvb_new_composite]. *)
Definition tvb_new_composite : M tvb_ptr := tvb_new TVBUFF_COMPOSITE.

(** The loop of [tvb_composite_finalize]: entry [i] of the two tables is
    written in the [i]-th round, so the tables grow at their end. *)
Fixpoint composite_finalize_loop (tvb : tvb_ptr) (members : list tvb_ptr)
  : M unit :=
  match members with
  | [] => ret tt
  | member_tvb :: rest =>
      m <- deref member_tvb ;;
      t <- deref tvb ;;
      let composite := t_composite t in
      let start := t_length t in
      let len := guint (t_length t + t_length m) in
      store tvb
        (with_length len
           (with_composite
              {| c_tvbs := c_tvbs composite;
                 c_start_offsets :=
                   Some (default [] (c_start_offsets composite) ++ [start]);
                 c_end_offsets :=
                   Some (default [] (c_end_offsets composite) ++ [guint (len - 1)])
              |} t)) ;;;
      composite_finalize_loop tvb rest
  end.

(** [tvb_composite_finalize]. *)
Definition tvb_composite_finalize (tvb : tvb_ptr) : M unit :=
  t <- deref tvb ;;
  DISSECTOR_ASSERT (negb (t_initialized t)) ;;;
  DISSECTOR_ASSERT (bool_decide (t_type t = TVBUFF_COMPOSITE)) ;;;
  DISSECTOR_ASSERT (t_length t =? 0) ;;;
  let composite := t_composite t in
  store tvb
    (with_composite {| c_tvbs := c_tvbs composite;
                       c_start_offsets := Some [];
                       c_end_offsets := Some [] |} t) ;;;
  composite_finalize_loop tvb (c_tvbs composite) ;;;
  modify tvb (with_initialized true).

(** ** Length queries *)

Definition tvb_length (tvb : tvb_ptr) : M Z :=
  t <- deref tvb ;;
  DISSECTOR_ASSERT (t_initialized t) ;;;
  ret (t_length t).

Definition tvb_length_remaining (tvb : tvb_ptr) (offset : Z) : M Z :=
  t <- deref tvb ;;
  DISSECTOR_ASSERT (t_initialized t) ;;;
  match compute_offset_length t offset (-1) with
  | inr (_, abs_length) => ret (gint abs_length)
  | inl _ => ret (-1)
  end.

Definition tvb_ensure_length_remaining (tvb : tvb_ptr) (offset : Z) : M Z :=
  t <- deref tvb ;;
  DISSECTOR_ASSERT (t_initialized t) ;;;
  match compute_offset_length t offset (-1) with
  | inl e => throw e
  | inr (abs_offset, abs_length) =>
      if abs_length =? 0 then
        if t_reported_length t <=? abs_offset then throw ReportedBoundsError
        else throw BoundsError
      else ret abs_length
  end.

Definition tvb_bytes_exist (tvb : tvb_ptr) (offset length : Z) : M bool :=
  t <- deref tvb ;;
  DISSECTOR_ASSERT (t_initialized t) ;;;
  match compute_offset_length t offset length with
  | inl _ => ret false
  | inr (abs_offset, abs_length) =>
      ret (guint (abs_offset + abs_length) <=? t_length t)
  end.

Definition tvb_ensure_bytes_exist (tvb : tvb_ptr) (offset length : Z) : M unit :=
  t <- deref tvb ;;
  DISSECTOR_ASSERT (t_initialized t) ;;;
  if length <? 0 then throw ReportedBoundsError
  else
    _ <- lift (check_offset_length t offset length) ;;
    ret tt.

Definition tvb_offset_exists (tvb : tvb_ptr) (offset : Z) : M bool :=
  t <- deref tvb ;;
  DISSECTOR_ASSERT (t_initialized t) ;;;
  match compute_offset_length t offset (-1) with
  | inl _ => ret false
  | inr (abs_offset, _) => ret (abs_offset <? t_length t)
  end.

Definition tvb_reported_length (tvb : tvb_ptr) : M Z :=
  t <- deref tvb ;;
  DISSECTOR_ASSERT (t_initialized t) ;;;
  ret (t_reported_length t).

Definition tvb_set_reported_length (tvb : tvb_ptr) (reported_length : Z)
  : M unit :=
  t <- deref tvb ;;
  DISSECTOR_ASSERT (t_initialized t) ;;;
  if t_reported_length t <? reported_length then throw ReportedBoundsError
  else
    let t1 := with_reported_length reported_length t in
    store tvb
      (if reported_length <? t_length t1 then with_length reported_length t1
       else t1).

(** ** Contiguity resolver and copies *)

(** [size_t] on an LP64 host. *)
Definition size_t (z : Z) : Z := z mod 18446744073709551616.

(** The value of the byte a pointer designates. *)
Definition byte_val (b : byte) : Z := Z.of_N (Byte.to_N b).

(** [*(p + i)]. *)
Definition read_guint8 (p : data_ptr) (i : nat) : M Z :=
  match p !! i with
  | Some b => ret (byte_val b)
  | None => fault_ OverRead
  end.

(** [memcpy (target, src, n)]: the bytes stored into [target]. *)
Definition memcpy (src : data_ptr) (n : Z) : M (list byte) :=
  if n <=? Z.of_nat (length src) then ret (take (Z.to_nat n) src)
  else fault_ OverRead.

(** The member search loop shared by [composite_memcpy] and
    [composite_ensure_contiguous_no_exception]: the first [i] below
    [num_members] with [abs_offset <= end_offsets[i]]. *)
Fixpoint composite_member_loop (abs_offset : Z) (end_offsets : list Z)
    (i num_members : nat) : outcome (option nat) :=
  match num_members with
  | O => Ret None
  | S n =>
      match end_offsets !! i with
      | None => Fault OverRead
      | Some e =>
          if abs_offset <=? e then Ret (Some i)
          else composite_member_loop abs_offset end_offsets (S i) n
      end
  end.

(** The member found by the loop, with its start offset; the assertion on
    [member_tvb] fails when the loop found none. *)
Definition composite_member (t : tvbuff_t) (abs_offset : Z)
  : M (tvb_ptr * Z) :=
  DISSECTOR_ASSERT (bool_decide (t_type t = TVBUFF_COMPOSITE)) ;;;
  let composite := t_composite t in
  match c_end_offsets composite, c_start_offsets composite with
  | Some ends, Some starts =>
      r <- lift (composite_member_loop abs_offset ends 0
                   (length (c_tvbs composite))) ;;
      match r with
      | None => throw DissectorError
      | Some i =>
          match c_tvbs composite !! i, starts !! i with
          | Some member_tvb, Some start => ret (member_tvb, start)
          | _, _ => fault_ OverRead
          end
      end
  | _, _ => fault_ BadPointer
  end.

(** [tvb_memcpy] and [composite_memcpy]: the bytes copied to [target]. *)
Fixpoint tvb_memcpy (fuel : nat) (tvb : tvb_ptr) (offset length : Z)
  : M (list byte) :=
  match fuel with
  | O => out_of_fuel
  | S fuel' =>
      DISSECTOR_ASSERT (length <=? 2147483647) ;;;
      t <- deref tvb ;;
      ol <- lift (check_offset_length t offset (gint length)) ;;
      let abs_offset := fst ol in
      let abs_length := snd ol in
      match t_real_data t with
      | Some data => memcpy (ptr_add data abs_offset) abs_length
      | None =>
          match t_type t with
          | TVBUFF_REAL_DATA => throw DissectorError
          | TVBUFF_SUBSET =>
              match b_tvb (t_subset t) with
              | Some backing =>
                  tvb_memcpy fuel' backing
                    (gint (guint (abs_offset - b_offset (t_subset t))))
                    abs_length
              | None => fault_ BadPointer
              end
          | TVBUFF_COMPOSITE =>
              composite_memcpy fuel' tvb (guint offset) length
          end
      end
  end
with composite_memcpy (fuel : nat) (tvb : tvb_ptr) (abs_offset abs_length : Z)
  : M (list byte) :=
  match fuel with
  | O => out_of_fuel
  | S fuel' =>
      t <- deref tvb ;;
      ms <- composite_member t abs_offset ;;
      let member_tvb := fst ms in
      let rel := gint (guint (abs_offset - snd ms)) in
      m <- deref member_tvb ;;
      r <- lift (check_offset_length_no_exception m rel (gint abs_length)) ;;
      match r with
      | inr (member_offset, member_length) =>
          DISSECTOR_ASSERT (bool_decide (t_real_data t = None)) ;;;
          tvb_memcpy fuel' member_tvb (gint member_offset) member_length
      | inl _ =>
          match compute_offset_length m rel (-1) with
          | inl _ => throw DissectorError
          | inr (member_offset, member_length) =>
              part <- tvb_memcpy fuel' member_tvb (gint member_offset)
                        member_length ;;
              let abs_offset' := guint (abs_offset + member_length) in
              let abs_length' := size_t (abs_length - member_length) in
              if 0 <? abs_length' then
                rest <- composite_memcpy fuel' tvb abs_offset' abs_length' ;;
                ret (part ++ rest)
              else ret part
          end
      end
  end.

(** [tvb_memdup]: the freshly allocated copy. *)
Definition tvb_memdup (fuel : nat) (tvb : tvb_ptr) (offset length : Z)
  : M (list byte) :=
  t <- deref tvb ;;
  ol <- lift (check_offset_length t offset (gint length)) ;;
  tvb_memcpy fuel tvb (gint (fst ol)) (snd ol).

(** [ensure_contiguous_no_exception] and
    [composite_ensure_contiguous_no_exception]. The flag [exception] tells
    whether the caller passed a non-null [exception]; a null return is
    [inl], carrying the exception that was stored, if one was. *)
Fixpoint ensure_contiguous_no_exception (fuel : nat) (tvb : tvb_ptr)
    (offset length : Z) (exception_ : bool) : M (option exception + data_ptr) :=
  match fuel with
  | O => out_of_fuel
  | S fuel' =>
      t <- deref tvb ;;
      r <- lift (check_offset_length_no_exception t offset length) ;;
      match r with
      | inl e => ret (inl (if exception_ then Some e else None))
      | inr (abs_offset, abs_length) =>
          match t_real_data t with
          | Some data => ret (inr (ptr_add data abs_offset))
          | None =>
              match t_type t with
              | TVBUFF_REAL_DATA => throw DissectorError
              | TVBUFF_SUBSET =>
                  match b_tvb (t_subset t) with
                  | Some backing =>
                      ensure_contiguous_no_exception fuel' backing
                        (gint (guint (abs_offset - b_offset (t_subset t))))
                        (gint abs_length) false
                  | None => fault_ BadPointer
                  end
              | TVBUFF_COMPOSITE =>
                  composite_ensure_contiguous_no_exception fuel' tvb
                    abs_offset abs_length
              end
          end
      end
  end
with composite_ensure_contiguous_no_exception (fuel : nat) (tvb : tvb_ptr)
    (abs_offset abs_length : Z) : M (option exception + data_ptr) :=
  match fuel with
  | O => out_of_fuel
  | S fuel' =>
      t <- deref tvb ;;
      ms <- composite_member t abs_offset ;;
      let member_tvb := fst ms in
      let rel := gint (guint (abs_offset - snd ms)) in
      m <- deref member_tvb ;;
      r <- lift (check_offset_length_no_exception m rel (gint abs_length)) ;;
      match r with
      | inr (member_offset, member_length) =>
          DISSECTOR_ASSERT (bool_decide (t_real_data t = None)) ;;;
          ensure_contiguous_no_exception fuel' member_tvb
            (gint member_offset) (gint member_length) false
      | inl _ =>
          duped <- tvb_memdup fuel' tvb 0 (size_t (-1)) ;;
          modify tvb (with_real_data (Some duped)) ;;;
          ret (inr (ptr_add duped abs_offset))
      end
  end.

(** [ensure_contiguous]. *)
Definition ensure_contiguous (fuel : nat) (tvb : tvb_ptr) (offset length : Z)
  : M data_ptr :=
  r <- ensure_contiguous_no_exception fuel tvb offset length true ;;
  match r with
  | inr p => ret p
  | inl (Some e) => throw e
  | inl None => fault_ Uninitialized
  end.

(** [fast_ensure_contiguous]. *)
Definition fast_ensure_contiguous (fuel : nat) (tvb : tvb_ptr)
    (offset length : Z) : M data_ptr :=
  t <- deref tvb ;;
  DISSECTOR_ASSERT (t_initialized t) ;;;
  match t_real_data t with
  | Some data =>
      if offset <? 0 then ensure_contiguous fuel tvb offset (gint length)
      else
        let u_offset := guint offset in
        let end_offset := guint (u_offset + length) in
        if end_offset <=? t_length t then ret (ptr_add data u_offset)
        else if t_reported_length t <? end_offset then throw ReportedBoundsError
        else throw BoundsError
  | None => ensure_contiguous fuel tvb offset (gint length)
  end.

(** [tvb_get_ptr]. *)
Definition tvb_get_ptr (fuel : nat) (tvb : tvb_ptr) (offset length : Z)
  : M data_ptr :=
  ensure_contiguous fuel tvb offset length.

(** ** Typed accessors *)

(** [pntohs], [pntohl] and [pntoh64].
    Modelled from the spec: pint.h is not among the sources; the bytes are
    combined in network order, the first byte being the most significant. *)
Definition pntohs (p : data_ptr) : M Z :=
  b0 <- read_guint8 p 0 ;;
  b1 <- read_guint8 p 1 ;;
  ret (Z.lor (Z.shiftl b0 8) b1).

Definition pntohl (p : data_ptr) : M Z :=
  b0 <- read_guint8 p 0 ;;
  b1 <- read_guint8 p 1 ;;
  b2 <- read_guint8 p 2 ;;
  b3 <- read_guint8 p 3 ;;
  ret (Z.lor (Z.shiftl b0 24)
         (Z.lor (Z.shiftl b1 16) (Z.lor (Z.shiftl b2 8) b3))).

Definition pntoh64 (p : data_ptr) : M Z :=
  b0 <- read_guint8 p 0 ;;
  b1 <- read_guint8 p 1 ;;
  b2 <- read_guint8 p 2 ;;
  b3 <- read_guint8 p 3 ;;
  b4 <- read_guint8 p 4 ;;
  b5 <- read_guint8 p 5 ;;
  b6 <- read_guint8 p 6 ;;
  b7 <- read_guint8 p 7 ;;
  ret (Z.lor (Z.shiftl b0 56)
         (Z.lor (Z.shiftl b1 48)
            (Z.lor (Z.shiftl b2 40)
               (Z.lor (Z.shiftl b3 32)
                  (Z.lor (Z.shiftl b4 24)
                     (Z.lor (Z.shiftl b5 16) (Z.lor (Z.shiftl b6 8) b7))))))).

Definition tvb_get_guint8 (fuel : nat) (tvb : tvb_ptr) (offset : Z) : M Z :=
  ptr <- fast_ensure_contiguous fuel tvb offset 1 ;;
  read_guint8 ptr 0.

Definition tvb_get_ntohs (fuel : nat) (tvb : tvb_ptr) (offset : Z) : M Z :=
  ptr <- fast_ensure_contiguous fuel tvb offset 2 ;;
  pntohs ptr.

Definition tvb_get_ntohl (fuel : nat) (tvb : tvb_ptr) (offset : Z) : M Z :=
  ptr <- fast_ensure_contiguous fuel tvb offset 4 ;;
  pntohl ptr.

Definition tvb_get_ntoh64 (fuel : nat) (tvb : tvb_ptr) (offset : Z) : M Z :=
  ptr <- fast_ensure_contiguous fuel tvb offset 8 ;;
  pntoh64 ptr.

(** The mask tables, indexed by the bit offset within the first octet. *)
Definition bit_mask8 : list Z :=
  [0xff; 0x7f; 0x3f; 0x1f; 0x0f; 0x07; 0x03; 0x01].

Definition bit_mask16 : list Z :=
  [0xffff; 0x7fff; 0x3fff; 0x1fff; 0x0fff; 0x07ff; 0x03ff; 0x01ff].

Definition bit_mask32 : list Z :=
  [0xffffffff; 0x7fffffff; 0x3fffffff; 0x1fffffff;
   0x0fffffff; 0x07ffffff; 0x03ffffff; 0x01ffffff].

Definition bit_mask64 : list Z :=
  [0xffffffffffffffff; 0x7fffffffffffffff; 0x3fffffffffffffff;
   0x1fffffffffffffff; 0x0fffffffffffffff; 0x07ffffffffffffff;
   0x03ffffffffffffff; 0x01ffffffffffffff].

Definition mask_at (table : list Z) (bit_offset : Z) : Z :=
  nth (Z.to_nat bit_offset) table 0.

(** [tvb_get_bits8]: 1 to 8 bits. *)
Definition tvb_get_bits8 (fuel : nat) (tvb : tvb_ptr)
    (bit_offset no_of_bits : Z) : M Z :=
  if 8 <? no_of_bits then throw DissectorError
  else
    let offset := Z.shiftr bit_offset 3 in
    let bit_offset := Z.land bit_offset 7 in
    let tot_no_bits := guint8 (bit_offset + no_of_bits) in
    if tot_no_bits <=? 8 then
      v <- tvb_get_guint8 fuel tvb offset ;;
      let value := guint16 (Z.land v (mask_at bit_mask8 bit_offset)) in
      let value := guint16 (Z.shiftr value (8 - tot_no_bits)) in
      ret (guint8 value)
    else
      v <- tvb_get_ntohs fuel tvb offset ;;
      let value := guint16 (Z.land v (mask_at bit_mask16 bit_offset)) in
      let value := guint16 (Z.shiftr value (16 - tot_no_bits)) in
      ret (guint8 value).

(** [tvb_get_bits16]: 8 to 16 bits. *)
Definition tvb_get_bits16 (fuel : nat) (tvb : tvb_ptr)
    (bit_offset no_of_bits : Z) (little_endian : bool) : M Z :=
  if (no_of_bits <? 8) || (16 <? no_of_bits) then throw DissectorError
  else if little_endian then throw DissectorError
  else
    let offset := Z.shiftr bit_offset 3 in
    let bit_offset := Z.land bit_offset 7 in
    let tot_no_bits := guint8 (bit_offset + no_of_bits) in
    v <- tvb_get_ntohs fuel tvb offset ;;
    let value := guint16 (Z.land v (mask_at bit_mask16 bit_offset)) in
    if tot_no_bits <? 16 then
      ret (guint16 (Z.shiftr value (16 - tot_no_bits)))
    else if 16 <? tot_no_bits then
      let value := guint16 (Z.shiftl value (tot_no_bits - 16)) in
      t <- tvb_get_guint8 fuel tvb (gint (offset + 2)) ;;
      let tempval := guint16 (Z.shiftr (guint16 t) (24 - tot_no_bits)) in
      ret (Z.lor value tempval)
    else ret value.

(** [tvb_get_bits32]: 17 to 32 bits. *)
Definition tvb_get_bits32 (fuel : nat) (tvb : tvb_ptr)
    (bit_offset no_of_bits : Z) (little_endian : bool) : M Z :=
  if (no_of_bits <? 17) || (32 <? no_of_bits) then throw DissectorError
  else if little_endian then throw DissectorError
  else
    let offset := Z.shiftr bit_offset 3 in
    let bit_offset := Z.land bit_offset 7 in
    let tot_no_bits := guint8 (bit_offset + no_of_bits) in
    v <- tvb_get_ntohl fuel tvb offset ;;
    let value := guint32 (Z.land v (mask_at bit_mask32 bit_offset)) in
    if tot_no_bits <? 32 then
      ret (guint32 (Z.shiftr value (32 - tot_no_bits)))
    else if 32 <? tot_no_bits then
      let value := guint32 (Z.shiftl value (tot_no_bits - 32)) in
      t <- tvb_get_guint8 fuel tvb (gint (offset + 4)) ;;
      let tempval := guint32 (Z.shiftr (guint32 t) (40 - tot_no_bits)) in
      ret (Z.lor value tempval)
    else ret value.

(** [tvb_get_bits64]: 32 to 64 bits. *)
Definition tvb_get_bits64 (fuel : nat) (tvb : tvb_ptr)
    (bit_offset no_of_bits : Z) (little_endian : bool) : M Z :=
  if (no_of_bits <? 32) || (64 <? no_of_bits) then throw DissectorError
  else if little_endian then throw DissectorError
  else
    let offset := Z.shiftr bit_offset 3 in
    let bit_offset := Z.land bit_offset 7 in
    let tot_no_bits := guint8 (bit_offset + no_of_bits) in
    v <- tvb_get_ntoh64 fuel tvb offset ;;
    let value := guint64 (Z.land v (mask_at bit_mask64 bit_offset)) in
    if tot_no_bits <? 64 then
      ret (guint64 (Z.shiftr value (64 - tot_no_bits)))
    else if 64 <? tot_no_bits then
      let value := guint64 (Z.shiftl value (tot_no_bits - 64)) in
      t <- tvb_get_guint8 fuel tvb (gint (offset + 8)) ;;
      let tempval := guint64 (Z.shiftr (guint64 t) (72 - tot_no_bits)) in
      ret (Z.lor value tempval)
    else ret value.

(** ** Byte search *)

(** [guint8_find]: the index of the first [needle] among the first
    [haystacklen] bytes, [None] for the null return. *)
Fixpoint guint8_find (haystack : data_ptr) (haystacklen : nat) (needle : Z)
    {struct haystacklen} : outcome (option nat) :=
  match haystacklen with
  | O => Ret None
  | S n =>
      match haystack with
      | [] => Fault OverRead
      | b :: rest =>
          if byte_val b =? needle then Ret (Some O)
          else obind (guint8_find rest n needle) (fun r => Ret (S <$> r))
      end
  end.

(** The inner loop of [guint8_pbrk] over the zero-terminated [needles]. *)
Fixpoint needles_match (item : Z) (needlep : data_ptr) : outcome bool :=
  match needlep with
  | [] => Fault OverRead
  | n :: rest =>
      if byte_val n =? 0 then Ret false
      else if item =? byte_val n then Ret true
      else needles_match item rest
  end.

(** [guint8_pbrk]. *)
Fixpoint guint8_pbrk (haystack : data_ptr) (haystacklen : nat)
    (needles : data_ptr) {struct haystacklen} : outcome (option nat) :=
  match haystacklen with
  | O => Ret None
  | S n =>
      match haystack with
      | [] => Fault OverRead
      | b :: rest =>
          obind (needles_match (byte_val b) needles) (fun hit =>
            if hit : bool then Ret (Some O)
            else obind (guint8_pbrk rest n needles) (fun r => Ret (S <$> r)))
      end
  end.

(** The search limit computed by [tvb_find_guint8] and [tvb_pbrk_guint8]. *)
Definition search_limit (tvbufflen maxlength : Z) : Z :=
  if maxlength =? -1 then tvbufflen
  else if tvbufflen <? guint maxlength then tvbufflen
  else guint maxlength.

(** [tvb_find_guint8]. *)
Fixpoint tvb_find_guint8 (fuel : nat) (tvb : tvb_ptr)
    (offset maxlength needle : Z) : M Z :=
  match fuel with
  | O => out_of_fuel
  | S fuel' =>
      t <- deref tvb ;;
      ol <- lift (check_offset_length t offset 0) ;;
      let abs_offset := fst ol in
      remaining <- tvb_length_remaining tvb (gint abs_offset) ;;
      let tvbufflen := guint remaining in
      let limit := search_limit tvbufflen maxlength in
      match t_real_data t with
      | Some data =>
          result <- lift (guint8_find (ptr_add data abs_offset)
                            (Z.to_nat limit) (guint8 needle)) ;;
          match result with
          | None => ret (-1)
          | Some i => ret (gint (abs_offset + Z.of_nat i))
          end
      | None =>
          match t_type t with
          | TVBUFF_REAL_DATA => throw DissectorError
          | TVBUFF_SUBSET =>
              match b_tvb (t_subset t) with
              | Some backing =>
                  tvb_find_guint8 fuel' backing
                    (gint (guint (abs_offset - b_offset (t_subset t))))
                    (gint limit) needle
              | None => fault_ BadPointer
              end
          | TVBUFF_COMPOSITE => throw DissectorError
          end
      end
  end.

(** [tvb_pbrk_guint8]. *)
Fixpoint tvb_pbrk_guint8 (fuel : nat) (tvb : tvb_ptr)
    (offset maxlength : Z) (needles : data_ptr) : M Z :=
  match fuel with
  | O => out_of_fuel
  | S fuel' =>
      t <- deref tvb ;;
      ol <- lift (check_offset_length t offset 0) ;;
      let abs_offset := fst ol in
      remaining <- tvb_length_remaining tvb (gint abs_offset) ;;
      let tvbufflen := guint remaining in
      let limit := search_limit tvbufflen maxlength in
      match t_real_data t with
      | Some data =>
          result <- lift (guint8_pbrk (ptr_add data abs_offset)
                            (Z.to_nat limit) needles) ;;
          match result with
          | None => ret (-1)
          | Some i => ret (gint (abs_offset + Z.of_nat i))
          end
      | None =>
          match t_type t with
          | TVBUFF_REAL_DATA => throw DissectorError
          | TVBUFF_SUBSET =>
              match b_tvb (t_subset t) with
              | Some backing =>
                  tvb_pbrk_guint8 fuel' backing
                    (gint (guint (abs_offset - b_offset (t_subset t))))
                    (gint limit) needles
              | None => fault_ BadPointer
              end
          | TVBUFF_COMPOSITE => throw DissectorError
          end
      end
  end.

(** [tvb_strsize]. *)
Definition tvb_strsize (fuel : nat) (tvb : tvb_ptr) (offset : Z) : M Z :=
  t <- deref tvb ;;
  ol <- lift (check_offset_length t offset 0) ;;
  let abs_offset := fst ol in
  nul_offset <- tvb_find_guint8 fuel tvb (gint abs_offset) (-1) 0 ;;
  if nul_offset =? -1 then
    len <- tvb_length tvb ;;
    rep <- tvb_reported_length tvb ;;
    if len <? rep then throw BoundsError else throw ReportedBoundsError
  else ret (guint (nul_offset - abs_offset + 1)).

(** ** Decompression *)

Definition TVB_Z_MIN_BUFSIZ : Z := 32768.
Definition TVB_Z_MAX_BUFSIZ : Z := 1048576 * 10.

(** Constants of zlib.h. *)
Definition Z_OK : Z := 0.
Definition Z_STREAM_END : Z := 1.
Definition Z_DATA_ERROR : Z := -3.
Definition Z_BUF_ERROR : Z := -5.
Definition Z_DEFLATED : Z := 8.
Definition MAX_WBITS : Z := 15.

(** [*c], with [c] given as the offset [c - compr] into the copy [compr]. *)
Definition read_at (compr : data_ptr) (c : Z) : outcome Z :=
  if c <? 0 then Fault OverRead
  else
    match compr !! Z.to_nat c with
    | Some b => Ret (byte_val b)
    | None => Fault OverRead
    end.

(** [while ((c - compr) < comprlen && *c != '\0') c++;]
    Each round moves [c] one byte closer to [comprlen], so [n] rounds
    suffice when [n] is at least the distance from [c] to [comprlen]. *)
Fixpoint skip_to_nul (compr : data_ptr) (comprlen c : Z) (n : nat)
  : outcome Z :=
  if c <? comprlen then
    obind (read_at compr c) (fun b =>
      if b =? 0 then Ret c
      else
        match n with
        | O => OutOfFuel
        | S n' => skip_to_nul compr comprlen (c + 1) n'
        end)
  else Ret c.

Definition skip_stringz (compr : data_ptr) (comprlen c : Z) : outcome Z :=
  obind (skip_to_nul compr comprlen c (Z.to_nat (comprlen - c)))
    (fun c' => Ret (c' + 1)).

(** The walk over the gzip header in [tvb_uncompress]: the offset
    [c - compr] reached behind the optional sections, or [None] when the
    method byte is not [Z_DEFLATED] and the function returns null. *)
Definition gzip_header_cursor (compr : data_ptr) (comprlen : Z)
  : outcome (option Z) :=
  let c := 2 in
  obind (read_at compr c) (fun method =>
    if method =? Z_DEFLATED then
      let c := c + 1 in
      obind (read_at compr c) (fun flags =>
        let c := c + 7 in
        obind
          (if negb (Z.land flags (Z.shiftl 1 2) =? 0) then
             obind (read_at compr c) (fun lo =>
               obind (read_at compr (c + 1)) (fun hi =>
                 let xsize := gint (Z.lor lo (Z.shiftl hi 8)) in
                 Ret (c + xsize)))
           else Ret c)
          (fun c =>
             obind
               (if negb (Z.land flags (Z.shiftl 1 3) =? 0)
                then skip_stringz compr comprlen c else Ret c)
               (fun c =>
                  obind
                    (if negb (Z.land flags (Z.shiftl 1 4) =? 0)
                     then skip_stringz compr comprlen c else Ret c)
                    (fun c => Ret (Some c)))))
    else Ret None).

Section Uncompress.

(** zlib is an external library: the inflater is a parameter. A stream
    carries the two input fields the function assigns and the private
    state of the library. *)
Variable z_internal : Type.

Record z_stream : Type := {
  next_in : Z;
  avail_in : Z;
  z_state : z_internal
}.

Variable z_zeroed : z_internal.
Variable inflateInit2 : z_stream -> Z -> Z * z_stream.
(** [inflate compr bufsiz strm]: the return code, the stream afterwards
    and the bytes written to the output window. *)
Variable inflate : data_ptr -> Z -> z_stream -> Z * z_stream * list byte.
Variable inflateReset : z_stream -> z_stream.
Variable inflateEnd : z_stream -> z_stream.

Definition with_next_in (v : Z) (strm : z_stream) : z_stream :=
  {| next_in := v; avail_in := avail_in strm; z_state := z_state strm |}.

Definition with_avail_in (v : Z) (strm : z_stream) : z_stream :=
  {| next_in := next_in strm; avail_in := v; z_state := z_state strm |}.

(** [g_memdup]: null for a size of zero. *)
Definition g_memdup (mem : list byte) : option (list byte) :=
  match mem with
  | [] => None
  | _ => Some mem
  end.

(** The [while (1)] loop of [tvb_uncompress]. [Ret None] is a null return
    (or a [break] with nothing decoded), [Ret (Some (uncompr, bytes_out))]
    a [break] with decoded bytes. *)
Fixpoint uncompress_loop (fuel : nat) (compr : data_ptr) (bufsiz : Z)
    (strm : z_stream) (uncompr : option (list byte))
    (bytes_out inits_done wbits next comprlen : Z)
  : outcome (option (list byte * Z)) :=
  match fuel with
  | O => OutOfFuel
  | S fuel' =>
      let '(err, strm, strmbuf) := inflate compr bufsiz strm in
      if (err =? Z_OK) || (err =? Z_STREAM_END) then
        let bytes_pass := Z.of_nat (length strmbuf) in
        let uncompr :=
          match uncompr with
          | None => g_memdup strmbuf
          | Some old => Some (old ++ strmbuf)
          end in
        let bytes_out := guint (bytes_out + bytes_pass) in
        if err =? Z_STREAM_END then
          Ret (option_map (fun u => (u, bytes_out)) uncompr)
        else
          uncompress_loop fuel' compr bufsiz strm uncompr bytes_out
            inits_done wbits next comprlen
      else if err =? Z_BUF_ERROR then
        Ret (option_map (fun u => (u, bytes_out)) uncompr)
      else
        obind
          (if (err =? Z_DATA_ERROR) && (inits_done =? 1)
              && bool_decide (uncompr = None)
           then
             obind (read_at compr 0) (fun m0 =>
               if m0 =? 0x1f then
                 obind (read_at compr 1) (fun m1 => Ret (m1 =? 0x8b))
               else Ret false)
           else Ret false)
          (fun gzip : bool =>
             if gzip then
               obind (gzip_header_cursor compr comprlen) (fun r =>
                 match r with
                 | None => Ret None
                 | Some c =>
                     let strm := inflateReset strm in
                     let next := c in
                     let strm := with_next_in next strm in
                     if comprlen <? c then Ret None
                     else
                       let comprlen := gint (comprlen - gint c) in
                       let strm := inflateEnd strm in
                       let '(_, strm) := inflateInit2 strm wbits in
                       uncompress_loop fuel' compr bufsiz strm uncompr
                         bytes_out (guint (inits_done + 1)) wbits next
                         comprlen
                 end)
             else if (err =? Z_DATA_ERROR) && bool_decide (uncompr = None)
                     && (inits_done <=? 3) then
               let wbits := - MAX_WBITS in
               let strm := inflateReset strm in
               let strm := with_avail_in (guint comprlen)
                             (with_next_in next strm) in
               let strm := inflateEnd strm in
               let '(err, strm) := inflateInit2 strm wbits in
               if negb (err =? Z_OK) then Ret None
               else
                 uncompress_loop fuel' compr bufsiz strm uncompr bytes_out
                   (guint (inits_done + 1)) wbits next comprlen
             else
               Ret (option_map (fun u => (u, bytes_out)) uncompr))
  end.

(** [tvb_uncompress]: the new buffer, or [None] for a null return. The
    releases of the scratch buffers are not part of the embedding. *)
Definition tvb_uncompress (fuel : nat) (tvb : tvb_ptr)
    (offset comprlen : Z) : M (option tvb_ptr) :=
  let strm := {| next_in := 0; avail_in := 0; z_state := z_zeroed |} in
  compr <- tvb_memdup fuel tvb offset (size_t comprlen) ;;
  match compr with
  | [] => ret None
  | _ =>
      remaining <- tvb_length_remaining tvb offset ;;
      let bufsiz := guint (remaining * 2) in
      let bufsiz :=
        if bufsiz <? TVB_Z_MIN_BUFSIZ then TVB_Z_MIN_BUFSIZ
        else if TVB_Z_MAX_BUFSIZ <? bufsiz then TVB_Z_MIN_BUFSIZ
        else bufsiz in
      let next := 0 in
      let strm := with_avail_in (guint comprlen) (with_next_in next strm) in
      let '(err, strm) := inflateInit2 strm MAX_WBITS in
      if negb (err =? Z_OK) then ret None
      else
        r <- lift (uncompress_loop fuel compr bufsiz strm None 0 1
                     MAX_WBITS next comprlen) ;;
        match r with
        | None => ret None
        | Some (uncompr, bytes_out) =>
            uncompr_tvb <- tvb_new_real_data fuel (Some uncompr) bytes_out
                             (gint bytes_out) ;;
            tvb_set_free_cb uncompr_tvb ;;;
            ret (Some uncompr_tvb)
        end
  end.

(** [tvb_child_uncompress]. *)
Definition tvb_child_uncompress (fuel : nat) (parent tvb : tvb_ptr)
    (offset comprlen : Z) : M (option tvb_ptr) :=
  new_tvb <- tvb_uncompress fuel tvb offset comprlen ;;
  match new_tvb with
  | Some child => tvb_set_child_real_data_tvbuff parent child ;;; ret new_tvb
  | None => ret None
  end.

End Uncompress.

(** ** The bounds rules as the specification words them *)

(** The end of an access, clamped to the largest unsigned value. *)
Definition clamped_end (abs_offset abs_length : Z) : Z :=
  Z.min (abs_offset + abs_length) UINT_MAX.

(** Normalization of a signed offset and a signed length, on unbounded
    integers. *)
Definition normalize_spec (tvb : tvbuff_t) (o L : Z) : exception + (Z * Z) :=
  let magnitude := Z.abs o in
  if t_reported_length tvb <? magnitude then inl ReportedBoundsError
  else if t_length tvb <? magnitude then inl BoundsError
  else
    let abs_offset := if 0 <=? o then o else t_length tvb + o in
    if L <? -1 then inl BoundsError
    else if L =? -1 then inr (abs_offset, t_length tvb - abs_offset)
    else inr (abs_offset, L).

(** The classification of the range check. *)
Definition classify_spec (tvb : tvbuff_t) (abs_offset abs_length : Z)
  : exception + (Z * Z) :=
  let e := clamped_end abs_offset abs_length in
  if e <=? t_length tvb then inr (abs_offset, abs_length)
  else if e <=? t_reported_length tvb then inl BoundsError
  else inl ReportedBoundsError.

Definition bounds_check_spec (tvb : tvbuff_t) (o L : Z) : exception + (Z * Z) :=
  match normalize_spec tvb o L with
  | inl e => inl e
  | inr (abs_offset, abs_length) => classify_spec tvb abs_offset abs_length
  end.

(** ** Sample buffers *)

(** Bytes given by their values. *)
Definition bytes_of (l : list Z) : list byte :=
  map (fun z => default x00 (Byte.of_N (Z.to_N z))) l.

(** The header of a real buffer over [data], as [tvb_set_real_data] fills
    it. *)
Definition real_header (data : data_ptr) (length reported_length : Z)
  : tvbuff_t :=
  with_initialized true
    (with_reported_length reported_length
       (with_length length
          (with_real_data (Some data) (tvb_init TVBUFF_REAL_DATA)))).

(** A state whose heap holds the single header [tvb], at pointer 0. *)
Definition sample_state (tvb : tvbuff_t) : state :=
  {| heap := {[ 0%nat := tvb ]}; next_chunk := 1%nat; released := [];
     data_released := []; last_tvb_real := None; last_tvb_subset := None |}.

(** ** Headers after a subset construction *)

(** The header [tvb_new_subset] leaves in the new chunk, for a window that
    the check of the backing buffer [B] resolved to [ao], [al]. *)
Definition subset_header (backing : tvb_ptr) (B : tvbuff_t) (ao al rl : Z)
  : tvbuff_t :=
  with_ds_tvb (t_ds_tvb B)
    (with_real_data (option_map (fun d => ptr_add d ao) (t_real_data B))
       (with_initialized true
          (with_reported_length
             (if rl =? -1 then guint (t_reported_length B - ao) else guint rl)
             (with_length al
                (with_subset {| b_tvb := Some backing; b_offset := ao;
                                b_length := al |}
                   (tvb_init TVBUFF_SUBSET)))))).

(** The header of a buffer after [add_to_used_in_list] registered [user]. *)
Definition backing_header (user : tvb_ptr) (B : tvbuff_t) : tvbuff_t :=
  with_usage_count (guint (t_usage_count B + 1))
    (with_used_in (user :: t_used_in B) B).

(** ** Sample composites *)

(** A real buffer over the bytes [d], captured in full. *)
Definition new_real_of (d : list Z) : M tvb_ptr :=
  tvb_new_real_data 0 (Some (bytes_of d))
    (Z.of_nat (length d)) (Z.of_nat (length d)).

(** [tvb_new_composite], two or three [tvb_composite_append] and
    [tvb_composite_finalize] over fresh real buffers. *)
Definition compose2 (d0 d1 : list Z) : M tvb_ptr :=
  m0 <- new_real_of d0 ;;
  m1 <- new_real_of d1 ;;
  c <- tvb_new_composite ;;
  tvb_composite_append c m0 ;;;
  tvb_composite_append c m1 ;;;
  tvb_composite_finalize c ;;;
  ret c.

Definition compose3 (d0 d1 d2 : list Z) : M tvb_ptr :=
  m0 <- new_real_of d0 ;;
  m1 <- new_real_of d1 ;;
  m2 <- new_real_of d2 ;;
  c <- tvb_new_composite ;;
  tvb_composite_append c m0 ;;;
  tvb_composite_append c m1 ;;;
  tvb_composite_append c m2 ;;;
  tvb_composite_finalize c ;;;
  ret c.

(** ** Searches as the specification words them *)

(** The byte at the absolute offset [j] of the bytes [data]. *)
Definition byte_at (data : data_ptr) (j : Z) : option Z :=
  if j <? 0 then None else byte_val <$> data !! Z.to_nat j.

(** [r] is the result of a search for a byte satisfying [P] among the
    offsets from [from] up to, and excluding, [bound]: the offset of the
    first such byte, or -1 when there is none. *)
Definition first_match (P : Z -> bool) (data : data_ptr) (from bound r : Z)
  : Prop :=
  (r = -1
   /\ forall j v, from <= j < bound -> byte_at data j = Some v -> P v = false)
  \/ (from <= r < bound
      /\ (exists v, byte_at data r = Some v /\ P v = true)
      /\ forall j v, from <= j < r -> byte_at data j = Some v -> P v = false).

(** The index of the first of the [n] leading bytes that satisfies [P]. *)
Fixpoint first_index (P : Z -> bool) (hay : data_ptr) (n : nat) {struct n}
  : option nat :=
  match n, hay with
  | S n', b :: rest =>
      if P (byte_val b) then Some O else S <$> first_index P rest n'
  | _, _ => None
  end.

(** The values of a zero-terminated byte string. *)
Fixpoint cstring (p : data_ptr) : list Z :=
  match p with
  | [] => []
  | b :: rest => if byte_val b =? 0 then [] else byte_val b :: cstring rest
  end.

Definition among (needles : list Z) (item : Z) : bool :=
  existsb (Z.eqb item) needles.

(** The number of bytes a search may cover: [max] bytes, or all the
    [remaining] ones when [max] is negative or too large. *)
Definition limit_spec (remaining max : Z) : Z :=
  if max <? 0 then remaining else Z.min remaining max.

(** The search result the two functions compute from the index found. *)
Definition search_result (ao : Z) (found : option nat) : Z :=
  match found with
  | None => -1
  | Some i => ao + Z.of_nat i
  end.

(** A buffer with a direct byte pointer to [data], whose captured bytes are
    all allocated, whose captured length does not exceed its reported
    length, and fits a signed offset. *)
Definition direct_buffer (tvb : tvbuff_t) (data : data_ptr) : Prop :=
  t_initialized tvb = true
  /\ t_real_data tvb = Some data
  /\ 0 <= t_length tvb <= t_reported_length tvb
  /\ t_reported_length tvb <= UINT_MAX
  /\ t_length tvb <= INT_MAX
  /\ t_length tvb <= Z.of_nat (length data).

(** ** Purity, and the gzip header as the specification words it *)

(** A computation that leaves the state as it found it, whatever its
    outcome. *)
Definition pure_m {A} (m : M A) : Prop := forall s, snd (m s) = s.

(** The index of the first zero byte of [l]. *)
Fixpoint first_zero (l : data_ptr) : option nat :=
  match l with
  | [] => None
  | b :: rest => if byte_val b =? 0 then Some O else S <$> first_zero rest
  end.

(** The offset behind a zero-terminated string that starts at offset [c] of
    the [comprlen] bytes [compr], as the specification describes the walk:
    one past the terminator, and beyond [comprlen] when there is none. *)
Definition behind_stringz (compr : data_ptr) (comprlen c : Z) : Z :=
  match first_zero (drop (Z.to_nat c) compr) with
  | Some k => c + Z.of_nat k + 1
  | None => Z.max c comprlen + 1
  end.

Definition has_flag (flags : Z) (bit : Z) : bool :=
  negb (Z.land flags (Z.shiftl 1 bit) =? 0).

(** The header names a file or a comment whose terminator is missing. *)
Definition unterminated (compr : data_ptr) (comprlen flags : Z) : Prop :=
  let c1 := if has_flag flags 3 then behind_stringz compr comprlen 10 else 10 in
  let c2 := if has_flag flags 4 then behind_stringz compr comprlen c1 else c1 in
  (has_flag flags 3 = true \/ has_flag flags 4 = true) /\ comprlen < c2.

(** A gzip member cut short inside its file name: magic, method 8, the
    flag of a file name, six bytes of time, extra flags and system, and
    the three letters abc. *)
Definition gzip_cut_in_name : list Z :=
  [0x1f; 0x8b; 8; 8; 0; 0; 0; 0; 0; 0; 97; 98; 99].

(** A gzip member of ten bytes whose flags announce an extra field and a
    file name. *)
Definition gzip_cut_before_extra : list Z :=
  [0x1f; 0x8b; 8; 0x0c; 0; 0; 0; 0; 0; 0].

(** An inflater that rejects every input with a data error. *)
Definition rejecting_inflateInit2 (strm : z_stream unit) (wbits : Z)
  : Z * z_stream unit := (Z_OK, strm).

Definition rejecting_inflate (compr : data_ptr) (bufsiz : Z)
    (strm : z_stream unit) : Z * z_stream unit * list byte :=
  (Z_DATA_ERROR, strm, []).

(** ** Further length queries *)

(** [tvb_reported_length_remaining]. *)
Definition tvb_reported_length_remaining (tvb : tvb_ptr) (offset : Z) : M Z :=
  t <- deref tvb ;;
  DISSECTOR_ASSERT (t_initialized t) ;;;
  match compute_offset_length t offset (-1) with
  | inr (abs_offset, _) =>
      if abs_offset <=? t_reported_length t
      then ret (gint (guint (t_reported_length t - abs_offset)))
      else ret (-1)
  | inl _ => ret (-1)
  end.

(** A header whose fields hold C values and whose captured length exceeds
    neither its reported length nor the largest signed offset. *)
Definition well_formed (tvb : tvbuff_t) : Prop :=
  t_initialized tvb = true
  /\ 0 <= t_length tvb <= t_reported_length tvb
  /\ t_reported_length tvb <= UINT_MAX
  /\ t_length tvb <= INT_MAX.

(** The absolute offset of an offset within the captured bytes: a negative
    offset counts from the end. *)
Definition abs_offset_of (tvb : tvbuff_t) (offset : Z) : Z :=
  if 0 <=? offset then offset else t_length tvb + offset.

(** A packet of sixteen bytes of which the first four were captured. *)
Definition cut_short : tvbuff_t := real_header (bytes_of [1; 2; 3; 4]) 4 16.

(** A property of states that a computation cannot break. *)
Definition preserves (I : state -> Prop) {A} (m : M A) : Prop :=
  forall s, I s -> I (snd (m s)).

(** The header at [p] has been handed back and its chunk is vacant. *)
Definition reclaimed (p : tvb_ptr) (s : state) : Prop :=
  p ∈ released s /\ heap s !! p = None.

(** A subset of [backing] that nothing uses and that is referenced once. *)
Definition plain_subset (backing : tvb_ptr) (U : tvbuff_t) : Prop :=
  t_type U = TVBUFF_SUBSET /\ t_usage_count U = 1 /\ t_used_in U = []
  /\ b_tvb (t_subset U) = Some backing.

(** The sample packet with one subset over its second and third byte. *)
Definition with_one_subset : state :=
  snd (tvb_new_subset 0 0%nat 1 2 (-1) (sample_state cut_short)).

(** The start offsets of consecutive pieces of the lengths [lens], the first
    one starting at [start]; and the offsets of their last bytes. *)
Fixpoint running_starts (start : Z) (lens : list Z) : list Z :=
  match lens with
  | [] => []
  | l :: rest => start :: running_starts (start + l) rest
  end.

Fixpoint running_ends (start : Z) (lens : list Z) : list Z :=
  match lens with
  | [] => []
  | l :: rest => (start + l - 1) :: running_ends (start + l) rest
  end.

Definition sum_lengths (lens : list Z) : Z := foldr Z.add 0 lens.

(** The headers [Ms] are those of the members [ms], none of which is the
    composite [c] itself. *)
Definition members_at (s : state) (c : tvb_ptr) (ms : list tvb_ptr)
    (Ms : list tvbuff_t) : Prop :=
  Forall2 (fun m M => heap s !! m = Some M /\ m <> c /\ 0 <= t_length M) ms Ms.

(** A composite, at pointer 2, to which two real buffers of three and of two
    bytes were appended, before it is finalized. *)
Definition two_members : state :=
  snd ((m0 <- new_real_of [1; 2; 3] ;;
        m1 <- new_real_of [4; 5] ;;
        c <- tvb_new_composite ;;
        tvb_composite_append c m0 ;;;
        tvb_composite_append c m1) initial_state).

(** [tvb_strnlen]. *)
Definition tvb_strnlen (fuel : nat) (tvb : tvb_ptr) (offset maxlength : Z)
  : M Z :=
  t <- deref tvb ;;
  ol <- lift (check_offset_length t offset 0) ;;
  let abs_offset := fst ol in
  result_offset <- tvb_find_guint8 fuel tvb (gint abs_offset)
                     (gint maxlength) 0 ;;
  if result_offset =? -1 then ret (-1)
  else ret (gint (guint (result_offset - abs_offset))).

(** [memcmp (p, q, n) == 0].
    Modelled from the spec: the C library is not among the sources; the
    result is zero when the first [n] bytes of the two objects are equal,
    and both objects must hold [n] bytes. *)
Definition memcmp (p q : data_ptr) (n : Z) : outcome bool :=
  if (n <=? Z.of_nat (length p)) && (n <=? Z.of_nat (length q))
  then Ret (bool_decide (byte_val <$> take (Z.to_nat n) p
                         = byte_val <$> take (Z.to_nat n) q))
  else Fault OverRead.

(** [tvb_memeql]. *)
Definition tvb_memeql (fuel : nat) (tvb : tvb_ptr) (offset : Z)
    (str : data_ptr) (size : Z) : M Z :=
  r <- ensure_contiguous_no_exception fuel tvb offset (gint size) false ;;
  match r with
  | inr ptr =>
      equal <- lift (memcmp ptr str size) ;;
      ret (if equal : bool then 0 else -1)
  | inl _ => ret (-1)
  end.

(** [tvb_get_string]: the allocated buffer, [length + 1] bytes. *)
Definition tvb_get_string (fuel : nat) (tvb : tvb_ptr) (offset length : Z)
  : M (list byte) :=
  tvb_ensure_bytes_exist tvb offset length ;;;
  ptr <- ensure_contiguous fuel tvb offset length ;;
  strbuf <- (if length =? 0 then ret [] else memcpy ptr (size_t length)) ;;
  ret (strbuf ++ [x00]).

(** [tvb_get_stringz]: the allocated buffer and the value stored through
    [lengthp]. *)
Definition tvb_get_stringz (fuel : nat) (tvb : tvb_ptr) (offset : Z)
  : M (list byte * Z) :=
  size <- tvb_strsize fuel tvb offset ;;
  strptr <- tvb_memcpy fuel tvb offset (size_t size) ;;
  ret (strptr, gint size).

(** A packet captured in full that holds the string AB, its terminator and
    one more byte. *)
Definition with_nul : tvbuff_t := real_header (bytes_of [65; 66; 0; 67]) 4 4.

(** * Properties *)

(** ** Machine integers *)

Lemma guint_range z : is_guint (guint z).
Proof.
  unfold is_guint, guint, UINT_MAX.
  pose proof (Z.mod_pos_bound z 4294967296 ltac:(lia)). lia.
Qed.

Lemma guint_id z : is_guint z -> guint z = z.
Proof. unfold is_guint, guint, UINT_MAX. intros H. apply Z.mod_small. lia. Qed.

Lemma gint_id z : is_gint z -> gint z = z.
Proof.
  unfold is_gint, gint, INT_MIN, INT_MAX. intros H.
  rewrite Z.mod_small by lia. lia.
Qed.

(** Unsigned addition wraps exactly when the true sum exceeds [UINT_MAX];
    the wrapped sum is then below the first operand. *)
Lemma guint_add_overflow a b :
  is_guint a -> is_guint b ->
  (guint (a + b) <? a) = (UINT_MAX <? a + b).
Proof.
  unfold is_guint, guint, UINT_MAX. intros Ha Hb.
  destruct (Z_lt_dec (a + b) 4294967296) as [Hlt | Hge].
  - rewrite Z.mod_small by lia.
    destruct (Z.ltb_spec (a + b) a), (Z.ltb_spec 4294967295 (a + b)); lia.
  - replace ((a + b) mod 4294967296) with (a + b - 4294967296).
    + destruct (Z.ltb_spec (a + b - 4294967296) a),
               (Z.ltb_spec 4294967295 (a + b)); lia.
    + apply Z.mod_unique with (q := 1); lia.
Qed.

(** ** Bounds arithmetic *)

(** Whatever [compute_offset_length] returns fits a [guint]. *)
Lemma compute_offset_length_range tvb offset length abs_offset abs_length :
  compute_offset_length tvb offset length = inr (abs_offset, abs_length) ->
  is_guint abs_offset /\ is_guint abs_length.
Proof.
  unfold compute_offset_length. intros H.
  repeat match type of H with
         | context [if ?b then _ else _] => destruct b
         end;
    inversion H; subst; split; apply guint_range.
Qed.

(** The end offset the code computes is the clamped sum. *)
Lemma end_offset_clamped a b :
  is_guint a -> is_guint b ->
  (if guint (a + b) <? a then UINT_MAX else guint (a + b)) = clamped_end a b.
Proof.
  intros Ha Hb. rewrite guint_add_overflow by assumption.
  unfold clamped_end. destruct (Z.ltb_spec UINT_MAX (a + b)).
  - rewrite Z.min_r; lia.
  - rewrite Z.min_l by lia. apply guint_id.
    unfold is_guint in *. lia.
Qed.

(** The range check of the code is the classification of the
    specification. *)
Lemma check_offset_length_no_exception_classify tvb offset length ao al :
  t_initialized tvb = true ->
  compute_offset_length tvb offset length = inr (ao, al) ->
  check_offset_length_no_exception tvb offset length
  = Ret (classify_spec tvb ao al).
Proof.
  intros Hinit Hc.
  destruct (compute_offset_length_range _ _ _ _ _ Hc) as [Hao Hal].
  unfold check_offset_length_no_exception, classify_spec.
  rewrite Hinit, Hc. cbn [negb].
  rewrite (end_offset_clamped ao al Hao Hal).
  destruct (clamped_end ao al <=? t_length tvb); [reflexivity|].
  destruct (clamped_end ao al <=? t_reported_length tvb); reflexivity.
Qed.

(** C1. For an initialized buffer and an offset and a length that
    normalize to [abs_offset] and [abs_length], both entry points of the
    bounds check classify the access by the end [abs_offset + abs_length],
    clamped to the largest unsigned value: at most the captured length is
    a success, else at most the reported length is the captured-bounds
    error, else the reported-bounds error. *)
Theorem bounds_check_classification
    (tvb : tvbuff_t) (offset length abs_offset abs_length : Z) :
  t_initialized tvb = true ->
  compute_offset_length tvb offset length = inr (abs_offset, abs_length) ->
  let e := clamped_end abs_offset abs_length in
  check_offset_length_no_exception tvb offset length
  = Ret (if e <=? t_length tvb then inr (abs_offset, abs_length)
         else if e <=? t_reported_length tvb then inl BoundsError
         else inl ReportedBoundsError)
  /\ check_offset_length tvb offset length
     = (if e <=? t_length tvb then Ret (abs_offset, abs_length)
        else if e <=? t_reported_length tvb then Throw BoundsError
        else Throw ReportedBoundsError).
Proof.
  intros Hinit Hc e.
  pose proof (check_offset_length_no_exception_classify _ _ _ _ _ Hinit Hc) as H.
  unfold classify_spec in H. fold e in H.
  split; [exact H|].
  unfold check_offset_length. rewrite H.
  destruct (e <=? t_length tvb); [reflexivity|].
  destruct (e <=? t_reported_length tvb); reflexivity.
Qed.

Lemma bounds_check_classification_witness :
  check_offset_length_no_exception
    (real_header (bytes_of [1; 2; 3; 4]) 4 16) 2 4 = Ret (inl BoundsError)
  /\ check_offset_length
       (real_header (bytes_of [1; 2; 3; 4]) 4 16) 2 4 = Throw BoundsError.
Proof.
  exact (bounds_check_classification
           (real_header (bytes_of [1; 2; 3; 4]) 4 16) 2 4 2 4
           eq_refl eq_refl).
Defined.

(** On values of the C types, the normalization of the code is the
    normalization rule of the specification. *)
Lemma compute_offset_length_spec tvb offset length :
  tvb_guint_fields tvb -> is_gint offset -> is_gint length ->
  compute_offset_length tvb offset length = normalize_spec tvb offset length.
Proof.
  unfold tvb_guint_fields, is_guint, is_gint, UINT_MAX, INT_MIN, INT_MAX.
  intros [Hl Hr] Ho HL.
  unfold compute_offset_length, normalize_spec.
  destruct (Z.leb_spec 0 offset) as [Hpos | Hneg].
  - rewrite (guint_id offset) by (unfold is_guint, UINT_MAX; lia).
    rewrite (Z.abs_eq offset) by lia.
    destruct (Z.ltb_spec (t_reported_length tvb) offset); [reflexivity|].
    destruct (Z.ltb_spec (t_length tvb) offset); [reflexivity|].
    destruct (Z.ltb_spec length (-1)); [reflexivity|].
    destruct (Z.eqb_spec length (-1)).
    + rewrite guint_id by (unfold is_guint, UINT_MAX; lia). reflexivity.
    + rewrite guint_id by (unfold is_guint, UINT_MAX; lia). reflexivity.
  - rewrite (guint_id (- offset)) by (unfold is_guint, UINT_MAX; lia).
    rewrite (Z.abs_neq offset) by lia.
    destruct (Z.ltb_spec (t_reported_length tvb) (- offset)); [reflexivity|].
    destruct (Z.ltb_spec (t_length tvb) (- offset)); [reflexivity|].
    rewrite (guint_id (t_length tvb + offset))
      by (unfold is_guint, UINT_MAX; lia).
    destruct (Z.ltb_spec length (-1)); [reflexivity|].
    destruct (Z.eqb_spec length (-1)).
    + rewrite guint_id by (unfold is_guint, UINT_MAX; lia). reflexivity.
    + rewrite guint_id by (unfold is_guint, UINT_MAX; lia). reflexivity.
Qed.

(** The whole check of the code is the check of the specification. *)
Lemma check_offset_length_no_exception_spec tvb offset length :
  t_initialized tvb = true ->
  tvb_guint_fields tvb -> is_gint offset -> is_gint length ->
  check_offset_length_no_exception tvb offset length
  = Ret (bounds_check_spec tvb offset length).
Proof.
  intros Hinit Hf Ho HL.
  unfold bounds_check_spec.
  rewrite <- (compute_offset_length_spec tvb offset length Hf Ho HL).
  destruct (compute_offset_length tvb offset length) as [e | [ao al]] eqn:Hc.
  - unfold check_offset_length_no_exception. rewrite Hinit, Hc. reflexivity.
  - apply check_offset_length_no_exception_classify; assumption.
Qed.

(** C8. On an initialized buffer [tvb_ensure_bytes_exist] throws the
    reported-bounds error for every negative length, whatever the offset
    and the two lengths of the buffer are; for a length that is not
    negative it throws exactly when the bounds check of the specification
    fails, and then the error of its classification. It never changes the
    state. *)
Theorem ensure_bytes_exist_raises
    (s : state) (p : tvb_ptr) (tvb : tvbuff_t) (offset length : Z) :
  heap s !! p = Some tvb ->
  t_initialized tvb = true ->
  tvb_guint_fields tvb -> is_gint offset -> is_gint length ->
  tvb_ensure_bytes_exist p offset length s
  = if length <? 0 then (Throw ReportedBoundsError, s)
    else
      match bounds_check_spec tvb offset length with
      | inl e => (Throw e, s)
      | inr _ => (Ret tt, s)
      end.
Proof.
  intros Hp Hinit Hf Ho HL.
  unfold tvb_ensure_bytes_exist, bind, deref, DISSECTOR_ASSERT, lift.
  rewrite Hp, Hinit. cbn [ret].
  destruct (length <? 0); [reflexivity|].
  unfold check_offset_length.
  rewrite (check_offset_length_no_exception_spec _ _ _ Hinit Hf Ho HL).
  cbn [obind].
  destruct (bounds_check_spec tvb offset length) as [e | ol]; reflexivity.
Qed.

Lemma ensure_bytes_exist_raises_witness :
  tvb_ensure_bytes_exist 0%nat 2 4
    (sample_state (real_header (bytes_of [1; 2; 3; 4]) 4 16))
  = (Throw BoundsError,
     sample_state (real_header (bytes_of [1; 2; 3; 4]) 4 16)).
Proof.
  exact (ensure_bytes_exist_raises
           (sample_state (real_header (bytes_of [1; 2; 3; 4]) 4 16)) 0%nat
           (real_header (bytes_of [1; 2; 3; 4]) 4 16) 2 4
           eq_refl eq_refl
           ltac:(unfold tvb_guint_fields, is_guint, UINT_MAX; cbn; lia)
           ltac:(unfold is_gint, INT_MIN, INT_MAX; lia)
           ltac:(unfold is_gint, INT_MIN, INT_MAX; lia)).
Defined.

(** ** Running the monad *)

Lemma deref_some s p t : heap s !! p = Some t -> deref p s = (Ret t, s).
Proof. intros H. unfold deref. rewrite H. reflexivity. Qed.

Lemma store_some s p t0 t :
  heap s !! p = Some t0 ->
  store p t s = (Ret tt, set_heap (<[p := t]> (heap s)) s).
Proof. intros H. unfold store. rewrite H. reflexivity. Qed.

Lemma bind_run {A B} (m : M A) (k : A -> M B) s a s' :
  m s = (Ret a, s') -> bind m k s = k a s'.
Proof. intros H. unfold bind. rewrite H. reflexivity. Qed.

Lemma assert_run b s : b = true -> DISSECTOR_ASSERT b s = (Ret tt, s).
Proof. intros ->. reflexivity. Qed.

Lemma lift_run {A} (o : outcome A) s : lift o s = (o, s).
Proof. reflexivity. Qed.

Ltac hsimpl :=
  cbn [heap next_chunk released data_released last_tvb_real last_tvb_subset set_heap].

Ltac hlookup :=
  hsimpl;
  repeat first [rewrite lookup_insert_eq | rewrite lookup_insert_ne by congruence];
  first [eassumption | reflexivity].

Ltac mderef := erewrite bind_run by (apply deref_some; hlookup).
Ltac mstore := erewrite bind_run by (eapply store_some; hlookup).
Ltac massert := erewrite bind_run by (apply assert_run; first [assumption | reflexivity]).


(** ** Subset construction *)

Lemma add_to_used_in_list_run s tvb t used_in :
  heap s !! tvb = Some t ->
  add_to_used_in_list tvb used_in s
  = (Ret tt, set_heap (<[tvb := backing_header used_in t]> (heap s)) s).
Proof.
  intros Ht. unfold add_to_used_in_list, modify, tvb_increment_usage_count.
  erewrite bind_run.
  2:{ mderef. eapply store_some. hlookup. }
  erewrite bind_run. 
  2:{ mderef. mstore. reflexivity. }
  unfold ret, set_heap; hsimpl. rewrite insert_insert_eq. reflexivity.
Qed.


Lemma tvb_new_subset_run fuel s backing B bo bl rl ao al :
  heap s !! backing = Some B ->
  heap s !! next_chunk s = None ->
  last_tvb_subset s = None ->
  (rl <? -1) = false ->
  check_offset_length B bo bl = Ret (ao, al) ->
  exists s',
    tvb_new_subset fuel backing bo bl rl s = (Ret (next_chunk s), s')
    /\ heap s' !! next_chunk s = Some (subset_header backing B ao al rl)
    /\ heap s' !! backing = Some (backing_header (next_chunk s) B).
Proof.
  intros HB Hfresh Hlast Hrl Hchk.
  assert (Hne : next_chunk s ≠ backing) by congruence.
  unfold tvb_new_subset.
  erewrite bind_run by reflexivity.
  erewrite bind_run by reflexivity.
  hsimpl. rewrite Hlast.
  erewrite bind_run by reflexivity.
  erewrite bind_run by reflexivity.
  unfold tvb_set_subset at 1.
  destruct (t_real_data B) as [data|] eqn:Hdata.
  - erewrite (bind_run (bind (deref _) _)).
    2:{ mderef. massert. massert. rewrite Hrl.
        mderef. erewrite bind_run by (unfold lift; rewrite Hchk; reflexivity).
        cbn [fst snd].
        mstore. hsimpl.
        erewrite bind_run by (apply add_to_used_in_list_run; hlookup).
        hsimpl. mderef.
        unfold backing_header; cbn [t_real_data with_usage_count with_used_in].
        rewrite Hdata.
        unfold modify. mderef. eapply store_some. hlookup. }
    hsimpl.
    mderef. unfold modify. erewrite bind_run. 2:{ mderef. eapply store_some. hlookup. }
    erewrite bind_run by reflexivity.
    unfold ret. eexists. split; [reflexivity|].
    hsimpl. split.
    + rewrite lookup_insert_eq. unfold subset_header. rewrite Hdata. reflexivity.
    + repeat (rewrite lookup_insert_ne by congruence). rewrite lookup_insert_eq. reflexivity.
  - erewrite (bind_run (bind (deref _) _)).
    2:{ mderef. massert. massert. rewrite Hrl.
        mderef. erewrite bind_run by (unfold lift; rewrite Hchk; reflexivity).
        cbn [fst snd].
        mstore. hsimpl.
        erewrite bind_run by (apply add_to_used_in_list_run; hlookup).
        hsimpl. mderef.
        unfold backing_header; cbn [t_real_data with_usage_count with_used_in].
        rewrite Hdata. reflexivity. }
    hsimpl.
    mderef. unfold modify. erewrite bind_run. 2:{ mderef. eapply store_some. hlookup. }
    erewrite bind_run by reflexivity.
    unfold ret. eexists. split; [reflexivity|].
    hsimpl. split.
    + rewrite lookup_insert_eq. unfold subset_header. rewrite Hdata. reflexivity.
    + repeat (rewrite lookup_insert_ne by congruence). rewrite lookup_insert_eq. reflexivity.
Qed.

(** ** The access one past the last byte *)

Lemma offset_at_length_in_bounds tvb :
  t_initialized tvb = true ->
  tvb_guint_fields tvb ->
  t_length tvb <= t_reported_length tvb ->
  t_length tvb <= INT_MAX ->
  check_offset_length_no_exception tvb (t_length tvb) 0
  = Ret (inr (t_length tvb, 0)).
Proof.
  intros Hinit Hf Hle Hmax.
  rewrite check_offset_length_no_exception_spec; try assumption.
  - unfold bounds_check_spec, normalize_spec, classify_spec, clamped_end.
    destruct Hf as [Hl Hr]. unfold is_guint, UINT_MAX in *. 
    rewrite Z.abs_eq by lia.
    rewrite (proj2 (Z.ltb_ge _ _)) by lia.
    rewrite (proj2 (Z.ltb_ge _ _)) by lia.
    rewrite (proj2 (Z.leb_le 0 _)) by lia.
    cbn [Z.ltb Z.eqb Z.compare].
    rewrite Z.add_0_r, Z.min_l by lia.
    rewrite Z.leb_refl. reflexivity.
  - destruct Hf as [Hl Hr]. unfold is_gint, is_guint, INT_MIN, INT_MAX in *. lia.
  - unfold is_gint, INT_MIN, INT_MAX. lia.
Qed.



Lemma get_guint8_empty_subset fuel s p sub :
  heap s !! p = Some sub ->
  t_initialized sub = true ->
  t_length sub = 0 -> t_reported_length sub = 0 ->
  tvb_get_guint8 (S fuel) p 0 s = (Throw ReportedBoundsError, s).
Proof.
  intros Hp Hinit Hlen Hrep.
  unfold tvb_get_guint8, fast_ensure_contiguous.
  assert (Hchk : check_offset_length_no_exception sub 0 (gint 1)
                 = Ret (inl ReportedBoundsError)).
  { unfold check_offset_length_no_exception, compute_offset_length.
    rewrite Hinit, Hlen, Hrep. reflexivity. }
  unfold bind at 1. unfold bind at 1.
  rewrite (deref_some _ _ _ Hp).
  unfold bind at 1. rewrite (assert_run _ _ Hinit).
  destruct (t_real_data sub) as [data|].
  - rewrite Hlen, Hrep. reflexivity.
  - unfold ensure_contiguous. cbn [ensure_contiguous_no_exception].
    unfold bind at 1. unfold bind at 1. rewrite (deref_some _ _ _ Hp).
    unfold bind at 1. unfold lift at 1. rewrite Hchk. reflexivity.
Qed.

(** C2, as amended. On an initialized buffer whose captured length does not
    exceed its reported length (and fits a signed offset), the access of
    length 0 at the offset equal to the captured length passes the bounds
    check. For a backing buffer of length 10 and reported length 10,
    [tvb_new_subset] at offset 10 with length 0 and reported length 0
    returns a buffer of length 0, and [tvb_get_guint8] at offset 0 of that
    buffer throws the reported-bounds error. *)
Theorem zero_length_access_at_end :
  (forall tvb : tvbuff_t,
      t_initialized tvb = true ->
      tvb_guint_fields tvb ->
      t_length tvb <= t_reported_length tvb ->
      t_length tvb <= INT_MAX ->
      check_offset_length_no_exception tvb (t_length tvb) 0
      = Ret (inr (t_length tvb, 0)))
  /\ (forall (fuel : nat) (s : state) (backing : tvb_ptr) (B : tvbuff_t),
         heap s !! backing = Some B ->
         heap s !! next_chunk s = None ->
         last_tvb_subset s = None ->
         t_initialized B = true ->
         t_length B = 10 -> t_reported_length B = 10 ->
         exists (s' : state) (sub : tvbuff_t),
           tvb_new_subset fuel backing 10 0 0 s = (Ret (next_chunk s), s')
           /\ heap s' !! next_chunk s = Some sub
           /\ t_initialized sub = true
           /\ t_length sub = 0
           /\ forall fuel' : nat,
               tvb_get_guint8 (S fuel') (next_chunk s) 0 s'
               = (Throw ReportedBoundsError, s')).
Proof.
  split.
  - apply offset_at_length_in_bounds.
  - intros fuel s backing B HB Hfresh Hlast Hinit Hlen Hrep.
    assert (Hchk : check_offset_length B 10 0 = Ret (10, 0)).
    { unfold check_offset_length, check_offset_length_no_exception,
        compute_offset_length.
      rewrite Hinit, Hlen, Hrep. reflexivity. }
    destruct (tvb_new_subset_run fuel s backing B 10 0 0 10 0
                HB Hfresh Hlast eq_refl Hchk) as (s' & Hrun & Hsub & _).
    exists s', (subset_header backing B 10 0 0).
    split; [exact Hrun|]. split; [exact Hsub|].
    split; [reflexivity|]. split; [reflexivity|].
    intros fuel'. apply (get_guint8_empty_subset fuel' s' _ _ Hsub); reflexivity.
Qed.

Lemma zero_length_access_at_end_witness :
  check_offset_length_no_exception
    (real_header (bytes_of [0; 1; 2; 3; 4; 5; 6; 7; 8; 9]) 10 10) 10 0
  = Ret (inr (10, 0))
  /\ exists (s' : state) (sub : tvbuff_t),
      tvb_new_subset 0 0%nat 10 0 0
        (sample_state (real_header (bytes_of [0; 1; 2; 3; 4; 5; 6; 7; 8; 9]) 10 10))
      = (Ret 1%nat, s')
      /\ heap s' !! 1%nat = Some sub
      /\ t_initialized sub = true
      /\ t_length sub = 0
      /\ forall fuel' : nat,
          tvb_get_guint8 (S fuel') 1%nat 0 s'
          = (Throw ReportedBoundsError, s').
Proof.
  destruct zero_length_access_at_end as [Ha Hb]. split.
  - apply (Ha (real_header (bytes_of [0; 1; 2; 3; 4; 5; 6; 7; 8; 9]) 10 10)).
    + reflexivity.
    + unfold tvb_guint_fields, is_guint, UINT_MAX; cbn; lia.
    + cbn; lia.
    + unfold INT_MAX; cbn; lia.
  - apply (Hb 0%nat
             (sample_state
                (real_header (bytes_of [0; 1; 2; 3; 4; 5; 6; 7; 8; 9]) 10 10))
             0%nat
             (real_header (bytes_of [0; 1; 2; 3; 4; 5; 6; 7; 8; 9]) 10 10));
      reflexivity.
Defined.

(** The claim as stated fails on a buffer that [tvb_new_real_data] builds
    with a reported length below its captured length: the offset equal to
    the captured length is then beyond the reported length. *)
Lemma zero_length_access_at_end_counterexample :
  let built :=
    tvb_new_real_data 0 (Some (bytes_of [0; 1; 2; 3; 4; 5; 6; 7; 8; 9])) 10 5
      initial_state in
  fst built = Ret 0%nat
  /\ fst (tvb_length 0%nat (snd built)) = Ret 10
  /\ fst (tvb_bytes_exist 0%nat 10 0 (snd built)) = Ret false
  /\ fst (tvb_ensure_bytes_exist 0%nat 10 0 (snd built))
     = Throw ReportedBoundsError.
Proof. vm_compute. repeat split. Qed.

(** ** Bit fields at octet boundaries *)

Lemma bind_inv {A B} (m : M A) (k : A -> M B) s b s' :
  bind m k s = (Ret b, s') ->
  exists a s1, m s = (Ret a, s1) /\ k a s1 = (Ret b, s').
Proof.
  unfold bind. destruct (m s) as [[a | e | f |] s1]; intros H;
    try discriminate. eauto.
Qed.

(** A continuation that returns what it is given can be dropped. *)
Lemma bind_ret_id {A} (m : M A) (f : A -> A) s :
  (forall a s', m s = (Ret a, s') -> f a = a) ->
  bind m (fun a => ret (f a)) s = m s.
Proof.
  intros H. unfold bind, ret.
  destruct (m s) as [[a | e | x |] s1] eqn:Hm; try reflexivity.
  rewrite (H a s1 eq_refl). reflexivity.
Qed.

Lemma byte_val_range b : 0 <= byte_val b < 256.
Proof.
  unfold byte_val. pose proof (Byte.to_N_bounded b). lia.
Qed.

Lemma read_guint8_range p i s v s' :
  read_guint8 p i s = (Ret v, s') -> 0 <= v < 256.
Proof.
  unfold read_guint8. destruct (p !! i); [|discriminate].
  unfold ret. intros H. inversion H. apply byte_val_range.
Qed.

Lemma lor_range a b n :
  0 <= n -> 0 <= a < 2 ^ n -> 0 <= b < 2 ^ n -> 0 <= Z.lor a b < 2 ^ n.
Proof.
  intros Hn Ha Hb. split.
  - apply Z.lor_nonneg. lia.
  - destruct (Z.eq_dec (Z.lor a b) 0) as [-> | Hnz]; [lia|].
    assert (0 <= Z.lor a b) by (apply Z.lor_nonneg; lia).
    apply Z.log2_lt_pow2; [lia|].
    rewrite Z.log2_lor by lia.
    destruct (Z.eq_dec a 0) as [-> | Ha0]; destruct (Z.eq_dec b 0) as [-> | Hb0].
    + rewrite Z.lor_0_l in Hnz. lia.
    + cbn [Z.log2]. rewrite Z.max_r by apply Z.log2_nonneg.
      apply Z.log2_lt_pow2; lia.
    + cbn [Z.log2]. rewrite Z.max_l by apply Z.log2_nonneg.
      apply Z.log2_lt_pow2; lia.
    + apply Z.max_lub_lt; apply Z.log2_lt_pow2; lia.
Qed.

Lemma shiftl_range a k n :
  0 <= k -> 0 <= n -> 0 <= a < 2 ^ n -> 0 <= Z.shiftl a k < 2 ^ (n + k).
Proof.
  intros Hk Hn Ha. rewrite Z.shiftl_mul_pow2 by lia.
  rewrite Z.pow_add_r by lia.
  assert (0 < 2 ^ k) by (apply Z.pow_pos_nonneg; lia). nia.
Qed.

Lemma widen a n m : n <= m -> 0 <= a < 2 ^ n -> 0 <= a < 2 ^ m.
Proof.
  intros Hnm [H0 H1]. split; [lia|].
  apply Z.lt_le_trans with (2 ^ n); [lia|].
  apply Z.pow_le_mono_r; lia.
Qed.

Lemma pntohs_range p s v s' :
  pntohs p s = (Ret v, s') -> 0 <= v < 2 ^ 16.
Proof.
  unfold pntohs. intros H.
  apply bind_inv in H as (b0 & s0 & H0 & H).
  apply bind_inv in H as (b1 & s1 & H1 & H).
  apply read_guint8_range in H0, H1.
  unfold ret in H. inversion H. 
  apply (lor_range _ _ 16); [lia| |].
  - apply (shiftl_range b0 8 8); lia.
  - apply (widen b1 8); lia.
Qed.

Lemma pntohl_range p s v s' :
  pntohl p s = (Ret v, s') -> 0 <= v < 2 ^ 32.
Proof.
  unfold pntohl. intros H.
  apply bind_inv in H as (b0 & s0 & H0 & H).
  apply bind_inv in H as (b1 & s1 & H1 & H).
  apply bind_inv in H as (b2 & s2 & H2 & H).
  apply bind_inv in H as (b3 & s3 & H3 & H).
  apply read_guint8_range in H0, H1, H2, H3.
  unfold ret in H. inversion H.
    apply (lor_range _ _ 32); [lia | apply (shiftl_range b0 24 8); lia |].
  apply (lor_range _ _ 32);
    [lia | apply (widen _ 24); [lia | apply (shiftl_range b1 16 8); lia] |].
  apply (lor_range _ _ 32);
    [lia | apply (widen _ 16); [lia | apply (shiftl_range b2 8 8); lia] |].
  apply (widen b3 8); lia.
Qed.

Lemma pntoh64_range p s v s' :
  pntoh64 p s = (Ret v, s') -> 0 <= v < 2 ^ 64.
Proof.
  unfold pntoh64. intros H.
  apply bind_inv in H as (b0 & s0 & H0 & H).
  apply bind_inv in H as (b1 & s1 & H1 & H).
  apply bind_inv in H as (b2 & s2 & H2 & H).
  apply bind_inv in H as (b3 & s3 & H3 & H).
  apply bind_inv in H as (b4 & s4 & H4 & H).
  apply bind_inv in H as (b5 & s5 & H5 & H).
  apply bind_inv in H as (b6 & s6 & H6 & H).
  apply bind_inv in H as (b7 & s7 & H7 & H).
  apply read_guint8_range in H0, H1, H2, H3, H4, H5, H6, H7.
  unfold ret in H. inversion H.
    apply (lor_range _ _ 64); [lia | apply (shiftl_range b0 56 8); lia |].
  apply (lor_range _ _ 64);
    [lia | apply (widen _ 56); [lia | apply (shiftl_range b1 48 8); lia] |].
  apply (lor_range _ _ 64);
    [lia | apply (widen _ 48); [lia | apply (shiftl_range b2 40 8); lia] |].
  apply (lor_range _ _ 64);
    [lia | apply (widen _ 40); [lia | apply (shiftl_range b3 32 8); lia] |].
  apply (lor_range _ _ 64);
    [lia | apply (widen _ 32); [lia | apply (shiftl_range b4 24 8); lia] |].
  apply (lor_range _ _ 64);
    [lia | apply (widen _ 24); [lia | apply (shiftl_range b5 16 8); lia] |].
  apply (lor_range _ _ 64);
    [lia | apply (widen _ 16); [lia | apply (shiftl_range b6 8 8); lia] |].
  apply (widen b7 8); lia.
Qed.

Lemma aligned_offset k : Z.shiftr (8 * k) 3 = k.
Proof.
  rewrite Z.shiftr_div_pow2 by lia. change (2 ^ 3) with 8.
  rewrite Z.mul_comm. apply Z.div_mul. lia.
Qed.

Lemma aligned_bit k : Z.land (8 * k) 7 = 0.
Proof.
  change 7 with (Z.ones 3). rewrite Z.land_ones by lia.
  change (2 ^ 3) with 8. rewrite Z.mul_comm. apply Z.mod_mul. lia.
Qed.

Lemma land_ones_small v n : 0 <= n -> 0 <= v < 2 ^ n -> Z.land v (Z.ones n) = v.
Proof. intros Hn Hv. rewrite Z.land_ones by lia. apply Z.mod_small. lia. Qed.

Lemma tvb_get_guint8_range fuel tvb offset s v s' :
  tvb_get_guint8 fuel tvb offset s = (Ret v, s') -> 0 <= v < 2 ^ 8.
Proof.
  unfold tvb_get_guint8. intros H.
  apply bind_inv in H as (p & s1 & _ & H).
  apply read_guint8_range in H. exact H.
Qed.

Lemma tvb_get_ntohs_range fuel tvb offset s v s' :
  tvb_get_ntohs fuel tvb offset s = (Ret v, s') -> 0 <= v < 2 ^ 16.
Proof.
  unfold tvb_get_ntohs. intros H.
  apply bind_inv in H as (p & s1 & _ & H). exact (pntohs_range _ _ _ _ H).
Qed.

Lemma tvb_get_ntohl_range fuel tvb offset s v s' :
  tvb_get_ntohl fuel tvb offset s = (Ret v, s') -> 0 <= v < 2 ^ 32.
Proof.
  unfold tvb_get_ntohl. intros H.
  apply bind_inv in H as (p & s1 & _ & H). exact (pntohl_range _ _ _ _ H).
Qed.

Lemma tvb_get_ntoh64_range fuel tvb offset s v s' :
  tvb_get_ntoh64 fuel tvb offset s = (Ret v, s') -> 0 <= v < 2 ^ 64.
Proof.
  unfold tvb_get_ntoh64. intros H.
  apply bind_inv in H as (p & s1 & _ & H). exact (pntoh64_range _ _ _ _ H).
Qed.

(** Masking a value of [n] bits with the full mask and converting it to the
    [n]-bit type leaves it as it is. *)
Lemma full_mask_id v n :
  0 <= n -> 0 <= v < 2 ^ n -> Z.land v (Z.ones n) mod 2 ^ n = v.
Proof.
  intros Hn Hv. rewrite land_ones_small by assumption.
  apply Z.mod_small. lia.
Qed.

(** C7. At a bit offset that is a multiple of eight the bit-field accessors
    are the big-endian integer accessors: 8 bits at [8 * k] are
    [tvb_get_guint8] at [k], 16 bits are [tvb_get_ntohs], 32 bits are
    [tvb_get_ntohl] and 64 bits are [tvb_get_ntoh64], with the same value
    when the bytes can be read and the same error when they cannot. *)
Theorem aligned_bits_are_integers (fuel : nat) (tvb : tvb_ptr) (k : Z) (s : state) :
  tvb_get_bits8 fuel tvb (8 * k) 8 s = tvb_get_guint8 fuel tvb k s
  /\ tvb_get_bits16 fuel tvb (8 * k) 16 false s = tvb_get_ntohs fuel tvb k s
  /\ tvb_get_bits32 fuel tvb (8 * k) 32 false s = tvb_get_ntohl fuel tvb k s
  /\ tvb_get_bits64 fuel tvb (8 * k) 64 false s = tvb_get_ntoh64 fuel tvb k s.
Proof.
  unfold tvb_get_bits8, tvb_get_bits16, tvb_get_bits32, tvb_get_bits64.
  rewrite aligned_offset, aligned_bit.
  repeat split.
  - change (8 <? 8) with false. change (guint8 (0 + 8)) with 8.
    change (8 <=? 8) with true. cbv beta iota.
    apply (bind_ret_id (tvb_get_guint8 fuel tvb k)).
    intros v s' Hv. apply tvb_get_guint8_range in Hv.
    change (mask_at bit_mask8 0) with (Z.ones 8).
    unfold guint16, guint8. change (8 - 8) with 0. rewrite Z.shiftr_0_r.
    rewrite land_ones_small by lia.
    change 65536 with (2 ^ 16). change 256 with (2 ^ 8).
    rewrite !(Z.mod_small v (2 ^ 16)) by (apply (widen v 8); lia).
    apply Z.mod_small. exact Hv.
  - change ((16 <? 8) || (16 <? 16)) with false.
    change (guint8 (0 + 16)) with 16.
    change (16 <? 16) with false. cbv beta iota.
    apply (bind_ret_id (tvb_get_ntohs fuel tvb k)).
    intros v s' Hv. apply tvb_get_ntohs_range in Hv.
    change (mask_at bit_mask16 0) with (Z.ones 16).
    apply (full_mask_id v 16); [lia | exact Hv].
  - change ((32 <? 17) || (32 <? 32)) with false.
    change (guint8 (0 + 32)) with 32.
    change (32 <? 32) with false. cbv beta iota.
    apply (bind_ret_id (tvb_get_ntohl fuel tvb k)).
    intros v s' Hv. apply tvb_get_ntohl_range in Hv.
    change (mask_at bit_mask32 0) with (Z.ones 32).
    apply (full_mask_id v 32); [lia | exact Hv].
  - change ((64 <? 32) || (64 <? 64)) with false.
    change (guint8 (0 + 64)) with 64.
    change (64 <? 64) with false. cbv beta iota.
    apply (bind_ret_id (tvb_get_ntoh64 fuel tvb k)).
    intros v s' Hv. apply tvb_get_ntoh64_range in Hv.
    change (mask_at bit_mask64 0) with (Z.ones 64).
    apply (full_mask_id v 64); [lia | exact Hv].
Qed.

(** The bit fields of the bytes 11001010 11110000: five bits at bit 3, and
    eight bits at bit 4. *)
Example bits_spanning_two_octets :
  fst (tvb_get_bits8 1 0%nat 3 5
         (sample_state (real_header (bytes_of [0xCA; 0xF0]) 2 2))) = Ret 10
  /\ fst (tvb_get_bits16 1 0%nat 4 8 false
            (sample_state (real_header (bytes_of [0xCA; 0xF0]) 2 2)))
     = Ret 175.
Proof. vm_compute. split; reflexivity. Qed.

(** ** Composites: finalization and release *)

Lemma composite_finalize_loop_reported_length tvb members :
  forall s s' t,
    heap s !! tvb = Some t ->
    composite_finalize_loop tvb members s = (Ret tt, s') ->
    exists t', heap s' !! tvb = Some t'
               /\ t_reported_length t' = t_reported_length t.
Proof.
  induction members as [| m rest IH]; intros s s' t Ht Hrun.
  - unfold composite_finalize_loop, ret in Hrun. inversion Hrun; subst. eauto.
  - cbn [composite_finalize_loop] in Hrun.
    apply bind_inv in Hrun as (mt & s1 & Hm & Hrun).
    apply bind_inv in Hrun as (t0 & s2 & Ht0 & Hrun).
    apply bind_inv in Hrun as ([] & s3 & Hst & Hrun).
    unfold deref in Hm. destruct (heap s !! m); [|discriminate].
    inversion Hm; subst s1.
    unfold deref in Ht0. rewrite Ht in Ht0. inversion Ht0; subst t0 s2.
    unfold store in Hst. rewrite Ht in Hst. inversion Hst; subst s3.
    eapply IH in Hrun; [| cbn [heap set_heap]; apply lookup_insert_eq].
    destruct Hrun as (t' & Ht' & Hrep).
    exists t'. split; [exact Ht'|]. rewrite Hrep. reflexivity.
Qed.

Lemma assert_inv b s u s' : DISSECTOR_ASSERT b s = (Ret u, s') -> b = true /\ s' = s.
Proof.
  unfold DISSECTOR_ASSERT. destruct b; unfold ret, throw; intros H; inversion H; auto.
Qed.

Lemma composite_finalize_keeps_reported_length tvb s s' :
  tvb_composite_finalize tvb s = (Ret tt, s') ->
  exists t t',
    heap s !! tvb = Some t /\ heap s' !! tvb = Some t'
    /\ t_initialized t' = true
    /\ t_reported_length t' = t_reported_length t.
Proof.
  unfold tvb_composite_finalize. intros Hrun.
  apply bind_inv in Hrun as (t & s1 & Ht & Hrun).
  unfold deref in Ht. destruct (heap s !! tvb) as [t0|] eqn:Hlook; [|discriminate].
  inversion Ht; subst t0 s1.
  apply bind_inv in Hrun as ([] & s1 & Ha & Hrun). apply assert_inv in Ha as [_ ->].
  apply bind_inv in Hrun as ([] & s1 & Ha & Hrun). apply assert_inv in Ha as [_ ->].
  apply bind_inv in Hrun as ([] & s1 & Ha & Hrun). apply assert_inv in Ha as [_ ->].
  apply bind_inv in Hrun as ([] & s1 & Hst & Hrun).
  unfold store in Hst. rewrite Hlook in Hst. inversion Hst; subst s1.
  apply bind_inv in Hrun as ([] & s2 & Hloop & Hrun).
  eapply composite_finalize_loop_reported_length in Hloop;
    [| cbn [heap set_heap]; apply lookup_insert_eq].
  destruct Hloop as (t1 & Ht1 & Hrep).
  unfold modify in Hrun.
  apply bind_inv in Hrun as (t2 & s3 & Hd & Hrun).
  unfold deref in Hd. rewrite Ht1 in Hd. inversion Hd; subst t2 s3.
  unfold store in Hrun. rewrite Ht1 in Hrun. inversion Hrun.
  exists t, (with_initialized true t1).
  split; [reflexivity|]. split; [cbn [heap set_heap]; apply lookup_insert_eq|].
  split; [reflexivity|]. exact Hrep.
Qed.

(** C3, evaluated on the composite of the members 1 2 3, 4 5 and 6 7 8 9.
    After [tvb_composite_finalize] the length is 9, the sum of the member
    lengths, and the offset tables are the running sums; the reported
    length however is still the 0 of [tvb_init], not the length, so that a
    read at any offset other than 0 throws the reported-bounds error. *)
Theorem composite_finalize_reported_length_zero :
  let built := compose3 [1; 2; 3] [4; 5] [6; 7; 8; 9] initial_state in
  fst built = Ret 3%nat
  /\ (t_length <$> heap (snd built) !! 3%nat) = Some 9
  /\ (t_reported_length <$> heap (snd built) !! 3%nat) = Some 0
  /\ (c_start_offsets ∘ t_composite <$> heap (snd built) !! 3%nat)
     = Some (Some [0; 3; 5])
  /\ (c_end_offsets ∘ t_composite <$> heap (snd built) !! 3%nat)
     = Some (Some [2; 4; 8])
  /\ fst (tvb_get_ntohl 9 3%nat 2 (snd built)) = Throw ReportedBoundsError
  /\ fst (tvb_get_guint8 9 3%nat 1 (snd built)) = Throw ReportedBoundsError.
Proof. vm_compute. repeat split. Qed.

(** C10, evaluated on the composite of two fresh real buffers 0 and 1,
    each with usage count 1. [tvb_free_chain] on the composite releases the
    two members once each; the composite itself, whose usage count the two
    [tvb_composite_append] raised to 3, is only decremented to 2 and stays
    in the heap, unreleased. This holds for any amount of fuel from 3 on. *)
Theorem free_chain_leaves_composite (n : nat) :
  let built := compose2 [1; 2; 3] [4; 5] initial_state in
  let freed := tvb_free_chain (3 + n) 2%nat (snd built) in
  fst built = Ret 2%nat
  /\ (t_usage_count <$> heap (snd built) !! 0%nat) = Some 1
  /\ (t_usage_count <$> heap (snd built) !! 1%nat) = Some 1
  /\ (t_used_in <$> heap (snd built) !! 2%nat) = Some [1%nat; 0%nat]
  /\ fst freed = Ret tt
  /\ released (snd freed) = [0%nat; 1%nat]
  /\ (t_usage_count <$> heap (snd freed) !! 2%nat) = Some 2.
Proof. vm_compute. repeat split. Qed.

(** ** Byte search *)


Lemma guint8_find_first_index hay n needle :
  (n <= length hay)%nat ->
  guint8_find hay n needle = Ret (first_index (fun v => v =? needle) hay n).
Proof.
  revert hay. induction n as [| n IH]; intros hay Hn; [reflexivity|].
  destruct hay as [| b rest]; [cbn in Hn; lia|].
  cbn [guint8_find first_index].
  destruct (byte_val b =? needle); [reflexivity|].
  rewrite IH by (cbn in Hn; lia). reflexivity.
Qed.

Lemma needles_match_among item needles :
  0 ∈ (byte_val <$> needles) ->
  needles_match item needles = Ret (among (cstring needles) item).
Proof.
  induction needles as [| n rest IH]; intros Hz.
  - cbn in Hz. apply elem_of_nil in Hz. contradiction.
  - cbn [needles_match cstring].
    destruct (Z.eqb_spec (byte_val n) 0) as [Hn | Hn]; [reflexivity|].
    cbn [among existsb]. fold (among (cstring rest) item).
    destruct (item =? byte_val n); [reflexivity|].
    cbn [orb]. apply IH.
    cbn [fmap list_fmap] in Hz. apply elem_of_cons in Hz as [Hz | Hz]; [congruence | exact Hz].
Qed.

Lemma guint8_pbrk_first_index hay n needles :
  (n <= length hay)%nat ->
  0 ∈ (byte_val <$> needles) ->
  guint8_pbrk hay n needles = Ret (first_index (among (cstring needles)) hay n).
Proof.
  intros Hn Hz. revert hay Hn. induction n as [| n IH]; intros hay Hn; [reflexivity|].
  destruct hay as [| b rest]; [cbn in Hn; lia|].
  cbn [guint8_pbrk first_index].
  rewrite needles_match_among by assumption. cbn [obind].
  destruct (among (cstring needles) (byte_val b)); [reflexivity|].
  rewrite IH by (cbn in Hn; lia). reflexivity.
Qed.

Lemma first_index_some P hay n i :
  first_index P hay n = Some i ->
  (i < n)%nat
  /\ (exists b, hay !! i = Some b /\ P (byte_val b) = true)
  /\ forall j b, (j < i)%nat -> hay !! j = Some b -> P (byte_val b) = false.
Proof.
  revert hay i. induction n as [| n IH]; intros hay i H; [discriminate|].
  destruct hay as [| b rest]; [discriminate|].
  cbn [first_index] in H.
  destruct (P (byte_val b)) eqn:HP.
  - inversion H; subst i. split; [lia|]. split; [exists b; auto|].
    intros j b' Hj. lia.
  - destruct (first_index P rest n) as [i'|] eqn:Hrec; [|discriminate].
    cbn in H. inversion H; subst i.
    destruct (IH rest i' Hrec) as (Hlt & Hhit & Hbefore).
    split; [lia|]. split; [exact Hhit|].
    intros [| j] b' Hj Hb'.
    + cbn in Hb'. inversion Hb'; subst. exact HP.
    + cbn in Hb'. apply (Hbefore j); [lia | exact Hb'].
Qed.

Lemma first_index_none P hay n :
  first_index P hay n = None ->
  forall j b, (j < n)%nat -> hay !! j = Some b -> P (byte_val b) = false.
Proof.
  revert hay. induction n as [| n IH]; intros hay H j b Hj Hb; [lia|].
  destruct hay as [| b0 rest]; [discriminate|].
  cbn [first_index] in H.
  destruct (P (byte_val b0)) eqn:HP; [discriminate|].
  destruct (first_index P rest n) eqn:Hrec; [discriminate|].
  destruct j as [| j].
  - cbn in Hb. inversion Hb; subst. exact HP.
  - cbn in Hb. apply (IH rest Hrec j); [lia | exact Hb].
Qed.

Lemma byte_at_drop data ao j b :
  0 <= ao -> 
  ptr_add data ao !! j = Some b -> byte_at data (ao + Z.of_nat j) = Some (byte_val b).
Proof.
  intros Hao H. unfold byte_at, ptr_add in *.
  rewrite lookup_drop in H.
  destruct (Z.ltb_spec (ao + Z.of_nat j) 0); [lia|].
  replace (Z.to_nat (ao + Z.of_nat j)) with (Z.to_nat ao + j)%nat by lia.
  rewrite H. reflexivity.
Qed.

Lemma byte_at_drop_inv data ao j v :
  0 <= ao -> ao <= j ->
  byte_at data j = Some v ->
  exists b, ptr_add data ao !! Z.to_nat (j - ao) = Some b /\ byte_val b = v.
Proof.
  intros Hao Hj H. unfold byte_at, ptr_add in *.
  destruct (Z.ltb_spec j 0); [lia|].
  rewrite lookup_drop.
  replace (Z.to_nat ao + Z.to_nat (j - ao))%nat with (Z.to_nat j) by lia.
  destruct (data !! Z.to_nat j) as [b|]; [|discriminate].
  cbn in H. inversion H. eauto.
Qed.

Lemma first_index_first_match P data ao limit :
  0 <= ao -> 0 <= limit ->
  first_match P data ao (ao + limit)
    (search_result ao (first_index P (ptr_add data ao) (Z.to_nat limit))).
Proof.
  intros Hao Hlim.
  destruct (first_index P (ptr_add data ao) (Z.to_nat limit)) as [i|] eqn:Hfi.
  - right. apply first_index_some in Hfi as (Hlt & (b & Hb & HP) & Hbefore).
    cbn [search_result]. split; [lia|]. split.
    + exists (byte_val b). split; [apply byte_at_drop; assumption | exact HP].
    + intros j v Hj Hv.
      destruct (byte_at_drop_inv data ao j v Hao ltac:(lia) Hv) as (b' & Hb' & <-).
      apply (Hbefore (Z.to_nat (j - ao))); [lia | exact Hb'].
  - left. split; [reflexivity|].
    intros j v Hj Hv.
    destruct (byte_at_drop_inv data ao j v Hao ltac:(lia) Hv) as (b' & Hb' & <-).
    apply (first_index_none _ _ _ Hfi (Z.to_nat (j - ao))); [lia | exact Hb'].
Qed.

(** A search has one result only. *)
Lemma first_match_unique P data from bound r1 r2 :
  first_match P data from bound r1 -> first_match P data from bound r2 ->
  0 <= from -> r1 = r2.
Proof.
  intros [[-> H1] | (Hr1 & (v1 & Hv1 & HP1) & Hb1)]
         [[-> H2] | (Hr2 & (v2 & Hv2 & HP2) & Hb2)] Hfrom.
  - reflexivity.
  - rewrite (H1 r2 v2 Hr2 Hv2) in HP2. discriminate.
  - rewrite (H2 r1 v1 Hr1 Hv1) in HP1. discriminate.
  - destruct (Z.lt_trichotomy r1 r2) as [Hlt | [Heq | Hgt]]; [| exact Heq |].
    + rewrite (Hb2 r1 v1 ltac:(lia) Hv1) in HP1. discriminate.
    + rewrite (Hb1 r2 v2 ltac:(lia) Hv2) in HP2. discriminate.
Qed.

Lemma direct_buffer_fields tvb data :
  direct_buffer tvb data -> tvb_guint_fields tvb.
Proof.
  unfold direct_buffer, tvb_guint_fields, is_guint, UINT_MAX, INT_MAX.
  intros (_ & _ & H1 & H2 & H3 & _). lia.
Qed.

(** What a successful check of a zero-length access says about it. *)
Lemma check_zero_length_success tvb offset ao al :
  tvb_guint_fields tvb -> is_gint offset ->
  t_initialized tvb = true ->
  check_offset_length tvb offset 0 = Ret (ao, al) ->
  al = 0 /\ 0 <= ao <= t_length tvb.
Proof.
  intros Hf Ho Hinit H. unfold check_offset_length in H.
  rewrite check_offset_length_no_exception_spec in H;
    [| assumption | assumption | assumption | unfold is_gint, INT_MIN, INT_MAX; lia].
  cbn [obind] in H.
  unfold bounds_check_spec, normalize_spec in H.
  destruct Hf as [Hl Hr].
  assert (HU : UINT_MAX = 4294967295) by reflexivity.
  unfold is_guint in Hl, Hr. unfold is_gint, INT_MIN, INT_MAX in Ho.
  destruct (Z.ltb_spec (t_reported_length tvb) (Z.abs offset)); [discriminate|].
  destruct (Z.ltb_spec (t_length tvb) (Z.abs offset)); [discriminate|].
  change (0 <? -1) with false in H. change (0 =? -1) with false in H.
  cbv iota in H.
  unfold classify_spec, clamped_end in H. rewrite Z.add_0_r in H.
  destruct (Z.leb_spec 0 offset).
  - rewrite Z.min_l in H by lia.
    destruct (Z.leb_spec offset (t_length tvb)); [inversion H; lia|].
    destruct (offset <=? t_reported_length tvb); discriminate.
  - rewrite Z.min_l in H by lia.
    destruct (Z.leb_spec (t_length tvb + offset) (t_length tvb));
      [inversion H; lia|].
    destruct (t_length tvb + offset <=? t_reported_length tvb); discriminate.
Qed.

(** The other outcomes of the check are the two bounds errors. *)
Lemma check_zero_length_outcomes tvb offset :
  tvb_guint_fields tvb -> is_gint offset ->
  t_initialized tvb = true ->
  (exists ao, check_offset_length tvb offset 0 = Ret (ao, 0))
  \/ (exists e, check_offset_length tvb offset 0 = Throw e).
Proof.
  intros Hf Ho Hinit. unfold check_offset_length.
  rewrite check_offset_length_no_exception_spec;
    [| assumption | assumption | assumption | unfold is_gint, INT_MIN, INT_MAX; lia].
  cbn [obind].
  destruct (bounds_check_spec tvb offset 0) as [e | [ao al]] eqn:Hb.
  - right. eauto.
  - left. exists ao.
    assert (H : check_offset_length tvb offset 0 = Ret (ao, al)).
    { unfold check_offset_length.
      rewrite check_offset_length_no_exception_spec;
        [| assumption | assumption | assumption | unfold is_gint, INT_MIN, INT_MAX; lia].
      rewrite Hb. reflexivity. }
    apply check_zero_length_success in H as [-> _]; try assumption. reflexivity.
Qed.

Lemma tvb_length_remaining_run s p tvb data ao :
  heap s !! p = Some tvb -> direct_buffer tvb data ->
  0 <= ao <= t_length tvb ->
  tvb_length_remaining p (gint ao) s = (Ret (t_length tvb - ao), s).
Proof.
  intros Hp Hd Hao. pose proof (direct_buffer_fields _ _ Hd) as Hf.
  destruct Hd as (Hinit & _ & Hlr & Hr & Hmax & _).
  assert (HI : INT_MAX = 2147483647) by reflexivity.
  assert (Hg : is_gint ao) by (unfold is_gint, INT_MIN; lia).
  assert (Hg1 : is_gint (-1)) by (unfold is_gint, INT_MIN; lia).
  assert (Hg2 : is_gint (t_length tvb - ao)) by (unfold is_gint, INT_MIN; lia).
  assert (Hn : normalize_spec tvb ao (-1) = inr (ao, t_length tvb - ao)).
  { unfold normalize_spec. rewrite Z.abs_eq by lia.
    rewrite (proj2 (Z.ltb_ge (t_reported_length tvb) ao)) by lia.
    rewrite (proj2 (Z.ltb_ge (t_length tvb) ao)) by lia.
    rewrite (proj2 (Z.leb_le 0 ao)) by lia. reflexivity. }
  rewrite (gint_id ao Hg).
  unfold tvb_length_remaining.
  erewrite bind_run by (apply deref_some; exact Hp).
  erewrite bind_run by (apply assert_run; exact Hinit).
  rewrite (compute_offset_length_spec tvb ao (-1) Hf Hg Hg1), Hn.
  rewrite (gint_id _ Hg2). reflexivity.
Qed.

Lemma search_limit_spec remaining maxlength :
  0 <= remaining <= INT_MAX -> is_gint maxlength ->
  search_limit (guint remaining) maxlength = limit_spec remaining maxlength.
Proof.
  assert (HI : INT_MAX = 2147483647) by reflexivity.
  unfold is_gint, INT_MIN. intros Hr Hm.
  unfold search_limit, limit_spec.
  rewrite (guint_id remaining) by (unfold is_guint, UINT_MAX; lia).
  destruct (Z.eqb_spec maxlength (-1)) as [-> | Hne]; [reflexivity|].
  destruct (Z.ltb_spec maxlength 0) as [Hneg | Hpos].
  - assert (Hg : guint maxlength = maxlength + 4294967296).
    { unfold guint. symmetry. apply Z.mod_unique with (q := -1); lia. }
    rewrite Hg. rewrite (proj2 (Z.ltb_lt _ _)) by lia. reflexivity.
  - rewrite (guint_id maxlength) by (unfold is_guint, UINT_MAX; lia).
    destruct (Z.ltb_spec remaining maxlength).
    + rewrite Z.min_l by lia. reflexivity.
    + rewrite Z.min_r by lia. reflexivity.
Qed.

Lemma limit_spec_range remaining maxlength :
  0 <= remaining -> 0 <= limit_spec remaining maxlength <= remaining.
Proof.
  intros Hr. unfold limit_spec.
  destruct (Z.ltb_spec maxlength 0); lia.
Qed.

Lemma search_result_gint ao found limit len :
  0 <= ao -> ao + limit <= len -> len <= INT_MAX ->
  (forall i, found = Some i -> Z.of_nat i < limit) ->
  match found with
  | None => -1
  | Some i => gint (ao + Z.of_nat i)
  end = search_result ao found.
Proof.
  intros Hao Hlim Hmax Hf. destruct found as [i|]; [|reflexivity].
  cbn [search_result]. specialize (Hf i eq_refl).
  apply gint_id. unfold is_gint, INT_MIN, INT_MAX in *. lia.
Qed.

Lemma first_index_lt P hay n i : first_index P hay n = Some i -> (i < n)%nat.
Proof. intros H. apply first_index_some in H. tauto. Qed.

Lemma tvb_find_guint8_run fuel s p tvb data offset maxlength needle ao al :
  heap s !! p = Some tvb -> direct_buffer tvb data ->
  is_gint offset -> is_gint maxlength ->
  check_offset_length tvb offset 0 = Ret (ao, al) ->
  tvb_find_guint8 (S fuel) p offset maxlength needle s
  = (Ret (search_result ao
            (first_index (fun v => v =? guint8 needle) (ptr_add data ao)
               (Z.to_nat (limit_spec (t_length tvb - ao) maxlength)))), s).
Proof.
  intros Hp Hd Ho Hm Hchk.
  pose proof (direct_buffer_fields _ _ Hd) as Hf.
  pose proof Hd as (Hinit & Hdata & Hlr & Hr & Hmax & Halloc).
  destruct (check_zero_length_success _ _ _ _ Hf Ho Hinit Hchk) as [-> Hao].
  pose proof (limit_spec_range (t_length tvb - ao) maxlength ltac:(lia)) as Hlim.
  cbn [tvb_find_guint8].
  erewrite bind_run by (apply deref_some; exact Hp).
  erewrite bind_run by (unfold lift; rewrite Hchk; reflexivity).
  cbn [fst snd].
  erewrite bind_run by (eapply tvb_length_remaining_run; eassumption).
  rewrite search_limit_spec by first [lia | assumption].
  rewrite Hdata.
  rewrite guint8_find_first_index.
  2:{ unfold ptr_add. rewrite length_drop. lia. }
  erewrite bind_run by reflexivity.
  erewrite <- search_result_gint with (limit := limit_spec (t_length tvb - ao) maxlength)
                                      (len := t_length tvb); try lia.
  - destruct (first_index _ _ _); reflexivity.
  - intros i Hi. apply first_index_lt in Hi. lia.
Qed.

Lemma tvb_pbrk_guint8_run fuel s p tvb data offset maxlength needles ao al :
  heap s !! p = Some tvb -> direct_buffer tvb data ->
  is_gint offset -> is_gint maxlength ->
  0 ∈ (byte_val <$> needles) ->
  check_offset_length tvb offset 0 = Ret (ao, al) ->
  tvb_pbrk_guint8 (S fuel) p offset maxlength needles s
  = (Ret (search_result ao
            (first_index (among (cstring needles)) (ptr_add data ao)
               (Z.to_nat (limit_spec (t_length tvb - ao) maxlength)))), s).
Proof.
  intros Hp Hd Ho Hm Hz Hchk.
  pose proof (direct_buffer_fields _ _ Hd) as Hf.
  pose proof Hd as (Hinit & Hdata & Hlr & Hr & Hmax & Halloc).
  destruct (check_zero_length_success _ _ _ _ Hf Ho Hinit Hchk) as [-> Hao].
  pose proof (limit_spec_range (t_length tvb - ao) maxlength ltac:(lia)) as Hlim.
  cbn [tvb_pbrk_guint8].
  erewrite bind_run by (apply deref_some; exact Hp).
  erewrite bind_run by (unfold lift; rewrite Hchk; reflexivity).
  cbn [fst snd].
  erewrite bind_run by (eapply tvb_length_remaining_run; eassumption).
  rewrite search_limit_spec by first [lia | assumption].
  rewrite Hdata.
  rewrite guint8_pbrk_first_index; [| unfold ptr_add; rewrite length_drop; lia | exact Hz].
  erewrite bind_run by reflexivity.
  erewrite <- search_result_gint with (limit := limit_spec (t_length tvb - ao) maxlength)
                                      (len := t_length tvb); try lia.
  - destruct (first_index _ _ _); reflexivity.
  - intros i Hi. apply first_index_lt in Hi. lia.
Qed.

(** C5, as amended. On an initialized buffer with a direct byte pointer
    (captured length at most the reported length and at most the largest
    signed offset, captured bytes allocated), when the offset passes the
    bounds check, [tvb_find_guint8] and [tvb_pbrk_guint8] throw nothing and
    return the absolute offset of the first matching byte among the
    [max] bytes from the offset on (all remaining captured bytes when
    [max] is negative or larger), or -1 when none of them matches. When
    the offset fails the check, both throw the error of the check. *)
Theorem find_on_direct_buffers
    (fuel : nat) (s : state) (p : tvb_ptr) (tvb : tvbuff_t) (data : data_ptr)
    (offset maxlength needle : Z) (needles : data_ptr) :
  heap s !! p = Some tvb -> direct_buffer tvb data ->
  is_gint offset -> is_gint maxlength ->
  0 ∈ (byte_val <$> needles) ->
  (forall ao al,
      check_offset_length tvb offset 0 = Ret (ao, al) ->
      let bound := ao + limit_spec (t_length tvb - ao) maxlength in
      (exists r,
          tvb_find_guint8 (S fuel) p offset maxlength needle s = (Ret r, s)
          /\ first_match (fun v => v =? guint8 needle) data ao bound r)
      /\ (exists r,
             tvb_pbrk_guint8 (S fuel) p offset maxlength needles s = (Ret r, s)
             /\ first_match (among (cstring needles)) data ao bound r))
  /\ (forall e,
         check_offset_length tvb offset 0 = Throw e ->
         tvb_find_guint8 (S fuel) p offset maxlength needle s = (Throw e, s)
         /\ tvb_pbrk_guint8 (S fuel) p offset maxlength needles s = (Throw e, s)).
Proof.
  intros Hp Hd Ho Hm Hz. split.
  - intros ao al Hchk bound.
    pose proof (direct_buffer_fields _ _ Hd) as Hf.
    pose proof Hd as (Hinit & _ & Hlr & _).
    destruct (check_zero_length_success _ _ _ _ Hf Ho Hinit Hchk) as [_ Hao].
    pose proof (limit_spec_range (t_length tvb - ao) maxlength ltac:(lia)) as Hlim.
    split.
    + eexists. split.
      * eapply tvb_find_guint8_run; eassumption.
      * apply first_index_first_match; lia.
    + eexists. split.
      * eapply tvb_pbrk_guint8_run; eassumption.
      * apply first_index_first_match; lia.
  - intros e Hchk. cbn [tvb_find_guint8 tvb_pbrk_guint8]. split.
    + erewrite bind_run by (apply deref_some; exact Hp).
      unfold bind, lift. rewrite Hchk. reflexivity.
    + erewrite bind_run by (apply deref_some; exact Hp).
      unfold bind, lift. rewrite Hchk. reflexivity.
Qed.

Lemma find_on_direct_buffers_witness :
  exists r,
    tvb_find_guint8 1 0%nat 1 (-1) 0
      (sample_state (real_header (bytes_of [1; 2; 0; 4]) 4 4))
    = (Ret r, sample_state (real_header (bytes_of [1; 2; 0; 4]) 4 4))
    /\ first_match (fun v => v =? guint8 0) (bytes_of [1; 2; 0; 4]) 1
         (1 + limit_spec (4 - 1) (-1)) r.
Proof.
  assert (Hd : direct_buffer (real_header (bytes_of [1; 2; 0; 4]) 4 4)
                 (bytes_of [1; 2; 0; 4])).
  { unfold direct_buffer, UINT_MAX, INT_MAX. cbn. repeat split; lia. }
  assert (Hz : 0 ∈ (byte_val <$> bytes_of [4; 0])).
  { cbn. apply list_elem_of_further, list_elem_of_here. }
  destruct (find_on_direct_buffers 0
              (sample_state (real_header (bytes_of [1; 2; 0; 4]) 4 4)) 0%nat
              (real_header (bytes_of [1; 2; 0; 4]) 4 4)
              (bytes_of [1; 2; 0; 4]) 1 (-1) 0 (bytes_of [4; 0])
              eq_refl Hd
              ltac:(unfold is_gint, INT_MIN, INT_MAX; lia)
              ltac:(unfold is_gint, INT_MIN, INT_MAX; lia) Hz) as [Hin _].
  destruct (Hin 1 0 eq_refl) as [Hfind _]. exact Hfind.
Defined.

(** The claim as stated fails where the offset is out of bounds, and on a
    composite: both functions then throw. *)
Lemma find_on_direct_buffers_counterexample :
  fst (tvb_find_guint8 1 0%nat 5 (-1) 1
         (sample_state (real_header (bytes_of [1; 2; 3; 4]) 4 4)))
  = Throw ReportedBoundsError
  /\ fst (tvb_pbrk_guint8 1 0%nat 5 (-1) (bytes_of [1; 0])
            (sample_state (real_header (bytes_of [1; 2; 3; 4]) 4 4)))
     = Throw ReportedBoundsError
  /\ fst (compose2 [1; 2; 3] [4; 5] initial_state) = Ret 2%nat
  /\ fst (tvb_find_guint8 3 2%nat 0 (-1) 1
            (snd (compose2 [1; 2; 3] [4; 5] initial_state)))
     = Throw DissectorError
  /\ fst (tvb_pbrk_guint8 3 2%nat 0 (-1) (bytes_of [1; 0])
            (snd (compose2 [1; 2; 3] [4; 5] initial_state)))
     = Throw DissectorError.
Proof. vm_compute. repeat split. Qed.

(** ** String size *)

Lemma check_zero_length_in_bounds tvb data ao :
  direct_buffer tvb data ->
  0 <= ao <= t_length tvb ->
  check_offset_length tvb ao 0 = Ret (ao, 0).
Proof.
  intros Hd Hao. pose proof (direct_buffer_fields _ _ Hd) as Hf.
  destruct Hd as (Hinit & _ & Hlr & Hr & Hmax & _).
  assert (HI : INT_MAX = 2147483647) by reflexivity.
  assert (HU : UINT_MAX = 4294967295) by reflexivity.
  assert (Hg : is_gint ao) by (unfold is_gint, INT_MIN; lia).
  assert (Hg0 : is_gint 0) by (unfold is_gint, INT_MIN; lia).
  unfold check_offset_length.
  rewrite (check_offset_length_no_exception_spec tvb ao 0 Hinit Hf Hg Hg0).
  unfold bounds_check_spec, normalize_spec.
  rewrite Z.abs_eq by lia.
  rewrite (proj2 (Z.ltb_ge (t_reported_length tvb) ao)) by lia.
  rewrite (proj2 (Z.ltb_ge (t_length tvb) ao)) by lia.
  rewrite (proj2 (Z.leb_le 0 ao)) by lia.
  change (0 <? -1) with false. change (0 =? -1) with false. cbv iota.
  unfold classify_spec, clamped_end.
  rewrite Z.add_0_r, Z.min_l by lia.
  rewrite (proj2 (Z.leb_le ao (t_length tvb))) by lia. reflexivity.
Qed.

Lemma limit_spec_all remaining : limit_spec remaining (-1) = remaining.
Proof. reflexivity. Qed.

Lemma tvb_length_run s p tvb :
  heap s !! p = Some tvb -> t_initialized tvb = true ->
  tvb_length p s = (Ret (t_length tvb), s).
Proof.
  intros Hp Hinit. unfold tvb_length.
  erewrite bind_run by (apply deref_some; exact Hp).
  erewrite bind_run by (apply assert_run; exact Hinit). reflexivity.
Qed.

Lemma tvb_reported_length_run s p tvb :
  heap s !! p = Some tvb -> t_initialized tvb = true ->
  tvb_reported_length p s = (Ret (t_reported_length tvb), s).
Proof.
  intros Hp Hinit. unfold tvb_reported_length.
  erewrite bind_run by (apply deref_some; exact Hp).
  erewrite bind_run by (apply assert_run; exact Hinit). reflexivity.
Qed.

(** C9, as amended. On an initialized buffer with a direct byte pointer and
    an offset that passes the bounds check, [tvb_strsize] returns the
    number of bytes from the offset through the first zero byte of the
    captured data, that byte included; when no zero byte follows it throws
    the captured-bounds error if the captured length is below the reported
    length and the reported-bounds error otherwise. When the offset fails
    the check, it throws the error of the check. *)
Theorem strsize_on_direct_buffers
    (fuel : nat) (s : state) (p : tvb_ptr) (tvb : tvbuff_t) (data : data_ptr)
    (offset : Z) :
  heap s !! p = Some tvb -> direct_buffer tvb data -> is_gint offset ->
  (forall ao al,
      check_offset_length tvb offset 0 = Ret (ao, al) ->
      exists r,
        first_match (fun v => v =? 0) data ao (t_length tvb) r
        /\ tvb_strsize (S fuel) p offset s
           = if r =? -1 then
               (Throw (if t_length tvb <? t_reported_length tvb
                       then BoundsError else ReportedBoundsError), s)
             else (Ret (r - ao + 1), s))
  /\ (forall e,
         check_offset_length tvb offset 0 = Throw e ->
         tvb_strsize (S fuel) p offset s = (Throw e, s)).
Proof.
  intros Hp Hd Ho. split.
  - intros ao al Hchk.
    pose proof (direct_buffer_fields _ _ Hd) as Hf.
    pose proof Hd as (Hinit & Hdata & Hlr & Hr & Hmax & Halloc).
    assert (HI : INT_MAX = 2147483647) by reflexivity.
    destruct (check_zero_length_success _ _ _ _ Hf Ho Hinit Hchk) as [-> Hao].
    assert (Hg : is_gint ao) by (unfold is_gint, INT_MIN; lia).
    exists (search_result ao
              (first_index (fun v => v =? 0) (ptr_add data ao)
                 (Z.to_nat (t_length tvb - ao)))).
    split.
    + replace (t_length tvb) with (ao + (t_length tvb - ao)) at 1 by lia.
      apply first_index_first_match; lia.
    + unfold tvb_strsize.
      erewrite bind_run by (apply deref_some; exact Hp).
      erewrite bind_run by (unfold lift; rewrite Hchk; reflexivity).
      cbn [fst snd]. rewrite (gint_id ao Hg).
      erewrite bind_run.
      2:{ eapply tvb_find_guint8_run; try eassumption.
          - unfold is_gint, INT_MIN; lia.
          - eapply check_zero_length_in_bounds; eassumption. }
      rewrite limit_spec_all. change (guint8 0) with 0.
      destruct (first_index (fun v => v =? 0) (ptr_add data ao)
                  (Z.to_nat (t_length tvb - ao))) as [i|] eqn:Hfi.
      * cbn [search_result].
        apply first_index_lt in Hfi.
        rewrite (proj2 (Z.eqb_neq _ _)) by lia.
        unfold ret. f_equal. f_equal.
        apply guint_id. unfold is_guint. 
        assert (HU : UINT_MAX = 4294967295) by reflexivity. lia.
      * cbn [search_result]. change (-1 =? -1) with true. cbv iota.
        erewrite bind_run by (eapply tvb_length_run; eassumption).
        erewrite bind_run by (eapply tvb_reported_length_run; eassumption).
        destruct (t_length tvb <? t_reported_length tvb); reflexivity.
  - intros e Hchk. unfold tvb_strsize.
    erewrite bind_run by (apply deref_some; exact Hp).
    unfold bind, lift. rewrite Hchk. reflexivity.
Qed.

Lemma strsize_on_direct_buffers_witness :
  exists r,
    first_match (fun v => v =? 0) (bytes_of [1; 2; 0; 4]) 1 4 r
    /\ tvb_strsize 1 0%nat 1
         (sample_state (real_header (bytes_of [1; 2; 0; 4]) 4 4))
       = if r =? -1 then
           (Throw (if 4 <? 4 then BoundsError else ReportedBoundsError),
            sample_state (real_header (bytes_of [1; 2; 0; 4]) 4 4))
         else
           (Ret (r - 1 + 1),
            sample_state (real_header (bytes_of [1; 2; 0; 4]) 4 4)).
Proof.
  assert (Hd : direct_buffer (real_header (bytes_of [1; 2; 0; 4]) 4 4)
                 (bytes_of [1; 2; 0; 4])).
  { unfold direct_buffer, UINT_MAX, INT_MAX. cbn. repeat split; lia. }
  destruct (strsize_on_direct_buffers 0
              (sample_state (real_header (bytes_of [1; 2; 0; 4]) 4 4)) 0%nat
              (real_header (bytes_of [1; 2; 0; 4]) 4 4)
              (bytes_of [1; 2; 0; 4]) 1
              eq_refl Hd
              ltac:(unfold is_gint, INT_MIN, INT_MAX; lia)) as [Hin _].
  exact (Hin 1 0 eq_refl).
Defined.

(** The claim as stated fails where the offset is beyond the reported
    length (the error is then the reported-bounds one although the capture
    is short), and on a composite, where the search throws. *)
Lemma strsize_on_direct_buffers_counterexample :
  fst (tvb_strsize 1 0%nat 17
         (sample_state (real_header (bytes_of [1; 2; 3; 4]) 4 16)))
  = Throw ReportedBoundsError
  /\ fst (compose2 [1; 0; 3] [4; 5] initial_state) = Ret 2%nat
  /\ fst (tvb_strsize 3 2%nat 0
            (snd (compose2 [1; 0; 3] [4; 5] initial_state)))
     = Throw DissectorError.
Proof. vm_compute. repeat split. Qed.

(** ** Subsets read their backing buffer *)

Lemma check_no_exception_inr tvb offset length ao al :
  check_offset_length_no_exception tvb offset length = Ret (inr (ao, al)) ->
  compute_offset_length tvb offset length = inr (ao, al).
Proof.
  unfold check_offset_length_no_exception.
  destruct (negb (t_initialized tvb)); [discriminate|].
  destruct (compute_offset_length tvb offset length) as [e | [o l]];
    [discriminate|].
  repeat match goal with
         | |- context [if ?b then _ else _] => destruct b
         end; intros H; inversion H; reflexivity.
Qed.

Lemma check_inr tvb offset length ao al :
  check_offset_length tvb offset length = Ret (ao, al) ->
  compute_offset_length tvb offset length = inr (ao, al).
Proof.
  unfold check_offset_length. intros H.
  destruct (check_offset_length_no_exception tvb offset length)
    as [[e | [o l]] | | |] eqn:Hc; try discriminate.
  cbn in H. inversion H; subst. apply check_no_exception_inr. exact Hc.
Qed.

(** The absolute offset of an offset that is not negative is the offset. *)
Lemma compute_offset_nonneg tvb offset length ao al :
  0 <= offset <= INT_MAX ->
  compute_offset_length tvb offset length = inr (ao, al) -> ao = offset.
Proof.
  intros Ho. unfold compute_offset_length.
  assert (HI : INT_MAX = 2147483647) by reflexivity.
  rewrite (proj2 (Z.leb_le 0 offset)) by lia.
  rewrite (guint_id offset) by (unfold is_guint, UINT_MAX; lia).
  repeat match goal with
         | |- context [if ?b then _ else _] => destruct b
         end; intros H; inversion H; reflexivity.
Qed.

Lemma compute_length_nonneg tvb offset length ao al :
  0 <= length <= INT_MAX ->
  compute_offset_length tvb offset length = inr (ao, al) -> al = length.
Proof.
  intros Hl. unfold compute_offset_length.
  assert (HI : INT_MAX = 2147483647) by reflexivity.
  rewrite (proj2 (Z.ltb_ge length (-1))) by lia.
  rewrite (proj2 (Z.eqb_neq length (-1))) by lia.
  rewrite (guint_id length) by (unfold is_guint, UINT_MAX; lia).
  repeat match goal with
         | |- context [if ?b then _ else _] => destruct b
         end; intros H; inversion H; reflexivity.
Qed.

Lemma tvb_get_ptr_direct fuel s p tvb data offset length ptr s1 :
  heap s !! p = Some tvb -> t_real_data tvb = Some data ->
  tvb_get_ptr fuel p offset length s = (Ret ptr, s1) ->
  exists ao al,
    compute_offset_length tvb offset length = inr (ao, al)
    /\ ptr = ptr_add data ao /\ s1 = s.
Proof.
  intros Hp Hdata. unfold tvb_get_ptr, ensure_contiguous.
  destruct fuel as [| fuel]; [discriminate|].
  cbn [ensure_contiguous_no_exception].
  intros H. apply bind_inv in H as (r & s2 & Hr & H).
  apply bind_inv in Hr as (t & s3 & Ht & Hr).
  rewrite (deref_some _ _ _ Hp) in Ht. inversion Ht; subst t s3.
  apply bind_inv in Hr as (c & s3 & Hc & Hr).
  unfold lift in Hc. inversion Hc as [[Hc' Hs]]. subst s3.
  destruct c as [e | [ao al]].
  - unfold ret in Hr. inversion Hr; subst. discriminate.
  - rewrite Hdata in Hr. unfold ret in Hr. inversion Hr; subst.
    unfold ret in H. inversion H; subst.
    exists ao, al. split; [|auto].
    apply check_no_exception_inr. exact Hc'.
Qed.

Lemma memcpy_inv src n s bytes s1 :
  memcpy src n s = (Ret bytes, s1) -> bytes = take (Z.to_nat n) src /\ s1 = s.
Proof.
  unfold memcpy. destruct (n <=? Z.of_nat (length src)); [|discriminate].
  unfold ret. intros H. inversion H. auto.
Qed.

Lemma tvb_memcpy_direct fuel s p tvb data offset length bytes s1 :
  heap s !! p = Some tvb -> t_real_data tvb = Some data ->
  tvb_memcpy fuel p offset length s = (Ret bytes, s1) ->
  exists ao al,
    compute_offset_length tvb offset (gint length) = inr (ao, al)
    /\ bytes = take (Z.to_nat al) (ptr_add data ao) /\ s1 = s.
Proof.
  intros Hp Hdata.
  destruct fuel as [| fuel]; [discriminate|].
  cbn [tvb_memcpy].
  intros H. apply bind_inv in H as ([] & s2 & Ha & H).
  apply assert_inv in Ha as [_ ->].
  apply bind_inv in H as (t & s3 & Ht & H).
  rewrite (deref_some _ _ _ Hp) in Ht. inversion Ht; subst t s3.
  apply bind_inv in H as ([ao al] & s3 & Hc & H).
  unfold lift in Hc. inversion Hc as [[Hc' Hs]]. subst s3.
  cbn [fst snd] in H. rewrite Hdata in H.
  apply memcpy_inv in H as [-> ->].
  exists ao, al. split; [|auto]. apply check_inr. exact Hc'.
Qed.

Lemma ptr_add_add data a b :
  0 <= a -> 0 <= b -> ptr_add (ptr_add data a) b = ptr_add data (a + b).
Proof.
  intros Ha Hb. unfold ptr_add. rewrite drop_drop.
  f_equal. lia.
Qed.

(** C6, as amended. Let a subset be built by [tvb_new_subset] over a backing
    buffer that exposes a direct byte pointer, and let [start] be the start
    of its window. For every offset [i] and length [n] that are not
    negative, if reading [n] bytes of the subset at [i] and reading [n]
    bytes of the backing buffer at [start + i] both succeed, the two reads
    return the same pointer ([tvb_get_ptr]) and the same bytes
    ([tvb_memcpy]). *)
Theorem subset_reads_agree
    (fuel : nat) (s : state) (backing : tvb_ptr) (B : tvbuff_t)
    (data : data_ptr) (bo bl rl start len : Z) :
  heap s !! backing = Some B ->
  heap s !! next_chunk s = None ->
  last_tvb_subset s = None ->
  (rl <? -1) = false ->
  t_real_data B = Some data ->
  check_offset_length B bo bl = Ret (start, len) ->
  exists s',
    tvb_new_subset fuel backing bo bl rl s = (Ret (next_chunk s), s')
    /\ (b_offset ∘ t_subset <$> heap s' !! next_chunk s) = Some start
    /\ forall (f1 f2 : nat) (i n : Z),
        0 <= i -> 0 <= n <= INT_MAX -> start + i <= INT_MAX ->
        (forall p1 p2 s1 s2,
            tvb_get_ptr f1 (next_chunk s) i n s' = (Ret p1, s1) ->
            tvb_get_ptr f2 backing (start + i) n s' = (Ret p2, s2) ->
            p1 = p2)
        /\ (forall b1 b2 s1 s2,
               tvb_memcpy f1 (next_chunk s) i n s' = (Ret b1, s1) ->
               tvb_memcpy f2 backing (start + i) n s' = (Ret b2, s2) ->
               b1 = b2).
Proof.
  intros HB Hfresh Hlast Hrl Hdata Hchk.
  destruct (tvb_new_subset_run fuel s backing B bo bl rl start len
              HB Hfresh Hlast Hrl Hchk) as (s' & Hrun & Hsub & Hback).
  exists s'. split; [exact Hrun|]. split; [rewrite Hsub; reflexivity|].
  intros f1 f2 i n Hi Hn Hsi.
  assert (HI : INT_MAX = 2147483647) by reflexivity.
  assert (Hstart : 0 <= start).
  { apply check_inr, compute_offset_length_range in Hchk.
    unfold is_guint in Hchk. lia. }
  assert (Hsd : t_real_data (subset_header backing B start len rl)
                = Some (ptr_add data start)).
  { unfold subset_header. rewrite Hdata. reflexivity. }
  assert (Hbd : t_real_data (backing_header (next_chunk s) B) = Some data)
    by exact Hdata.
  assert (Hgn : gint n = n) by (apply gint_id; unfold is_gint, INT_MIN; lia).
  split.
  - intros p1 p2 s1 s2 H1 H2.
    destruct (tvb_get_ptr_direct _ _ _ _ _ _ _ _ _ Hsub Hsd H1)
      as (a1 & l1 & Hc1 & -> & _).
    destruct (tvb_get_ptr_direct _ _ _ _ _ _ _ _ _ Hback Hbd H2)
      as (a2 & l2 & Hc2 & -> & _).
    apply compute_offset_nonneg in Hc1; [| lia].
    apply compute_offset_nonneg in Hc2; [| lia].
    subst a1 a2. apply ptr_add_add; lia.
  - intros b1 b2 s1 s2 H1 H2.
    destruct (tvb_memcpy_direct _ _ _ _ _ _ _ _ _ Hsub Hsd H1)
      as (a1 & l1 & Hc1 & -> & _).
    destruct (tvb_memcpy_direct _ _ _ _ _ _ _ _ _ Hback Hbd H2)
      as (a2 & l2 & Hc2 & -> & _).
    rewrite Hgn in Hc1, Hc2.
    pose proof (compute_length_nonneg _ _ _ _ _ Hn Hc1).
    pose proof (compute_length_nonneg _ _ _ _ _ Hn Hc2).
    apply compute_offset_nonneg in Hc1; [| lia].
    apply compute_offset_nonneg in Hc2; [| lia].
    subst. rewrite ptr_add_add by lia. reflexivity.
Qed.

Lemma subset_reads_agree_witness :
  fst (tvb_memcpy 1 1%nat 1 2
         (snd (tvb_new_subset 0 0%nat 1 3 (-1)
                 (sample_state
                    (real_header (bytes_of [1; 2; 3; 4; 5; 6]) 6 6)))))
  = Ret (bytes_of [3; 4])
  /\ fst (tvb_memcpy 1 0%nat (1 + 1) 2
            (snd (tvb_new_subset 0 0%nat 1 3 (-1)
                    (sample_state
                       (real_header (bytes_of [1; 2; 3; 4; 5; 6]) 6 6)))))
     = Ret (bytes_of [3; 4])
  /\ exists s',
      tvb_new_subset 0 0%nat 1 3 (-1)
        (sample_state (real_header (bytes_of [1; 2; 3; 4; 5; 6]) 6 6))
      = (Ret 1%nat, s')
      /\ (b_offset ∘ t_subset <$> heap s' !! 1%nat) = Some 1
      /\ forall (f1 f2 : nat) (i n : Z),
          0 <= i -> 0 <= n <= INT_MAX -> 1 + i <= INT_MAX ->
          (forall p1 p2 s1 s2,
              tvb_get_ptr f1 1%nat i n s' = (Ret p1, s1) ->
              tvb_get_ptr f2 0%nat (1 + i) n s' = (Ret p2, s2) ->
              p1 = p2)
          /\ (forall b1 b2 s1 s2,
                 tvb_memcpy f1 1%nat i n s' = (Ret b1, s1) ->
                 tvb_memcpy f2 0%nat (1 + i) n s' = (Ret b2, s2) ->
                 b1 = b2).
Proof.
  split; [vm_compute; reflexivity|]. split; [vm_compute; reflexivity|].
  exact (subset_reads_agree 0
           (sample_state (real_header (bytes_of [1; 2; 3; 4; 5; 6]) 6 6))
           0%nat (real_header (bytes_of [1; 2; 3; 4; 5; 6]) 6 6)
           (bytes_of [1; 2; 3; 4; 5; 6]) 1 3 (-1) 1 3
           eq_refl eq_refl eq_refl eq_refl eq_refl eq_refl).
Defined.

(** The claim as stated fails for a negative offset, which is relative to
    the end of the buffer it is given to: the last byte of the subset of
    the bytes 2 3 4 is 4, while the backing buffer read at the start of the
    window minus one yields its first byte. *)
Lemma subset_reads_agree_counterexample :
  fst (tvb_new_subset 0 0%nat 1 3 (-1)
         (sample_state (real_header (bytes_of [1; 2; 3; 4; 5; 6]) 6 6)))
  = Ret 1%nat
  /\ (b_offset ∘ t_subset
      <$> heap (snd (tvb_new_subset 0 0%nat 1 3 (-1)
                       (sample_state
                          (real_header (bytes_of [1; 2; 3; 4; 5; 6]) 6 6))))
          !! 1%nat) = Some 1
  /\ fst (tvb_memcpy 1 1%nat (-1) 1
            (snd (tvb_new_subset 0 0%nat 1 3 (-1)
                    (sample_state
                       (real_header (bytes_of [1; 2; 3; 4; 5; 6]) 6 6)))))
     = Ret (bytes_of [4])
  /\ fst (tvb_memcpy 1 0%nat (1 + -1) 1
            (snd (tvb_new_subset 0 0%nat 1 3 (-1)
                    (sample_state
                       (real_header (bytes_of [1; 2; 3; 4; 5; 6]) 6 6)))))
     = Ret (bytes_of [1]).
Proof. vm_compute. repeat split. Qed.

(** ** Reads leave the state alone *)


Lemma pure_ret {A} (a : A) : pure_m (ret a).
Proof. intros s. reflexivity. Qed.

Lemma pure_throw {A} e : pure_m (@throw A e).
Proof. intros s. reflexivity. Qed.

Lemma pure_fault {A} f : pure_m (@fault_ A f).
Proof. intros s. reflexivity. Qed.

Lemma pure_out_of_fuel {A} : pure_m (@out_of_fuel A).
Proof. intros s. reflexivity. Qed.

Lemma pure_lift {A} (o : outcome A) : pure_m (lift o).
Proof. intros s. reflexivity. Qed.

Lemma pure_deref p : pure_m (deref p).
Proof. intros s. unfold deref. destruct (heap s !! p); reflexivity. Qed.

Lemma pure_assert b : pure_m (DISSECTOR_ASSERT b).
Proof. intros s. destruct b; reflexivity. Qed.

Lemma pure_memcpy src n : pure_m (memcpy src n).
Proof. intros s. unfold memcpy. destruct (n <=? _); reflexivity. Qed.

Lemma pure_bind {A B} (m : M A) (k : A -> M B) :
  pure_m m -> (forall a, pure_m (k a)) -> pure_m (bind m k).
Proof.
  intros Hm Hk s. unfold bind. specialize (Hm s).
  destruct (m s) as [[a | e | f |] s1]; cbn in Hm; subst s1; try reflexivity.
  apply Hk.
Qed.

Ltac pure_step :=
  first
    [ apply pure_ret | apply pure_throw | apply pure_fault
    | apply pure_out_of_fuel | apply pure_lift | apply pure_deref
    | apply pure_assert | apply pure_memcpy
    | apply pure_bind; [| intros ?]
    | match goal with
      | |- pure_m (match ?x with _ => _ end) => destruct x
      | |- pure_m (let (_, _) := ?x in _) => destruct x
      end ].

Lemma pure_composite_member t abs_offset : pure_m (composite_member t abs_offset).
Proof. unfold composite_member. repeat pure_step. Qed.

Lemma pure_tvb_memcpy fuel :
  (forall tvb offset length, pure_m (tvb_memcpy fuel tvb offset length))
  /\ (forall tvb abs_offset abs_length,
         pure_m (composite_memcpy fuel tvb abs_offset abs_length)).
Proof.
  induction fuel as [| fuel [IH1 IH2]].
  - split; intros; apply pure_out_of_fuel.
  - split; intros.
    + cbn [tvb_memcpy].
      repeat first [apply IH1 | apply IH2 | pure_step].
    + cbn [composite_memcpy].
      repeat first [apply IH1 | apply IH2 | apply pure_composite_member | pure_step].
Qed.

Lemma pure_tvb_memdup fuel tvb offset length :
  pure_m (tvb_memdup fuel tvb offset length).
Proof.
  unfold tvb_memdup.
  repeat first [apply (proj1 (pure_tvb_memcpy fuel)) | pure_step].
Qed.

(** ** The gzip header walk of the decompressor *)

Lemma read_at_some compr c b :
  0 <= c -> compr !! Z.to_nat c = Some b -> read_at compr c = Ret (byte_val b).
Proof.
  intros Hc Hb. unfold read_at.
  rewrite (proj2 (Z.ltb_ge c 0)) by lia. rewrite Hb. reflexivity.
Qed.

Lemma first_zero_drop_end (compr : list byte) c :
  (length compr <= c)%nat -> first_zero (drop c compr) = None.
Proof. intros H. rewrite drop_ge by lia. reflexivity. Qed.

(** The scanning loop stops at the first zero byte, or at [comprlen], and
    reads inside the [comprlen] bytes only. *)
Lemma skip_to_nul_spec compr comprlen n :
  Z.of_nat (length compr) = comprlen ->
  forall c,
    0 <= c -> (Z.to_nat (comprlen - c) <= n)%nat ->
    skip_to_nul compr comprlen c n
    = Ret (match first_zero (drop (Z.to_nat c) compr) with
           | Some k => c + Z.of_nat k
           | None => Z.max c comprlen
           end).
Proof.
  intros Hlen. induction n as [| n IH]; intros c Hc Hn.
  - cbn [skip_to_nul].
    destruct (Z.ltb_spec c comprlen) as [Hlt | Hge]; [lia|].
    rewrite first_zero_drop_end by lia. rewrite Z.max_l by lia. reflexivity.
  - cbn [skip_to_nul].
    destruct (Z.ltb_spec c comprlen) as [Hlt | Hge].
    + destruct (lookup_lt_is_Some_2 compr (Z.to_nat c) ltac:(lia)) as [b Hb].
      rewrite (read_at_some _ _ _ Hc Hb). cbn [obind].
      rewrite (drop_S _ _ _ Hb). cbn [first_zero].
      destruct (byte_val b =? 0).
      * f_equal. lia.
      * rewrite IH by lia.
        replace (Z.to_nat (c + 1)) with (S (Z.to_nat c)) by lia.
        destruct (first_zero (drop (S (Z.to_nat c)) compr)) as [k|];
          cbn [fmap option_fmap option_map]; f_equal; lia.
    + rewrite first_zero_drop_end by lia. rewrite Z.max_l by lia. reflexivity.
Qed.

Lemma skip_stringz_spec compr comprlen c :
  Z.of_nat (length compr) = comprlen -> 0 <= c ->
  skip_stringz compr comprlen c = Ret (behind_stringz compr comprlen c).
Proof.
  intros Hlen Hc. unfold skip_stringz, behind_stringz.
  rewrite (skip_to_nul_spec compr comprlen _ Hlen c Hc) by lia.
  cbn [obind].
  destruct (first_zero (drop (Z.to_nat c) compr)); f_equal; lia.
Qed.

Lemma behind_stringz_ge compr comprlen c : c < behind_stringz compr comprlen c.
Proof.
  unfold behind_stringz.
  destruct (first_zero (drop (Z.to_nat c) compr)); lia.
Qed.

(** Without an extra field, the walk reads the method byte, the flags and
    the bytes of the strings, and ends behind the strings. *)
Lemma gzip_header_cursor_no_extra compr comprlen m f :
  Z.of_nat (length compr) = comprlen ->
  compr !! 2%nat = Some m -> compr !! 3%nat = Some f ->
  has_flag (byte_val f) 2 = false ->
  gzip_header_cursor compr comprlen
  = if byte_val m =? Z_DEFLATED then
      Ret (Some
             (let c1 := if has_flag (byte_val f) 3
                        then behind_stringz compr comprlen 10 else 10 in
              if has_flag (byte_val f) 4
              then behind_stringz compr comprlen c1 else c1))
    else Ret None.
Proof.
  intros Hlen Hm Hf Hx. unfold gzip_header_cursor.
  rewrite (read_at_some compr 2 m) by (first [lia | exact Hm]).
  cbn [obind].
  destruct (byte_val m =? Z_DEFLATED); [|reflexivity].
  change (2 + 1) with 3.
  rewrite (read_at_some compr 3 f) by (first [lia | exact Hf]).
  cbn [obind]. change (3 + 7) with 10.
  unfold has_flag in Hx. rewrite Hx. cbn [obind].
  fold (has_flag (byte_val f) 3). fold (has_flag (byte_val f) 4).
  destruct (has_flag (byte_val f) 3).
  - rewrite skip_stringz_spec by (first [exact Hlen | lia]). cbn [obind].
    pose proof (behind_stringz_ge compr comprlen 10).
    destruct (has_flag (byte_val f) 4).
    + rewrite skip_stringz_spec by (first [exact Hlen | lia]). reflexivity.
    + reflexivity.
  - cbn [obind].
    destruct (has_flag (byte_val f) 4).
    + rewrite skip_stringz_spec by (first [exact Hlen | lia]). reflexivity.
    + reflexivity.
Qed.

Lemma tvb_memdup_initialized fuel tvb offset length s compr s1 :
  tvb_memdup fuel tvb offset length s = (Ret compr, s1) ->
  s1 = s /\ exists t, heap s !! tvb = Some t /\ t_initialized t = true.
Proof.
  intros H. split.
  - pose proof (pure_tvb_memdup fuel tvb offset length s) as Hp.
    rewrite H in Hp. exact Hp.
  - unfold tvb_memdup in H.
    apply bind_inv in H as (t & s2 & Ht & H).
    unfold deref in Ht. destruct (heap s !! tvb) as [t0|]; [|discriminate].
    inversion Ht; subst t0 s2.
    apply bind_inv in H as (ol & s2 & Hc & _).
    exists t. split; [reflexivity|].
    unfold lift in Hc. inversion Hc as [[Hc' Hs]].
    unfold check_offset_length, check_offset_length_no_exception in Hc'.
    destruct (t_initialized t); [reflexivity | discriminate].
Qed.

Lemma tvb_length_remaining_returns s tvb t offset :
  heap s !! tvb = Some t -> t_initialized t = true ->
  exists r, tvb_length_remaining tvb offset s = (Ret r, s).
Proof.
  intros Ht Hinit. unfold tvb_length_remaining.
  erewrite bind_run by (apply deref_some; exact Ht).
  erewrite bind_run by (apply assert_run; exact Hinit).
  destruct (compute_offset_length t offset (-1)) as [e | [ao al]]; eauto.
Qed.

Section UncompressFacts.

Variable z_internal : Type.
Variable z_zeroed : z_internal.
Variable inflateInit2 : z_stream z_internal -> Z -> Z * z_stream z_internal.
Variable inflate :
  data_ptr -> Z -> z_stream z_internal -> Z * z_stream z_internal * list byte.
Variable inflateReset : z_stream z_internal -> z_stream z_internal.
Variable inflateEnd : z_stream z_internal -> z_stream z_internal.

(** One round of the loop on a gzip header whose walk ends beyond
    [comprlen], or whose method byte is not [Z_DEFLATED]. *)
Lemma uncompress_loop_gzip_null fuel compr bufsiz strm wbits next comprlen b0 b1 r :
  (forall bufsiz strm, fst (fst (inflate compr bufsiz strm)) = Z_DATA_ERROR) ->
  compr !! 0%nat = Some b0 -> byte_val b0 = 0x1f ->
  compr !! 1%nat = Some b1 -> byte_val b1 = 0x8b ->
  gzip_header_cursor compr comprlen = Ret r ->
  match r with Some c => comprlen < c | None => True end ->
  uncompress_loop z_internal inflateInit2 inflate inflateReset inflateEnd
    (S fuel) compr bufsiz strm None 0 1 wbits next comprlen
  = Ret None.
Proof.
  intros Herr H0 Hb0 H1 Hb1 Hcur Hr.
  cbn [uncompress_loop].
  specialize (Herr bufsiz strm).
  destruct (inflate compr bufsiz strm) as [[err strm'] strmbuf].
  cbn [fst] in Herr. subst err.
  change (Z_DATA_ERROR =? Z_OK) with false.
  change (Z_DATA_ERROR =? Z_STREAM_END) with false.
  change (Z_DATA_ERROR =? Z_BUF_ERROR) with false.
  change (Z_DATA_ERROR =? Z_DATA_ERROR) with true.
  change (1 =? 1) with true.
  cbn [orb andb].
  rewrite (bool_decide_eq_true_2 _ (eq_refl : (None : option (list byte)) = None)).
  rewrite (read_at_some compr 0 b0) by (first [lia | exact H0]).
  rewrite (read_at_some compr 1 b1) by (first [lia | exact H1]).
  rewrite Hb0, Hb1.
  change (31 =? 31) with true. change (139 =? 139) with true.
  cbn [obind]. rewrite Hcur. cbn [obind].
  destruct r as [c|]; [|reflexivity].
  rewrite (proj2 (Z.ltb_lt comprlen c) Hr). reflexivity.
Qed.

(** C4, as amended. Let the compressed range begin with the gzip magic, let
    the inflater answer it with a data error, and let its header have no
    extra field and announce a file name or a comment whose terminating
    zero byte is missing from the range. Then [tvb_uncompress] returns
    null and leaves the state as it was, and the walk over the header
    reads no byte outside the copy of the range: it ends without a fault,
    with its cursor beyond the end of the range, which is what the
    function tests to detect the missing terminator (or it stops at a
    method byte that is not [Z_DEFLATED]). *)
Theorem uncompress_unterminated_gzip_header
    (fuel : nat) (s s1 : state) (tvb : tvb_ptr) (offset comprlen : Z)
    (compr : data_ptr) (b0 b1 m f : byte) :
  tvb_memdup (S fuel) tvb offset (size_t comprlen) s = (Ret compr, s1) ->
  Z.of_nat (length compr) = comprlen ->
  compr !! 0%nat = Some b0 -> byte_val b0 = 0x1f ->
  compr !! 1%nat = Some b1 -> byte_val b1 = 0x8b ->
  compr !! 2%nat = Some m ->
  compr !! 3%nat = Some f ->
  has_flag (byte_val f) 2 = false ->
  unterminated compr comprlen (byte_val f) ->
  (forall strm, fst (inflateInit2 strm MAX_WBITS) = Z_OK) ->
  (forall bufsiz strm, fst (fst (inflate compr bufsiz strm)) = Z_DATA_ERROR) ->
  tvb_uncompress z_internal z_zeroed inflateInit2 inflate inflateReset
    inflateEnd (S fuel) tvb offset comprlen s = (Ret None, s)
  /\ (gzip_header_cursor compr comprlen = Ret None
      \/ exists c, gzip_header_cursor compr comprlen = Ret (Some c)
                   /\ comprlen < c).
Proof.
  intros Hdup Hlen H0 Hb0 H1 Hb1 Hm Hf Hx Hunt Hinit Herr.
  pose proof (gzip_header_cursor_no_extra compr comprlen m f Hlen Hm Hf Hx)
    as Hcur.
  destruct Hunt as [_ Hpast].
  assert (Hwalk : exists r,
             gzip_header_cursor compr comprlen = Ret r
             /\ match r with Some c => comprlen < c | None => True end).
  { destruct (byte_val m =? Z_DEFLATED); eexists; (split; [exact Hcur|]).
    - exact Hpast.
    - exact I. }
  destruct Hwalk as (r & Hr & Hpast').
  split.
  - destruct (tvb_memdup_initialized _ _ _ _ _ _ _ Hdup)
      as (-> & t & Ht & Hti).
    destruct (tvb_length_remaining_returns s tvb t offset Ht Hti)
      as (remaining & Hrem).
    unfold tvb_uncompress.
    erewrite bind_run by exact Hdup.
    destruct compr as [| c0 compr']; [discriminate|].
    erewrite bind_run by exact Hrem.
    match goal with
    | |- context [inflateInit2 ?strm MAX_WBITS] =>
        specialize (Hinit strm);
        destruct (inflateInit2 strm MAX_WBITS) as [err strm1]
    end.
    cbn [fst] in Hinit. subst err.
    change (negb (Z_OK =? Z_OK)) with false. cbv iota.
    erewrite bind_run.
    2:{ unfold lift.
        rewrite (uncompress_loop_gzip_null fuel (c0 :: compr') _ strm1
                   MAX_WBITS 0 comprlen b0 b1 r Herr H0 Hb0 H1 Hb1 Hr Hpast').
        reflexivity. }
    reflexivity.
  - destruct r as [c|]; [right; eauto | left; exact Hr].
Qed.

End UncompressFacts.

Lemma uncompress_unterminated_gzip_header_witness :
  tvb_uncompress unit tt rejecting_inflateInit2 rejecting_inflate id id
    1 0%nat 0 13 (sample_state (real_header (bytes_of gzip_cut_in_name) 13 13))
  = (Ret None, sample_state (real_header (bytes_of gzip_cut_in_name) 13 13))
  /\ (gzip_header_cursor (bytes_of gzip_cut_in_name) 13 = Ret None
      \/ exists c,
          gzip_header_cursor (bytes_of gzip_cut_in_name) 13 = Ret (Some c)
          /\ 13 < c).
Proof.
  apply (uncompress_unterminated_gzip_header unit tt rejecting_inflateInit2
           rejecting_inflate id id 0
           (sample_state (real_header (bytes_of gzip_cut_in_name) 13 13))
           (sample_state (real_header (bytes_of gzip_cut_in_name) 13 13))
           0%nat 0 13 (bytes_of gzip_cut_in_name)
           "031"%byte "139"%byte "008"%byte "008"%byte).
  - reflexivity.
  - reflexivity.
  - reflexivity.
  - reflexivity.
  - reflexivity.
  - reflexivity.
  - reflexivity.
  - reflexivity.
  - reflexivity.
  - unfold unterminated. split; [left; reflexivity | vm_compute; reflexivity].
  - intros strm. reflexivity.
  - intros bufsiz strm. reflexivity.
Defined.

(** The claim as stated fails twice. On a header cut inside its file name
    the cursor is advanced beyond the end of the thirteen bytes, to 14.
    On a header of ten bytes that announces an extra field, the walk reads
    the length of that field at the offsets 10 and 11, outside the copy of
    the range. *)
Lemma uncompress_unterminated_gzip_header_counterexample :
  gzip_header_cursor (bytes_of gzip_cut_in_name) 13 = Ret (Some 14)
  /\ gzip_header_cursor (bytes_of gzip_cut_before_extra) 10 = Fault OverRead
  /\ fst (tvb_uncompress unit tt rejecting_inflateInit2 rejecting_inflate
            id id 1 0%nat 0 10
            (sample_state (real_header (bytes_of gzip_cut_before_extra) 10 10)))
     = Fault OverRead.
Proof. vm_compute. repeat split. Qed.

(** ** Length queries, bounds and the two access paths *)

(** Side conditions on sample headers. *)
Ltac sample_facts :=
  unfold well_formed, direct_buffer, tvb_guint_fields, is_guint, is_gint,
    UINT_MAX, INT_MAX, INT_MIN, cut_short;
  cbn; repeat split; lia.

Lemma well_formed_fields tvb : well_formed tvb -> tvb_guint_fields tvb.
Proof.
  unfold well_formed, tvb_guint_fields, is_guint.
  assert (HI : INT_MAX = 2147483647) by reflexivity.
  assert (HU : UINT_MAX = 4294967295) by reflexivity.
  intros (_ & H1 & H2 & H3). lia.
Qed.

(** What a successful normalization returns. *)
Lemma normalize_spec_inr tvb o L ao al :
  normalize_spec tvb o L = inr (ao, al) ->
  Z.abs o <= t_length tvb /\ Z.abs o <= t_reported_length tvb
  /\ ao = (if 0 <=? o then o else t_length tvb + o)
  /\ -1 <= L
  /\ al = (if L =? -1 then t_length tvb - ao else L).
Proof.
  unfold normalize_spec.
  destruct (Z.ltb_spec (t_reported_length tvb) (Z.abs o)); [discriminate|].
  destruct (Z.ltb_spec (t_length tvb) (Z.abs o)); [discriminate|].
  destruct (Z.ltb_spec L (-1)); [discriminate|].
  destruct (L =? -1) eqn:HL; intros Heq; inversion Heq; subst;
    repeat split; lia.
Qed.

Lemma normalize_spec_inl_or_inr tvb o L :
  (exists e, normalize_spec tvb o L = inl e)
  \/ (exists ao al, normalize_spec tvb o L = inr (ao, al)).
Proof.
  destruct (normalize_spec tvb o L) as [e | [ao al]]; eauto.
Qed.

(** X1. [tvb_bytes_exist] is the bounds check without the exception: on an
    initialized buffer whose captured length fits a signed offset it
    returns true exactly where the bounds check of the same offset and
    length succeeds, false where it would raise either error, and it
    leaves the state alone. *)
Theorem bytes_exist_is_bounds_check
    (s : state) (p : tvb_ptr) (tvb : tvbuff_t) (offset length : Z) :
  heap s !! p = Some tvb ->
  t_initialized tvb = true ->
  tvb_guint_fields tvb -> t_length tvb <= INT_MAX ->
  is_gint offset -> is_gint length ->
  tvb_bytes_exist p offset length s
  = (Ret (match bounds_check_spec tvb offset length with
          | inr _ => true
          | inl _ => false
          end), s).
Proof.
  intros Hp Hinit Hf Hmax Ho HL.
  assert (HI : INT_MAX = 2147483647) by reflexivity.
  assert (HU : UINT_MAX = 4294967295) by reflexivity.
  unfold tvb_bytes_exist.
  erewrite bind_run by (apply deref_some; exact Hp).
  erewrite bind_run by (apply assert_run; exact Hinit).
  rewrite (compute_offset_length_spec tvb offset length Hf Ho HL).
  unfold bounds_check_spec.
  destruct (normalize_spec tvb offset length) as [e | [ao al]] eqn:Hn;
    [reflexivity|].
  apply normalize_spec_inr in Hn as (Ha1 & Ha2 & Hao & HL1 & Hal).
  destruct Hf as [Hl Hr]. unfold is_guint in Hl, Hr.
  unfold is_gint, INT_MIN in Ho, HL.
  assert (Hrange : 0 <= ao <= t_length tvb /\ 0 <= al <= 2147483647).
  { destruct (Z.leb_spec 0 offset); destruct (Z.eqb_spec length (-1)); lia. }
  unfold classify_spec, clamped_end.
  rewrite guint_id by (unfold is_guint; lia).
  rewrite Z.min_l by lia.
  destruct (ao + al <=? t_length tvb); [reflexivity|].
  destruct (ao + al <=? t_reported_length tvb); reflexivity.
Qed.

Lemma bytes_exist_is_bounds_check_witness :
  tvb_bytes_exist 0%nat 2 4 (sample_state cut_short)
  = (Ret false, (sample_state cut_short)).
Proof.
  exact (bytes_exist_is_bounds_check (sample_state cut_short) 0%nat
           cut_short 2 4
           eq_refl eq_refl
           ltac:(sample_facts)
           ltac:(sample_facts)
           ltac:(sample_facts)
           ltac:(sample_facts)).
Defined.

(** X2. On a well-formed buffer [tvb_offset_exists] holds exactly for the
    offsets from [- length] up to, and excluding, [length], whereas
    [tvb_bytes_exist] with a length of zero also accepts the offset
    [length] itself, one past the last captured byte. *)
Theorem offset_exists_strict
    (s : state) (p : tvb_ptr) (tvb : tvbuff_t) (offset : Z) :
  heap s !! p = Some tvb -> well_formed tvb -> is_gint offset ->
  tvb_offset_exists p offset s
  = (Ret ((- t_length tvb <=? offset) && (offset <? t_length tvb)), s)
  /\ tvb_bytes_exist p offset 0 s
     = (Ret ((- t_length tvb <=? offset) && (offset <=? t_length tvb)), s).
Proof.
  intros Hp Hw Ho. pose proof (well_formed_fields _ Hw) as Hf.
  destruct Hw as (Hinit & Hlr & Hr & Hmax).
  assert (HI : INT_MAX = 2147483647) by reflexivity.
  assert (HU : UINT_MAX = 4294967295) by reflexivity.
  assert (Hg1 : is_gint (-1)) by (unfold is_gint, INT_MIN; lia).
  assert (Hg0 : is_gint 0) by (unfold is_gint, INT_MIN; lia).
  unfold is_gint, INT_MIN in Ho.
  split.
  - unfold tvb_offset_exists.
    erewrite bind_run by (apply deref_some; exact Hp).
    erewrite bind_run by (apply assert_run; exact Hinit).
    rewrite (compute_offset_length_spec tvb offset (-1) Hf Ho Hg1).
    unfold normalize_spec.
    destruct (Z.ltb_spec (t_reported_length tvb) (Z.abs offset)).
    { unfold ret. f_equal. f_equal. symmetry. apply andb_false_iff.
      destruct (Z.leb_spec 0 offset); [right | left];
        [apply Z.ltb_ge | apply Z.leb_gt]; lia. }
    destruct (Z.ltb_spec (t_length tvb) (Z.abs offset)).
    { unfold ret. f_equal. f_equal. symmetry. apply andb_false_iff.
      destruct (Z.leb_spec 0 offset); [right | left];
        [apply Z.ltb_ge | apply Z.leb_gt]; lia. }
    change (-1 <? -1) with false. change (-1 =? -1) with true. cbv iota.
    unfold ret. f_equal. f_equal.
    rewrite (proj2 (Z.leb_le (- t_length tvb) offset)) by lia.
    cbn [andb].
    destruct (Z.leb_spec 0 offset); [reflexivity|].
    rewrite (proj2 (Z.ltb_lt _ _)) by lia.
    rewrite (proj2 (Z.ltb_lt _ _)) by lia. reflexivity.
  - unfold tvb_bytes_exist.
    erewrite bind_run by (apply deref_some; exact Hp).
    erewrite bind_run by (apply assert_run; exact Hinit).
    rewrite (compute_offset_length_spec tvb offset 0 Hf Ho Hg0).
    unfold normalize_spec.
    destruct (Z.ltb_spec (t_reported_length tvb) (Z.abs offset)).
    { unfold ret. f_equal. f_equal. symmetry. apply andb_false_iff.
      destruct (Z.leb_spec 0 offset); [right | left]; apply Z.leb_gt; lia. }
    destruct (Z.ltb_spec (t_length tvb) (Z.abs offset)).
    { unfold ret. f_equal. f_equal. symmetry. apply andb_false_iff.
      destruct (Z.leb_spec 0 offset); [right | left]; apply Z.leb_gt; lia. }
    change (0 <? -1) with false. change (0 =? -1) with false. cbv iota.
    unfold ret. f_equal. f_equal.
    rewrite Z.add_0_r.
    rewrite (proj2 (Z.leb_le (- t_length tvb) offset)) by lia.
    rewrite (proj2 (Z.leb_le offset (t_length tvb))) by lia.
    cbn [andb].
    destruct (Z.leb_spec 0 offset).
    + rewrite guint_id by (unfold is_guint; lia). apply Z.leb_le. lia.
    + rewrite guint_id by (unfold is_guint; lia). apply Z.leb_le. lia.
Qed.

Lemma offset_exists_strict_witness :
  tvb_offset_exists 0%nat 4 (sample_state cut_short)
  = (Ret false, (sample_state cut_short))
  /\ tvb_bytes_exist 0%nat 4 0 (sample_state cut_short)
     = (Ret true, (sample_state cut_short)).
Proof.
  exact (offset_exists_strict (sample_state cut_short) 0%nat
           cut_short 4
           eq_refl
           ltac:(sample_facts)
           ltac:(sample_facts)).
Defined.

Lemma normalize_spec_in_range tvb offset L :
  well_formed tvb -> - t_length tvb <= offset <= t_length tvb -> -1 <= L ->
  normalize_spec tvb offset L
  = inr (abs_offset_of tvb offset,
         if L =? -1 then t_length tvb - abs_offset_of tvb offset else L).
Proof.
  intros (Hinit & Hlr & Hr & Hmax) Ho HL. unfold normalize_spec, abs_offset_of.
  rewrite (proj2 (Z.ltb_ge (t_reported_length tvb) (Z.abs offset))) by lia.
  rewrite (proj2 (Z.ltb_ge (t_length tvb) (Z.abs offset))) by lia.
  rewrite (proj2 (Z.ltb_ge L (-1))) by lia.
  destruct (L =? -1); reflexivity.
Qed.

(** X3. [tvb_ensure_length_remaining] returns the number of captured bytes
    from the offset on when there is at least one; at the offset one past
    the last captured byte, where [tvb_length_remaining] returns zero, it
    throws: the captured-bounds error when the packet was cut short, the
    reported-bounds error otherwise. *)
Theorem ensure_length_remaining_positive
    (s : state) (p : tvb_ptr) (tvb : tvbuff_t) (offset : Z) :
  heap s !! p = Some tvb -> well_formed tvb ->
  - t_length tvb <= offset <= t_length tvb ->
  tvb_ensure_length_remaining p offset s
  = if abs_offset_of tvb offset <? t_length tvb
    then (Ret (t_length tvb - abs_offset_of tvb offset), s)
    else (Throw (if t_length tvb <? t_reported_length tvb
                 then BoundsError else ReportedBoundsError), s).
Proof.
  intros Hp Hw Ho. pose proof (well_formed_fields _ Hw) as Hf.
  pose proof Hw as (Hinit & Hlr & Hr & Hmax).
  assert (HI : INT_MAX = 2147483647) by reflexivity.
  assert (HU : UINT_MAX = 4294967295) by reflexivity.
  assert (Hg1 : is_gint (-1)) by (unfold is_gint, INT_MIN; lia).
  assert (Hgo : is_gint offset) by (unfold is_gint, INT_MIN; lia).
  unfold tvb_ensure_length_remaining.
  erewrite bind_run by (apply deref_some; exact Hp).
  erewrite bind_run by (apply assert_run; exact Hinit).
  rewrite (compute_offset_length_spec tvb offset (-1) Hf Hgo Hg1).
  rewrite (normalize_spec_in_range tvb offset (-1) Hw Ho) by lia.
  change (-1 =? -1) with true. cbv iota.
  assert (Hao : 0 <= abs_offset_of tvb offset <= t_length tvb).
  { unfold abs_offset_of. destruct (Z.leb_spec 0 offset); lia. }
  destruct (Z.ltb_spec (abs_offset_of tvb offset) (t_length tvb))
    as [Hlt | Hge].
  - rewrite (proj2 (Z.eqb_neq _ 0)) by lia. reflexivity.
  - replace (abs_offset_of tvb offset) with (t_length tvb) by lia.
    rewrite Z.sub_diag. change (0 =? 0) with true. cbv iota.
    destruct (Z.leb_spec (t_reported_length tvb) (t_length tvb));
      destruct (Z.ltb_spec (t_length tvb) (t_reported_length tvb));
      try lia; reflexivity.
Qed.

Lemma ensure_length_remaining_positive_witness :
  tvb_ensure_length_remaining 0%nat 4 (sample_state cut_short)
  = (Throw BoundsError, (sample_state cut_short)).
Proof.
  exact (ensure_length_remaining_positive (sample_state cut_short) 0%nat
           cut_short 4
           eq_refl
           ltac:(sample_facts)
           ltac:(sample_facts)).
Defined.

(** X4. [tvb_set_reported_length] never grows a buffer: a larger reported
    length throws the reported-bounds error and changes nothing; a smaller
    or equal one is stored, the captured length is cut down to it, so that
    the captured length does not exceed the reported length afterwards,
    and neither the bytes nor any other buffer is touched. *)
Theorem set_reported_length_shrinks
    (s : state) (p : tvb_ptr) (tvb : tvbuff_t) (reported_length : Z) :
  heap s !! p = Some tvb -> t_initialized tvb = true ->
  (t_reported_length tvb < reported_length ->
   tvb_set_reported_length p reported_length s = (Throw ReportedBoundsError, s))
  /\ (reported_length <= t_reported_length tvb ->
      exists s' tvb',
        tvb_set_reported_length p reported_length s = (Ret tt, s')
        /\ heap s' !! p = Some tvb'
        /\ t_reported_length tvb' = reported_length
        /\ t_length tvb' = Z.min (t_length tvb) reported_length
        /\ t_length tvb' <= t_reported_length tvb'
        /\ t_real_data tvb' = t_real_data tvb
        /\ forall q, q <> p -> heap s' !! q = heap s !! q).
Proof.
  intros Hp Hinit. split; intros Hr.
  - unfold tvb_set_reported_length.
    erewrite bind_run by (apply deref_some; exact Hp).
    erewrite bind_run by (apply assert_run; exact Hinit).
    rewrite (proj2 (Z.ltb_lt _ _) Hr). reflexivity.
  - unfold tvb_set_reported_length.
    erewrite bind_run by (apply deref_some; exact Hp).
    erewrite bind_run by (apply assert_run; exact Hinit).
    rewrite (proj2 (Z.ltb_ge _ _)) by lia.
    rewrite (store_some _ _ _ _ Hp).
    eexists. eexists. split; [reflexivity|].
    cbn [heap set_heap]. split; [apply lookup_insert_eq|].
    cbn [t_length with_reported_length].
    destruct (Z.ltb_spec reported_length (t_length tvb)).
    + cbn. repeat split; try lia.
      intros q Hq. apply lookup_insert_ne. congruence.
    + cbn. repeat split; try lia.
      intros q Hq. apply lookup_insert_ne. congruence.
Qed.

Lemma set_reported_length_shrinks_witness :
  tvb_set_reported_length 0%nat 17 (sample_state cut_short)
  = (Throw ReportedBoundsError, (sample_state cut_short))
  /\ exists s' tvb',
      tvb_set_reported_length 0%nat 3 (sample_state cut_short) = (Ret tt, s')
      /\ heap s' !! 0%nat = Some tvb'
      /\ t_reported_length tvb' = 3
      /\ t_length tvb' = Z.min 4 3
      /\ t_length tvb' <= t_reported_length tvb'
      /\ t_real_data tvb' = Some (bytes_of [1; 2; 3; 4])
      /\ forall q, q <> 0%nat ->
                   heap s' !! q = heap (sample_state cut_short) !! q.
Proof.
  split.
  - exact (proj1 (set_reported_length_shrinks (sample_state cut_short) 0%nat
                    cut_short 17 eq_refl eq_refl)
             ltac:(sample_facts)).
  - exact (proj2 (set_reported_length_shrinks (sample_state cut_short) 0%nat
                    cut_short 3 eq_refl eq_refl)
             ltac:(sample_facts)).
Defined.

Lemma direct_buffer_well_formed tvb data :
  direct_buffer tvb data -> well_formed tvb.
Proof.
  unfold direct_buffer, well_formed. intros (H1 & _ & H2 & H3 & H4 & _). auto.
Qed.

(** The fast path on a direct buffer, for an offset that is not negative. *)
Lemma fast_ensure_contiguous_direct fuel s p tvb data offset length :
  heap s !! p = Some tvb -> direct_buffer tvb data ->
  0 <= offset <= INT_MAX -> 0 <= length <= INT_MAX ->
  fast_ensure_contiguous fuel p offset length s
  = if offset + length <=? t_length tvb then (Ret (ptr_add data offset), s)
    else if t_reported_length tvb <? offset + length
         then (Throw ReportedBoundsError, s)
         else (Throw BoundsError, s).
Proof.
  intros Hp (Hinit & Hdata & Hlr & Hr & Hmax & Halloc) Ho Hl.
  assert (HI : INT_MAX = 2147483647) by reflexivity.
  assert (HU : UINT_MAX = 4294967295) by reflexivity.
  unfold fast_ensure_contiguous.
  erewrite bind_run by (apply deref_some; exact Hp).
  erewrite bind_run by (apply assert_run; exact Hinit).
  rewrite Hdata.
  rewrite (proj2 (Z.ltb_ge offset 0)) by lia.
  rewrite (guint_id offset) by (unfold is_guint; lia).
  rewrite (guint_id (offset + length)) by (unfold is_guint; lia).
  destruct (offset + length <=? t_length tvb); [reflexivity|].
  destruct (t_reported_length tvb <? offset + length); reflexivity.
Qed.

(** The general path on a direct buffer. *)
Lemma ensure_contiguous_direct fuel s p tvb data offset length :
  heap s !! p = Some tvb -> direct_buffer tvb data ->
  is_gint offset -> is_gint length ->
  ensure_contiguous (S fuel) p offset length s
  = match bounds_check_spec tvb offset length with
    | inr (abs_offset, _) => (Ret (ptr_add data abs_offset), s)
    | inl e => (Throw e, s)
    end.
Proof.
  intros Hp Hd Ho Hl. pose proof (direct_buffer_fields _ _ Hd) as Hf.
  destruct Hd as (Hinit & Hdata & _).
  unfold ensure_contiguous. cbn [ensure_contiguous_no_exception].
  pose proof (check_offset_length_no_exception_spec _ _ _ Hinit Hf Ho Hl) as Hc.
  destruct (bounds_check_spec tvb offset length) as [e | [ao al]].
  - erewrite bind_run.
    2:{ erewrite bind_run by (apply deref_some; exact Hp).
        erewrite bind_run by (unfold lift; rewrite Hc; reflexivity).
        reflexivity. }
    reflexivity.
  - erewrite bind_run.
    2:{ erewrite bind_run by (apply deref_some; exact Hp).
        erewrite bind_run by (unfold lift; rewrite Hc; reflexivity).
        rewrite Hdata. reflexivity. }
    reflexivity.
Qed.

(** X5. On a direct buffer, for an offset that is not negative and a length
    of at most eight bytes, the fast path of the integer accessors returns
    what the general path returns: the same pointer, or the same error;
    except where the offset lies behind the captured bytes, yet within the
    reported length, and the access ends behind the reported length: there
    the fast path throws the reported-bounds error and the general path the
    captured-bounds error. *)
Theorem fast_path_agrees
    (fuel : nat) (s : state) (p : tvb_ptr) (tvb : tvbuff_t) (data : data_ptr)
    (offset length : Z) :
  heap s !! p = Some tvb -> direct_buffer tvb data ->
  0 <= offset <= INT_MAX -> 0 <= length <= 8 ->
  (~ (t_length tvb < offset <= t_reported_length tvb
      /\ t_reported_length tvb < offset + length) ->
   fast_ensure_contiguous (S fuel) p offset length s
   = ensure_contiguous (S fuel) p offset length s)
  /\ (t_length tvb < offset <= t_reported_length tvb ->
      t_reported_length tvb < offset + length ->
      fast_ensure_contiguous (S fuel) p offset length s
      = (Throw ReportedBoundsError, s)
      /\ ensure_contiguous (S fuel) p offset length s
         = (Throw BoundsError, s)).
Proof.
  intros Hp Hd Ho Hl.
  assert (HI : INT_MAX = 2147483647) by reflexivity.
  assert (HU : UINT_MAX = 4294967295) by reflexivity.
  pose proof (direct_buffer_well_formed _ _ Hd) as Hw.
  pose proof Hw as (Hinit & Hlr & Hr & Hmax).
  rewrite (fast_ensure_contiguous_direct (S fuel) s p tvb data offset length
             Hp Hd Ho ltac:(lia)).
  rewrite (ensure_contiguous_direct fuel s p tvb data offset length Hp Hd)
    by (unfold is_gint, INT_MIN; lia).
  unfold bounds_check_spec, normalize_spec.
  rewrite Z.abs_eq by lia.
  rewrite (proj2 (Z.leb_le 0 offset)) by lia.
  rewrite (proj2 (Z.ltb_ge length (-1))) by lia.
  rewrite (proj2 (Z.eqb_neq length (-1))) by lia.
  unfold classify_spec, clamped_end.
  split.
  - intros Hcase.
    destruct (Z.ltb_spec (t_reported_length tvb) offset).
    { rewrite (proj2 (Z.leb_gt _ _)) by lia.
      rewrite (proj2 (Z.ltb_lt _ _)) by lia. reflexivity. }
    destruct (Z.ltb_spec (t_length tvb) offset).
    { rewrite (proj2 (Z.leb_gt _ _)) by lia.
      rewrite (proj2 (Z.ltb_ge _ _)) by lia. reflexivity. }
    rewrite Z.min_l by lia.
    destruct (Z.leb_spec (offset + length) (t_length tvb)); [reflexivity|].
    destruct (Z.ltb_spec (t_reported_length tvb) (offset + length));
      destruct (Z.leb_spec (offset + length) (t_reported_length tvb));
      try lia; reflexivity.
  - intros Hcase Hend.
    rewrite (proj2 (Z.leb_gt _ _)) by lia.
    rewrite (proj2 (Z.ltb_lt _ _)) by lia.
    rewrite (proj2 (Z.ltb_ge (t_reported_length tvb) offset)) by lia.
    rewrite (proj2 (Z.ltb_lt (t_length tvb) offset)) by lia.
    split; reflexivity.
Qed.

Lemma fast_path_agrees_witness :
  fast_ensure_contiguous 1 0%nat 5 2 (sample_state cut_short)
  = ensure_contiguous 1 0%nat 5 2 (sample_state cut_short)
  /\ fast_ensure_contiguous 1 0%nat 15 2 (sample_state cut_short)
     = (Throw ReportedBoundsError, (sample_state cut_short))
  /\ ensure_contiguous 1 0%nat 15 2 (sample_state cut_short)
     = (Throw BoundsError, (sample_state cut_short)).
Proof.
  assert (Hd : direct_buffer cut_short
                 (bytes_of [1; 2; 3; 4])).
  { sample_facts. }
  split.
  - exact (proj1 (fast_path_agrees 0 (sample_state cut_short) 0%nat
                    cut_short (bytes_of [1; 2; 3; 4]) 5 2
                    eq_refl Hd ltac:(sample_facts) ltac:(sample_facts))
             ltac:(sample_facts)).
  - exact (proj2 (fast_path_agrees 0 (sample_state cut_short) 0%nat
                    cut_short (bytes_of [1; 2; 3; 4]) 15 2
                    eq_refl Hd ltac:(sample_facts) ltac:(sample_facts))
             ltac:(sample_facts) ltac:(sample_facts)).
Defined.

(** X6. [tvb_get_guint8] on a direct buffer, at an offset that is not
    negative: the byte at the offset when it lies within the captured
    bytes, the captured-bounds error when it lies behind them and within
    the reported length, the reported-bounds error behind that; the state
    is left alone. *)
Theorem get_guint8_classification
    (fuel : nat) (s : state) (p : tvb_ptr) (tvb : tvbuff_t) (data : data_ptr)
    (offset : Z) :
  heap s !! p = Some tvb -> direct_buffer tvb data ->
  0 <= offset <= INT_MAX - 1 ->
  (offset < t_length tvb ->
   exists v, byte_at data offset = Some v
             /\ tvb_get_guint8 fuel p offset s = (Ret v, s))
  /\ (t_length tvb <= offset < t_reported_length tvb ->
      tvb_get_guint8 fuel p offset s = (Throw BoundsError, s))
  /\ (t_reported_length tvb <= offset ->
      tvb_get_guint8 fuel p offset s = (Throw ReportedBoundsError, s)).
Proof.
  intros Hp Hd Ho.
  assert (HI : INT_MAX = 2147483647) by reflexivity.
  pose proof Hd as (Hinit & Hdata & Hlr & Hr & Hmax & Halloc).
  unfold tvb_get_guint8.
  repeat split.
  - intros Hlt.
    destruct (lookup_lt_is_Some_2 data (Z.to_nat offset) ltac:(lia)) as [b Hb].
    exists (byte_val b). split.
    + unfold byte_at. rewrite (proj2 (Z.ltb_ge offset 0)) by lia.
      rewrite Hb. reflexivity.
    + erewrite bind_run.
      2:{ rewrite (fast_ensure_contiguous_direct fuel s p tvb data offset 1
                     Hp Hd) by lia.
          rewrite (proj2 (Z.leb_le _ _)) by lia. reflexivity. }
      unfold read_guint8, ptr_add. rewrite lookup_drop.
      rewrite Nat.add_0_r, Hb. reflexivity.
  - intros Hcase. unfold bind.
    rewrite (fast_ensure_contiguous_direct fuel s p tvb data offset 1 Hp Hd)
      by lia.
    rewrite (proj2 (Z.leb_gt _ _)) by lia.
    rewrite (proj2 (Z.ltb_ge _ _)) by lia. reflexivity.
  - intros Hcase. unfold bind.
    rewrite (fast_ensure_contiguous_direct fuel s p tvb data offset 1 Hp Hd)
      by lia.
    rewrite (proj2 (Z.leb_gt _ _)) by lia.
    rewrite (proj2 (Z.ltb_lt _ _)) by lia. reflexivity.
Qed.

Lemma get_guint8_classification_witness :
  (exists v, byte_at (bytes_of [1; 2; 3; 4]) 2 = Some v
             /\ tvb_get_guint8 1 0%nat 2 (sample_state cut_short)
                = (Ret v, (sample_state cut_short)))
  /\ tvb_get_guint8 1 0%nat 9 (sample_state cut_short)
     = (Throw BoundsError, (sample_state cut_short))
  /\ tvb_get_guint8 1 0%nat 16 (sample_state cut_short)
     = (Throw ReportedBoundsError, (sample_state cut_short)).
Proof.
  assert (Hd : direct_buffer cut_short
                 (bytes_of [1; 2; 3; 4])).
  { sample_facts. }
  split; [| split].
  - exact (proj1 (get_guint8_classification 1 (sample_state cut_short) 0%nat
                    cut_short (bytes_of [1; 2; 3; 4]) 2
                    eq_refl Hd ltac:(sample_facts))
             ltac:(sample_facts)).
  - exact (proj1 (proj2 (get_guint8_classification 1
                    (sample_state cut_short) 0%nat
                    cut_short (bytes_of [1; 2; 3; 4]) 9
                    eq_refl Hd ltac:(sample_facts)))
             ltac:(sample_facts)).
  - exact (proj2 (proj2 (get_guint8_classification 1
                    (sample_state cut_short) 0%nat
                    cut_short (bytes_of [1; 2; 3; 4]) 16
                    eq_refl Hd ltac:(sample_facts)))
             ltac:(sample_facts)).
Defined.

(** X7. [tvb_length_remaining] and [tvb_reported_length_remaining] on a
    well-formed buffer whose reported length fits a signed value: for an
    offset from [- length] to [length] they return what is left of the
    captured and of the reported length behind the absolute offset, so the
    two differ by the bytes that were not captured; for any other offset
    both return -1. *)
Theorem remaining_lengths
    (s : state) (p : tvb_ptr) (tvb : tvbuff_t) (offset : Z) :
  heap s !! p = Some tvb -> well_formed tvb ->
  t_reported_length tvb <= INT_MAX -> is_gint offset ->
  if (- t_length tvb <=? offset) && (offset <=? t_length tvb)
  then tvb_length_remaining p offset s
       = (Ret (t_length tvb - abs_offset_of tvb offset), s)
       /\ tvb_reported_length_remaining p offset s
          = (Ret (t_reported_length tvb - abs_offset_of tvb offset), s)
  else tvb_length_remaining p offset s = (Ret (-1), s)
       /\ tvb_reported_length_remaining p offset s = (Ret (-1), s).
Proof.
  intros Hp Hw Hrmax Ho. pose proof (well_formed_fields _ Hw) as Hf.
  pose proof Hw as (Hinit & Hlr & Hr & Hmax).
  assert (HI : INT_MAX = 2147483647) by reflexivity.
  assert (HU : UINT_MAX = 4294967295) by reflexivity.
  assert (Hg1 : is_gint (-1)) by (unfold is_gint, INT_MIN; lia).
  assert (Hrun : forall (k : exception + Z * Z -> M Z) (m : M Z),
             m = (t <- deref p ;; DISSECTOR_ASSERT (t_initialized t) ;;;
                  k (compute_offset_length t offset (-1))) ->
             m s = k (normalize_spec tvb offset (-1)) s).
  { intros k m ->.
    erewrite bind_run by (apply deref_some; exact Hp).
    erewrite bind_run by (apply assert_run; exact Hinit).
    rewrite (compute_offset_length_spec tvb offset (-1) Hf Ho Hg1).
    reflexivity. }
  rewrite (Hrun (fun r => match r with
                          | inr (_, abs_length) => ret (gint abs_length)
                          | inl _ => ret (-1)
                          end) (tvb_length_remaining p offset) eq_refl).
  unfold tvb_reported_length_remaining.
  erewrite (bind_run (deref p)) by (apply deref_some; exact Hp).
  erewrite bind_run by (apply assert_run; exact Hinit).
  rewrite (compute_offset_length_spec tvb offset (-1) Hf Ho Hg1).
  clear Hrun.
  destruct (Z.leb_spec (- t_length tvb) offset) as [Hlo | Hlo];
    [destruct (Z.leb_spec offset (t_length tvb)) as [Hhi | Hhi] |]; cbn [andb].
  - rewrite (normalize_spec_in_range tvb offset (-1) Hw) by lia.
    change (-1 =? -1) with true. cbv beta iota.
    assert (Hao : 0 <= abs_offset_of tvb offset <= t_length tvb).
    { unfold abs_offset_of. destruct (Z.leb_spec 0 offset); lia. }
    rewrite (proj2 (Z.leb_le (abs_offset_of tvb offset) _)) by lia.
    rewrite (guint_id (t_reported_length tvb - _)) by (unfold is_guint; lia).
    rewrite !gint_id by (unfold is_gint, INT_MIN; lia).
    split; reflexivity.
  - unfold normalize_spec.
    destruct (Z.ltb_spec (t_reported_length tvb) (Z.abs offset));
      [split; reflexivity|].
    rewrite (proj2 (Z.ltb_lt (t_length tvb) (Z.abs offset))) by lia.
    split; reflexivity.
  - unfold normalize_spec.
    destruct (Z.ltb_spec (t_reported_length tvb) (Z.abs offset));
      [split; reflexivity|].
    rewrite (proj2 (Z.ltb_lt (t_length tvb) (Z.abs offset))) by lia.
    split; reflexivity.
Qed.

Lemma remaining_lengths_witness :
  tvb_length_remaining 0%nat (-3) (sample_state cut_short)
  = (Ret 3, (sample_state cut_short))
  /\ tvb_reported_length_remaining 0%nat (-3) (sample_state cut_short)
     = (Ret 15, (sample_state cut_short)).
Proof.
  exact (remaining_lengths (sample_state cut_short) 0%nat
           cut_short (-3)
           eq_refl
           ltac:(sample_facts)
           ltac:(sample_facts)
           ltac:(sample_facts)).
Defined.

(** ** Reference counts, construction and release *)

Lemma with_usage_count_twice v w t :
  with_usage_count v (with_usage_count w t) = with_usage_count v t.
Proof. reflexivity. Qed.

Lemma with_usage_count_same t : with_usage_count (t_usage_count t) t = t.
Proof. destruct t; reflexivity. Qed.

Lemma set_heap_same s : set_heap (heap s) s = s.
Proof. destruct s; reflexivity. Qed.

Lemma set_heap_twice h h' s : set_heap h (set_heap h' s) = set_heap h s.
Proof. reflexivity. Qed.

(** X8. Taking [count] references and giving them back is a round trip: on a
    buffer that is referenced at least once, [tvb_increment_usage_count]
    followed by [tvb_decrement_usage_count] with the same count returns the
    usage count the buffer had and leaves the state as it was, nothing
    being released, provided the incremented count fits a guint. *)
Theorem usage_count_round_trip
    (fuel : nat) (s : state) (p : tvb_ptr) (t : tvbuff_t) (count : Z) :
  heap s !! p = Some t ->
  1 <= t_usage_count t -> 0 <= count -> t_usage_count t + count <= UINT_MAX ->
  (_ <- tvb_increment_usage_count p count ;;
   tvb_decrement_usage_count fuel p count) s
  = (Ret (t_usage_count t), s).
Proof.
  intros Hp Hu Hc Hmax.
  assert (HU : UINT_MAX = 4294967295) by reflexivity.
  unfold tvb_increment_usage_count, tvb_decrement_usage_count,
    tvb_decrement_usage_count_with.
  erewrite bind_run.
  2:{ erewrite bind_run by (apply deref_some; exact Hp).
      erewrite bind_run by (eapply store_some; exact Hp).
      reflexivity. }
  rewrite (guint_id (t_usage_count t + count)) by (unfold is_guint; lia).
  erewrite bind_run by (apply deref_some; hlookup).
  cbn [t_usage_count with_usage_count].
  rewrite (proj2 (Z.leb_gt _ _)) by lia.
  erewrite bind_run by (eapply store_some; hlookup).
  replace (t_usage_count t + count - count) with (t_usage_count t) by lia.
  rewrite (guint_id (t_usage_count t)) by (unfold is_guint; lia).
  unfold ret. f_equal.
  rewrite with_usage_count_twice, with_usage_count_same.
  hsimpl. rewrite set_heap_twice, insert_insert_eq, (insert_id _ _ _ Hp).
  apply set_heap_same.
Qed.

Lemma usage_count_round_trip_witness :
  (_ <- tvb_increment_usage_count 0%nat 3 ;;
   tvb_decrement_usage_count 0 0%nat 3) (sample_state cut_short)
  = (Ret 1, sample_state cut_short).
Proof.
  exact (usage_count_round_trip 0 (sample_state cut_short) 0%nat cut_short 3
           eq_refl ltac:(sample_facts) ltac:(sample_facts)
           ltac:(sample_facts)).
Defined.

(** X9. [tvb_decrement_usage_count] by at least the usage count releases a
    real-data buffer: it returns 0, the header is handed back to the
    memchunk and leaves the heap, and the bytes are released exactly when a
    free callback was set. *)
Theorem decrement_to_zero_releases
    (fuel : nat) (s : state) (p : tvb_ptr) (t : tvbuff_t) (count : Z) :
  heap s !! p = Some t -> t_type t = TVBUFF_REAL_DATA ->
  t_usage_count t <= count ->
  exists s',
    tvb_decrement_usage_count (S fuel) p count s = (Ret 0, s')
    /\ heap s' = delete p (heap s)
    /\ released s' = p :: released s
    /\ data_released s'
       = (if t_free_cb t then p :: data_released s else data_released s).
Proof.
  intros Hp Hty Hc.
  unfold tvb_decrement_usage_count, tvb_decrement_usage_count_with.
  erewrite bind_run by (apply deref_some; exact Hp).
  rewrite (proj2 (Z.leb_le _ _)) by lia.
  erewrite bind_run by (eapply store_some; exact Hp).
  cbn [tvb_free].
  destruct (t_free_cb t) eqn:Hcb.
  - erewrite (bind_run (_ ;;; _)).
    2:{ erewrite bind_run by (apply deref_some; hlookup).
        cbn [t_usage_count with_usage_count].
        change (guint (1 - 1)) with 0.
        erewrite bind_run by (eapply store_some; hlookup).
        change (0 =? 0) with true. cbv iota.
        cbn [t_type with_usage_count t_free_cb]. rewrite Hty, Hcb.
        erewrite bind_run by reflexivity.
        erewrite bind_run by (apply deref_some; hlookup).
        unfold g_chunk_free. hsimpl.
        rewrite lookup_insert_eq. reflexivity. }
    eexists. split; [reflexivity|]. hsimpl.
    rewrite !delete_insert_eq. auto.
  - erewrite (bind_run (_ ;;; _)).
    2:{ erewrite bind_run by (apply deref_some; hlookup).
        cbn [t_usage_count with_usage_count].
        change (guint (1 - 1)) with 0.
        erewrite bind_run by (eapply store_some; hlookup).
        change (0 =? 0) with true. cbv iota.
        cbn [t_type with_usage_count t_free_cb]. rewrite Hty, Hcb.
        erewrite bind_run by reflexivity.
        erewrite bind_run by (apply deref_some; hlookup).
        unfold g_chunk_free. hsimpl.
        rewrite lookup_insert_eq. reflexivity. }
    eexists. split; [reflexivity|]. hsimpl.
    rewrite !delete_insert_eq. auto.
Qed.

Lemma decrement_to_zero_releases_witness :
  exists s',
    tvb_decrement_usage_count 1 0%nat 1 (sample_state cut_short) = (Ret 0, s')
    /\ heap s' = delete 0%nat (heap (sample_state cut_short))
    /\ released s' = [0%nat]
    /\ data_released s' = [].
Proof.
  exact (decrement_to_zero_releases 0 (sample_state cut_short) 0%nat
           cut_short 1 eq_refl eq_refl ltac:(sample_facts)).
Defined.

(** What a successful check of a well-formed buffer returns. *)
Lemma check_offset_length_window tvb offset length ao al :
  well_formed tvb ->
  check_offset_length tvb offset length = Ret (ao, al) ->
  0 <= ao /\ 0 <= al /\ ao + al <= t_length tvb.
Proof.
  intros (Hinit & Hlr & Hr & Hmax) Hc.
  assert (HI : INT_MAX = 2147483647) by reflexivity.
  assert (HU : UINT_MAX = 4294967295) by reflexivity.
  pose proof (check_inr _ _ _ _ _ Hc) as Hn.
  destruct (compute_offset_length_range _ _ _ _ _ Hn) as [Hao Hal].
  unfold check_offset_length in Hc.
  rewrite (check_offset_length_no_exception_classify _ _ _ _ _ Hinit Hn) in Hc.
  unfold classify_spec, clamped_end in Hc. cbn [obind] in Hc.
  unfold is_guint in Hao, Hal.
  destruct (Z.leb_spec (Z.min (ao + al) UINT_MAX) (t_length tvb)); [lia|].
  destruct (Z.min (ao + al) UINT_MAX <=? t_reported_length tvb); discriminate.
Qed.

(** X10. [tvb_new_subset] over a well-formed backing buffer, for a window
    that passes the bounds check: the new header has the window's length,
    the given reported length, or what the backing buffer reports behind
    the window's start when -1 is given, a direct pointer into the backing
    bytes when the backing buffer has one, and the data source of the
    backing buffer; the backing buffer gains one reference and lists the
    subset among its users. The subset is well-formed again when the
    reported length is -1 or at least the window's length; the code does
    not check the latter. *)
Theorem new_subset_window
    (fuel : nat) (s : state) (backing : tvb_ptr) (B : tvbuff_t)
    (bo bl rl ao al : Z) :
  heap s !! backing = Some B ->
  heap s !! next_chunk s = None ->
  last_tvb_subset s = None ->
  well_formed B -> -1 <= rl <= INT_MAX ->
  check_offset_length B bo bl = Ret (ao, al) ->
  exists s' sub B',
    tvb_new_subset fuel backing bo bl rl s = (Ret (next_chunk s), s')
    /\ heap s' !! next_chunk s = Some sub
    /\ heap s' !! backing = Some B'
    /\ t_length sub = al
    /\ t_reported_length sub
       = (if rl =? -1 then t_reported_length B - ao else rl)
    /\ t_real_data sub = (fun d => ptr_add d ao) <$> t_real_data B
    /\ t_ds_tvb sub = t_ds_tvb B
    /\ t_usage_count sub = 1
    /\ t_usage_count B' = guint (t_usage_count B + 1)
    /\ t_used_in B' = next_chunk s :: t_used_in B
    /\ (rl = -1 \/ al <= rl -> well_formed sub).
Proof.
  intros Hb Hfresh Hlast Hw Hrl Hc.
  assert (HI : INT_MAX = 2147483647) by reflexivity.
  assert (HU : UINT_MAX = 4294967295) by reflexivity.
  destruct (check_offset_length_window _ _ _ _ _ Hw Hc) as (Hao & Hal & Hend).
  destruct Hw as (Hinit & Hlr & Hr & Hmax).
  destruct (tvb_new_subset_run fuel s backing B bo bl rl ao al Hb Hfresh Hlast
              ltac:(apply Z.ltb_ge; lia) Hc) as (s' & Hrun & Hsub & Hback).
  exists s', (subset_header backing B ao al rl),
    (backing_header (next_chunk s) B).
  assert (Hrep : (if rl =? -1 then guint (t_reported_length B - ao)
                  else guint rl)
                 = (if rl =? -1 then t_reported_length B - ao else rl)).
  { destruct (Z.eqb_spec rl (-1)); apply guint_id; unfold is_guint; lia. }
  do 10 (split; [first [assumption | reflexivity | exact Hrep]|]).
  intros Hcase. unfold well_formed.
  cbn [subset_header t_initialized t_length t_reported_length
       with_ds_tvb with_real_data with_initialized with_reported_length
       with_length].
  rewrite Hrep.
  destruct (Z.eqb_spec rl (-1)); repeat split; lia.
Qed.

Lemma new_subset_window_witness :
  exists s' sub B',
    tvb_new_subset 0 0%nat 1 2 (-1) (sample_state cut_short)
    = (Ret 1%nat, s')
    /\ heap s' !! 1%nat = Some sub
    /\ heap s' !! 0%nat = Some B'
    /\ t_length sub = 2
    /\ t_reported_length sub = 15
    /\ t_real_data sub = Some (bytes_of [2; 3; 4])
    /\ t_ds_tvb sub = None
    /\ t_usage_count sub = 1
    /\ t_usage_count B' = 2
    /\ t_used_in B' = [1%nat]
    /\ (-1 = -1 \/ 2 <= -1 -> well_formed sub).
Proof.
  exact (new_subset_window 0 (sample_state cut_short) 0%nat cut_short
           1 2 (-1) 1 2 eq_refl eq_refl eq_refl
           ltac:(sample_facts) ltac:(sample_facts) eq_refl).
Defined.

Lemma preserves_pure {A} I (m : M A) : pure_m m -> preserves I m.
Proof. intros Hm s Hs. rewrite (Hm s). exact Hs. Qed.

Lemma preserves_bind {A B} I (m : M A) (k : A -> M B) :
  preserves I m -> (forall a, preserves I (k a)) -> preserves I (bind m k).
Proof.
  intros Hm Hk s Hs. unfold bind. specialize (Hm s Hs).
  destruct (m s) as [[a | e | f |] s1]; cbn [snd] in *; try exact Hm.
  apply Hk. exact Hm.
Qed.

Lemma preserves_run {A} (I : state -> Prop) (m : M A) s :
  preserves I m -> I s -> I (snd (m s)).
Proof. intros Hm. apply Hm. Qed.

Lemma preserves_store p q t : preserves (reclaimed p) (store q t).
Proof.
  intros s [Hrel Hvac]. unfold store.
  destruct (heap s !! q) eqn:Hq; [|split; assumption].
  cbn [snd]. split; [exact Hrel|]. hsimpl.
  rewrite lookup_insert_ne by congruence. exact Hvac.
Qed.

Lemma preserves_set_last_tvb_subset p v :
  preserves (reclaimed p) (set_last_tvb_subset v).
Proof. intros s Hs. exact Hs. Qed.

Ltac preserves_step :=
  first
    [ apply preserves_store | apply preserves_set_last_tvb_subset
    | apply preserves_pure; solve [repeat pure_step]
    | apply preserves_bind; [| intros ?]
    | match goal with
      | |- preserves _ (match ?x with _ => _ end) => destruct x
      | |- preserves _ (if ?x then _ else _) => destruct x
      end ].

Lemma preserves_modify p q f : preserves (reclaimed p) (modify q f).
Proof. unfold modify. repeat preserves_step. Qed.

Lemma preserves_add_to_used_in_list p q u :
  preserves (reclaimed p) (add_to_used_in_list q u).
Proof.
  unfold add_to_used_in_list, tvb_increment_usage_count.
  apply preserves_bind; [apply preserves_modify|]. intros _.
  repeat preserves_step.
Qed.

Lemma preserves_tvb_set_subset p tvb backing bo bl rl :
  preserves (reclaimed p) (tvb_set_subset tvb backing bo bl rl).
Proof.
  unfold tvb_set_subset.
  repeat first [ apply preserves_add_to_used_in_list
               | apply preserves_modify | preserves_step ].
Qed.

(** X11. A subset construction whose window fails the bounds check throws
    the error of the check and leaves the backing buffer as it was: no
    reference is taken. The header it had allocated is remembered in the
    function's static variable, and whatever the next call of
    [tvb_new_subset] is given, that call hands the header back to the
    memchunk before anything else, so the header is not lost. *)
Theorem failed_subset_is_reclaimed
    (fuel : nat) (s : state) (backing : tvb_ptr) (B : tvbuff_t)
    (bo bl rl : Z) (e : exception) :
  heap s !! backing = Some B ->
  heap s !! next_chunk s = None ->
  last_tvb_subset s = None ->
  -1 <= rl ->
  check_offset_length B bo bl = Throw e ->
  exists s1,
    tvb_new_subset fuel backing bo bl rl s = (Throw e, s1)
    /\ last_tvb_subset s1 = Some (next_chunk s)
    /\ heap s1 !! backing = Some B
    /\ released s1 = released s
    /\ forall fuel' backing' bo' bl' rl',
        reclaimed (next_chunk s)
          (snd (tvb_new_subset (S fuel') backing' bo' bl' rl' s1)).
Proof.
  intros Hb Hfresh Hlast Hrl Hc.
  assert (Hne : backing <> next_chunk s) by congruence.
  unfold tvb_new_subset at 1.
  unfold bind at 1. unfold tvb_new at 1. cbv beta iota.
  unfold bind at 1. unfold get_last_tvb_subset at 1. hsimpl. cbv beta iota.
  rewrite Hlast.
  erewrite bind_run by reflexivity.
  erewrite bind_run by reflexivity.
  unfold tvb_set_subset. hsimpl.
  unfold bind at 1.
  erewrite bind_run by (apply deref_some; hsimpl; apply lookup_insert_eq).
  erewrite bind_run by reflexivity.
  erewrite bind_run by reflexivity.
  rewrite (proj2 (Z.ltb_ge rl (-1))) by lia.
  erewrite bind_run
    by (apply deref_some; hsimpl; rewrite lookup_insert_ne by congruence;
        exact Hb).
  unfold bind at 1. unfold lift at 1. rewrite Hc.
  eexists. split; [reflexivity|].
  hsimpl. split; [reflexivity|].
  split; [rewrite lookup_insert_ne by congruence; exact Hb|].
  split; [reflexivity|].
  intros fuel' backing' bo' bl' rl'.
  unfold tvb_new_subset.
  unfold bind at 1. unfold tvb_new at 1. cbv beta iota.
  unfold bind at 1. unfold get_last_tvb_subset at 1. hsimpl. cbv beta iota.
  erewrite (bind_run (tvb_free _ _)).
  2:{ cbn [tvb_free].
      erewrite bind_run
        by (apply deref_some; hsimpl; rewrite lookup_insert_ne by lia;
            apply lookup_insert_eq).
      cbn [t_usage_count tvb_init]. change (guint (1 - 1)) with 0.
      erewrite bind_run
        by (eapply store_some; hsimpl; rewrite lookup_insert_ne by lia;
            apply lookup_insert_eq).
      change (0 =? 0) with true. cbv iota.
      cbn [t_type with_usage_count tvb_init t_subset b_tvb].
      erewrite bind_run by reflexivity.
      erewrite bind_run
        by (apply deref_some; hsimpl; apply lookup_insert_eq).
      unfold g_chunk_free. hsimpl. rewrite lookup_insert_eq. reflexivity. }
  apply preserves_run.
  - repeat first [ apply preserves_tvb_set_subset
                 | apply preserves_modify | preserves_step ].
  - split; hsimpl.
    + apply list_elem_of_here.
    + apply lookup_delete_eq.
Qed.

Lemma failed_subset_is_reclaimed_witness :
  exists s1,
    tvb_new_subset 0 0%nat 5 1 (-1) (sample_state cut_short)
    = (Throw BoundsError, s1)
    /\ last_tvb_subset s1 = Some 1%nat
    /\ heap s1 !! 0%nat = Some cut_short
    /\ released s1 = []
    /\ forall fuel' backing' bo' bl' rl',
        reclaimed 1%nat
          (snd (tvb_new_subset (S fuel') backing' bo' bl' rl' s1)).
Proof.
  exact (failed_subset_is_reclaimed 0 (sample_state cut_short) 0%nat
           cut_short 5 1 (-1) BoundsError eq_refl eq_refl eq_refl
           ltac:(lia) eq_refl).
Defined.

(** The release of one subset by [tvb_free_chain]: its header is handed
    back and the usage count of its backing buffer goes down by one. *)
Lemma free_chain_plain_subset fuel s b B u U :
  heap s !! b = Some B -> heap s !! u = Some U -> u <> b ->
  plain_subset b U -> 2 <= t_usage_count B <= UINT_MAX ->
  tvb_free_chain (S (S fuel)) u s
  = (Ret tt,
     {| heap := delete u (<[b := with_usage_count (t_usage_count B - 1) B]>
                            (heap s));
        next_chunk := next_chunk s; released := u :: released s;
        data_released := data_released s;
        last_tvb_real := last_tvb_real s;
        last_tvb_subset := last_tvb_subset s |}).
Proof.
  intros Hb Hu Hne (Hty & Hcnt & Hused & Hback) Hc.
  assert (HU : UINT_MAX = 4294967295) by reflexivity.
  cbn [tvb_free_chain].
  erewrite bind_run by (apply deref_some; exact Hu).
  rewrite Hused. cbn [slist_foreach].
  erewrite bind_run by reflexivity.
  cbn [tvb_free].
  erewrite bind_run by (apply deref_some; exact Hu).
  rewrite Hcnt. change (guint (1 - 1)) with 0.
  erewrite bind_run by (eapply store_some; exact Hu).
  change (0 =? 0) with true. cbv iota.
  rewrite Hty, Hback.
  unfold tvb_decrement_usage_count_with.
  erewrite (bind_run (_ ;;; ret tt)).
  2:{ erewrite (bind_run (bind _ _)).
      2:{ erewrite bind_run
            by (apply deref_some; hsimpl;
                rewrite lookup_insert_ne by congruence; exact Hb).
          rewrite (proj2 (Z.leb_gt _ _)) by lia.
          erewrite bind_run
            by (eapply store_some; hsimpl;
                rewrite lookup_insert_ne by congruence; exact Hb).
          reflexivity. }
      reflexivity. }
  erewrite bind_run
    by (apply deref_some; hsimpl; rewrite lookup_insert_ne by congruence;
        apply lookup_insert_eq).
  unfold g_chunk_free. hsimpl.
  rewrite lookup_insert_ne by congruence. rewrite lookup_insert_eq.
  rewrite (guint_id (t_usage_count B - 1)) by (unfold is_guint; lia).
  f_equal. f_equal.
  rewrite (insert_insert_ne _ b u) by congruence.
  apply delete_insert_eq.
Qed.

(** The walk of [tvb_free_chain] along the users of a buffer, when they are
    plain subsets of it. *)
Lemma free_chain_users fuel b :
  forall (us : list tvb_ptr) (s : state) (B : tvbuff_t),
    heap s !! b = Some B -> NoDup us -> b ∉ us ->
    (forall u, u ∈ us ->
               exists U, heap s !! u = Some U /\ plain_subset b U) ->
    1 + Z.of_nat (length us) <= t_usage_count B <= UINT_MAX ->
    exists s',
      slist_foreach b (tvb_free_chain (S (S fuel))) us s = (Ret tt, s')
      /\ heap s' !! b
         = Some (with_usage_count (t_usage_count B - Z.of_nat (length us)) B)
      /\ released s' = reverse us ++ released s
      /\ data_released s' = data_released s
      /\ (forall u, u ∈ us -> heap s' !! u = None)
      /\ (forall q, q <> b -> q ∉ us -> heap s' !! q = heap s !! q).
Proof.
  induction us as [| u rest IH]; intros s B Hb Hnd Hnb Hus Hc.
  - exists s. cbn [slist_foreach length]. rewrite Z.sub_0_r.
    rewrite with_usage_count_same.
    repeat split; try reflexivity; try assumption.
    intros u Hu. inversion Hu.
  - apply NoDup_cons in Hnd as [Hu_rest Hnd].
    apply not_elem_of_cons in Hnb as [Hbu Hnb].
    destruct (Hus u ltac:(apply list_elem_of_here)) as (U & HU & Hplain).
    cbn [length] in Hc. rewrite Nat2Z.inj_succ in Hc.
    cbn [slist_foreach].
    erewrite bind_run
      by (apply (free_chain_plain_subset fuel s b B u U); auto; lia).
    erewrite bind_run
      by (apply deref_some; hsimpl; rewrite lookup_delete_ne by congruence;
          apply lookup_insert_eq).
    match goal with
    | |- context [slist_foreach _ _ rest ?s1] =>
        destruct (IH s1 (with_usage_count (t_usage_count B - 1) B))
          as (s' & Hrun & Hb' & Hrel & Hdata & Hgone & Hrest)
    end.
    + hsimpl. rewrite lookup_delete_ne by congruence. apply lookup_insert_eq.
    + exact Hnd.
    + exact Hnb.
    + intros v Hv. destruct (Hus v ltac:(apply list_elem_of_further; exact Hv))
        as (V & HV & HVp).
      exists V. split; [|exact HVp]. hsimpl.
      rewrite lookup_delete_ne by (intros ->; contradiction).
      rewrite lookup_insert_ne by (intros ->; contradiction). exact HV.
    + cbn [t_usage_count with_usage_count]. lia.
    + exists s'. split; [exact Hrun|].
      cbn [t_usage_count with_usage_count] in Hb'.
      rewrite with_usage_count_twice in Hb'.
      split.
      { rewrite Hb'. cbn [length]. rewrite Nat2Z.inj_succ.
        do 2 f_equal. lia. }
      split.
      { rewrite Hrel. hsimpl. rewrite reverse_cons, <- app_assoc. reflexivity. }
      split; [rewrite Hdata; reflexivity|].
      split.
      { intros v Hv. apply elem_of_cons in Hv as [-> | Hv].
        - rewrite Hrest by (congruence || assumption).
          hsimpl. apply lookup_delete_eq.
        - apply Hgone. exact Hv. }
      { intros q Hqb Hq. apply not_elem_of_cons in Hq as [Hqu Hq].
        rewrite Hrest by assumption. hsimpl.
        rewrite lookup_delete_ne by congruence.
        rewrite lookup_insert_ne by congruence. reflexivity. }
Qed.

(** X12. [tvb_free_chain] on a real-data buffer whose users are plain
    subsets of it, each counted once in its usage count: every subset
    header and then the buffer's own header are handed back to the
    memchunk, each exactly once, the bytes are released exactly when a
    free callback was set, and no other header is touched. *)
Theorem free_chain_releases_subsets
    (fuel : nat) (s : state) (b : tvb_ptr) (B : tvbuff_t) :
  heap s !! b = Some B -> t_type B = TVBUFF_REAL_DATA ->
  NoDup (t_used_in B) -> b ∉ t_used_in B ->
  t_usage_count B = 1 + Z.of_nat (length (t_used_in B)) ->
  t_usage_count B <= UINT_MAX ->
  (forall u, u ∈ t_used_in B ->
             exists U, heap s !! u = Some U /\ plain_subset b U) ->
  exists s',
    tvb_free_chain (3 + fuel) b s = (Ret tt, s')
    /\ released s' = b :: reverse (t_used_in B) ++ released s
    /\ data_released s'
       = (if t_free_cb B then b :: data_released s else data_released s)
    /\ heap s' !! b = None
    /\ (forall u, u ∈ t_used_in B -> heap s' !! u = None)
    /\ (forall q, q <> b -> q ∉ t_used_in B -> heap s' !! q = heap s !! q).
Proof.
  intros Hb Hty Hnd Hnb Hcnt Hmax Hus.
  destruct (free_chain_users fuel b (t_used_in B) s B Hb Hnd Hnb Hus
              ltac:(lia)) as (s1 & Hrun & Hb1 & Hrel & Hdata & Hgone & Hrest).
  change (3 + fuel)%nat with (S (S (S fuel))).
  cbn [tvb_free_chain].
  erewrite bind_run by (apply deref_some; exact Hb).
  erewrite bind_run by exact Hrun.
  replace (t_usage_count B - Z.of_nat (length (t_used_in B))) with 1 in Hb1
    by lia.
  cbn [tvb_free].
  erewrite bind_run by (apply deref_some; exact Hb1).
  cbn [t_usage_count with_usage_count]. change (guint (1 - 1)) with 0.
  erewrite bind_run by (eapply store_some; exact Hb1).
  change (0 =? 0) with true. cbv iota.
  cbn [t_type with_usage_count t_free_cb]. rewrite Hty.
  destruct (t_free_cb B).
  - erewrite bind_run by reflexivity.
    erewrite bind_run by (apply deref_some; hsimpl; apply lookup_insert_eq).
    unfold g_chunk_free. hsimpl. rewrite lookup_insert_eq.
    eexists. split; [reflexivity|]. hsimpl.
    rewrite Hrel, Hdata.
    repeat split.
    + apply lookup_delete_eq.
    + intros u Hu. rewrite lookup_delete_ne by (intros ->; contradiction).
      rewrite lookup_insert_ne by (intros ->; contradiction).
      apply Hgone. exact Hu.
    + intros q Hqb Hq. rewrite lookup_delete_ne by congruence.
      rewrite lookup_insert_ne by congruence. apply Hrest; assumption.
  - erewrite bind_run by reflexivity.
    erewrite bind_run by (apply deref_some; hsimpl; apply lookup_insert_eq).
    unfold g_chunk_free. hsimpl. rewrite lookup_insert_eq.
    eexists. split; [reflexivity|]. hsimpl.
    rewrite Hrel, Hdata.
    repeat split.
    + apply lookup_delete_eq.
    + intros u Hu. rewrite lookup_delete_ne by (intros ->; contradiction).
      rewrite lookup_insert_ne by (intros ->; contradiction).
      apply Hgone. exact Hu.
    + intros q Hqb Hq. rewrite lookup_delete_ne by congruence.
      rewrite lookup_insert_ne by congruence. apply Hrest; assumption.
Qed.

Lemma free_chain_releases_subsets_witness :
  exists s',
    tvb_free_chain 3 0%nat with_one_subset = (Ret tt, s')
    /\ released s' = [0%nat; 1%nat]
    /\ data_released s' = []
    /\ heap s' !! 0%nat = None
    /\ (forall u, u ∈ [1%nat] -> heap s' !! u = None)
    /\ (forall q, q <> 0%nat -> q ∉ [1%nat] ->
                  heap s' !! q = heap with_one_subset !! q).
Proof.
  refine (free_chain_releases_subsets 0 with_one_subset 0%nat
            (backing_header 1%nat cut_short) eq_refl eq_refl _ _ eq_refl
            ltac:(vm_compute; discriminate) _).
  - apply NoDup_singleton.
  - intros H. apply list_elem_of_singleton in H. discriminate.
  - intros u Hu. apply list_elem_of_singleton in Hu. subst u.
    exists (subset_header 0%nat cut_short 1 2 (-1)).
    split; [reflexivity|]. repeat split.
Defined.

Lemma composite_finalize_loop_tables c :
  forall (ms : list tvb_ptr) (Ms : list tvbuff_t) (s : state) (t : tvbuff_t)
         (st en : list Z),
    heap s !! c = Some t -> members_at s c ms Ms ->
    0 <= t_length t ->
    t_length t + sum_lengths (t_length <$> Ms) <= UINT_MAX ->
    c_start_offsets (t_composite t) = Some st ->
    c_end_offsets (t_composite t) = Some en ->
    exists s' t',
      composite_finalize_loop c ms s = (Ret tt, s')
      /\ heap s' !! c = Some t'
      /\ t_length t' = t_length t + sum_lengths (t_length <$> Ms)
      /\ c_start_offsets (t_composite t')
         = Some (st ++ running_starts (t_length t) (t_length <$> Ms))
      /\ c_end_offsets (t_composite t')
         = Some (en ++ (guint <$> running_ends (t_length t) (t_length <$> Ms)))
      /\ c_tvbs (t_composite t') = c_tvbs (t_composite t)
      /\ t_initialized t' = t_initialized t
      /\ t_reported_length t' = t_reported_length t
      /\ t_real_data t' = t_real_data t
      /\ (forall q, q <> c -> heap s' !! q = heap s !! q).
Proof.
  induction ms as [| m ms IH]; intros Ms s t st en Hc Hms Hlen Hsum Hst Hen.
  - inversion Hms; subst. exists s, t. cbn.
    rewrite Z.add_0_r, !app_nil_r. repeat split; auto.
  - inversion Hms as [| m' M ms' Ms' (Hm & Hne & HlenM) Hrest]; subst.
    cbn [fmap list_fmap sum_lengths foldr] in Hsum |- *.
    change (foldr Z.add 0 (t_length <$> Ms')) with
      (sum_lengths (t_length <$> Ms')) in Hsum |- *.
    assert (Hsum0 : 0 <= sum_lengths (t_length <$> Ms')).
    { clear -Hrest.
      induction Hrest as [| ? ? ? ? (_ & _ & H) _ IH']; cbn; [lia|].
      unfold sum_lengths in IH'. lia. }
    cbn [composite_finalize_loop].
    erewrite bind_run by (apply deref_some; exact Hm).
    erewrite bind_run by (apply deref_some; exact Hc).
    erewrite bind_run by (eapply store_some; exact Hc).
    rewrite Hst, Hen. cbn [default].
    rewrite (guint_id (t_length t + t_length M)) by (unfold is_guint; lia).
    match goal with
    | |- context [composite_finalize_loop c ms ?s1] =>
        match s1 with
        | set_heap (<[c := ?t1]> _) _ =>
            destruct (IH Ms' s1 t1 (st ++ [t_length t])
                        (en ++ [guint (t_length t + t_length M - 1)]))
              as (s' & t' & Hrun & Hc' & Hl' & Hst' & Hen' & Htv & Hin & Hrep
                  & Hdata & Hother)
        end
    end.
    + hsimpl. apply lookup_insert_eq.
    + eapply Forall2_impl; [exact Hrest|].
      intros x X (Hx & Hxc & HxL). hsimpl.
      rewrite lookup_insert_ne by congruence. auto.
    + cbn. lia.
    + cbn. lia.
    + reflexivity.
    + reflexivity.
    + exists s', t'. split; [exact Hrun|]. split; [exact Hc'|].
      cbn [t_length with_length] in Hl', Hst', Hen'.
      split; [rewrite Hl'; lia|].
      split; [rewrite Hst', <- app_assoc; reflexivity|].
      split; [rewrite Hen', <- app_assoc; reflexivity|].
      split; [rewrite Htv; reflexivity|].
      split; [rewrite Hin; reflexivity|].
      split; [rewrite Hrep; reflexivity|].
      split; [rewrite Hdata; reflexivity|].
      intros q Hq. rewrite Hother by exact Hq. hsimpl.
      apply lookup_insert_ne. congruence.
Qed.

(** X13. [tvb_composite_finalize] on a composite whose members are in the
    heap and whose lengths add up to a guint: the composite becomes
    initialized, its length is the sum of the members' lengths, entry [i]
    of the start table is the sum of the lengths before member [i] and
    entry [i] of the end table is the offset of the last byte of member
    [i], wrapped to a guint, so that a leading member without bytes gets
    the largest guint; the reported length is left as it was and no other
    header is touched. *)
Theorem composite_finalize_tables
    (s : state) (c : tvb_ptr) (t : tvbuff_t) (Ms : list tvbuff_t) :
  heap s !! c = Some t ->
  t_initialized t = false -> t_type t = TVBUFF_COMPOSITE -> t_length t = 0 ->
  members_at s c (c_tvbs (t_composite t)) Ms ->
  sum_lengths (t_length <$> Ms) <= UINT_MAX ->
  exists s' t',
    tvb_composite_finalize c s = (Ret tt, s')
    /\ heap s' !! c = Some t'
    /\ t_initialized t' = true
    /\ t_length t' = sum_lengths (t_length <$> Ms)
    /\ c_start_offsets (t_composite t')
       = Some (running_starts 0 (t_length <$> Ms))
    /\ c_end_offsets (t_composite t')
       = Some (guint <$> running_ends 0 (t_length <$> Ms))
    /\ t_reported_length t' = t_reported_length t
    /\ (forall q, q <> c -> heap s' !! q = heap s !! q).
Proof.
  intros Hc Hinit Hty Hlen Hms Hsum.
  unfold tvb_composite_finalize.
  erewrite bind_run by (apply deref_some; exact Hc).
  erewrite bind_run by (apply assert_run; rewrite Hinit; reflexivity).
  erewrite bind_run
    by (apply assert_run; apply bool_decide_eq_true_2; exact Hty).
  erewrite bind_run by (apply assert_run; rewrite Hlen; reflexivity).
  erewrite bind_run by (eapply store_some; exact Hc).
  match goal with
  | |- context [bind (composite_finalize_loop c _) _ ?s1] =>
      match s1 with
      | set_heap (<[c := ?t1]> _) _ =>
          destruct (composite_finalize_loop_tables c
                      (c_tvbs (t_composite t)) Ms s1 t1 [] [])
            as (s' & t' & Hrun & Hc' & Hl' & Hst' & Hen' & Htv & Hin & Hrep
                & Hdata & Hother)
      end
  end.
  - hsimpl. apply lookup_insert_eq.
  - eapply Forall2_impl; [exact Hms|].
    intros x X (Hx & Hxc & HxL). hsimpl.
    rewrite lookup_insert_ne by congruence. auto.
  - cbn. lia.
  - cbn. lia.
  - reflexivity.
  - reflexivity.
  - erewrite bind_run by exact Hrun.
    unfold modify.
    erewrite bind_run by (apply deref_some; exact Hc').
    rewrite (store_some _ _ _ _ Hc').
    eexists. eexists. split; [reflexivity|]. hsimpl.
    split; [apply lookup_insert_eq|].
    cbn [t_length with_composite with_length] in Hl', Hst', Hen'.
    rewrite Hlen in Hl', Hst', Hen'.
    cbn [t_initialized t_length t_composite t_reported_length with_initialized].
    split; [reflexivity|].
    split; [rewrite Hl'; lia|].
    split; [exact Hst'|].
    split; [exact Hen'|].
    split; [rewrite Hrep; reflexivity|].
    intros q Hq. rewrite lookup_insert_ne by congruence.
    rewrite Hother by exact Hq. hsimpl.
    apply lookup_insert_ne. congruence.
Qed.

Lemma composite_finalize_tables_witness :
  exists s' t',
    tvb_composite_finalize 2%nat two_members = (Ret tt, s')
    /\ heap s' !! 2%nat = Some t'
    /\ t_initialized t' = true
    /\ t_length t' = 5
    /\ c_start_offsets (t_composite t') = Some [0; 3]
    /\ c_end_offsets (t_composite t') = Some [2; 4]
    /\ t_reported_length t' = 0
    /\ (forall q, q <> 2%nat -> heap s' !! q = heap two_members !! q).
Proof.
  pose (T := ltac:(let v := eval vm_compute in
                     (default (tvb_init TVBUFF_COMPOSITE)
                        (heap two_members !! 2%nat)) in exact v)).
  pose (M0 := ltac:(let v := eval vm_compute in
                      (default (tvb_init TVBUFF_REAL_DATA)
                         (heap two_members !! 0%nat)) in exact v)).
  pose (M1 := ltac:(let v := eval vm_compute in
                      (default (tvb_init TVBUFF_REAL_DATA)
                         (heap two_members !! 1%nat)) in exact v)).
  assert (HT : heap two_members !! 2%nat = Some T)
    by (vm_compute; reflexivity).
  assert (H0 : heap two_members !! 0%nat = Some M0)
    by (vm_compute; reflexivity).
  assert (H1 : heap two_members !! 1%nat = Some M1)
    by (vm_compute; reflexivity).
  assert (Hms : members_at two_members 2%nat (c_tvbs (t_composite T)) [M0; M1]).
  { repeat constructor; first [exact H0 | exact H1 | discriminate]. }
  destruct (composite_finalize_tables two_members 2%nat T [M0; M1]
              HT eq_refl eq_refl eq_refl Hms ltac:(vm_compute; discriminate))
    as (s' & t' & Hrun & Hc & Hinit & Hlen & Hst & Hen & Hrep & Hother).
  exists s', t'. repeat split; assumption.
Defined.

Lemma pure_tvb_length_remaining tvb offset :
  pure_m (tvb_length_remaining tvb offset).
Proof. unfold tvb_length_remaining. repeat pure_step. Qed.

Lemma pure_tvb_length tvb : pure_m (tvb_length tvb).
Proof. unfold tvb_length. repeat pure_step. Qed.

Lemma pure_tvb_reported_length tvb : pure_m (tvb_reported_length tvb).
Proof. unfold tvb_reported_length. repeat pure_step. Qed.

Lemma pure_if {A} (b : bool) (m1 m2 : M A) :
  pure_m m1 -> pure_m m2 -> pure_m (if b then m1 else m2).
Proof. destruct b; auto. Qed.

Lemma pure_tvb_find_guint8 fuel :
  forall tvb offset maxlength needle,
    pure_m (tvb_find_guint8 fuel tvb offset maxlength needle).
Proof.
  induction fuel as [| fuel IH]; intros tvb offset maxlength needle;
    cbn [tvb_find_guint8]; [apply pure_out_of_fuel|].
  repeat first [ apply IH | apply pure_tvb_length_remaining | pure_step ].
Qed.

Lemma pure_tvb_pbrk_guint8 fuel :
  forall tvb offset maxlength needles,
    pure_m (tvb_pbrk_guint8 fuel tvb offset maxlength needles).
Proof.
  induction fuel as [| fuel IH]; intros tvb offset maxlength needles;
    cbn [tvb_pbrk_guint8]; [apply pure_out_of_fuel|].
  repeat first [ apply IH | apply pure_tvb_length_remaining | pure_step ].
Qed.

Lemma pure_tvb_strsize fuel tvb offset : pure_m (tvb_strsize fuel tvb offset).
Proof.
  unfold tvb_strsize.
  repeat first [ apply pure_tvb_find_guint8 | apply pure_tvb_length
               | apply pure_tvb_reported_length | apply pure_if | pure_step ].
Qed.

(** X14. Copying and searching never change the state: whatever the kind of
    buffer, the arguments and the outcome, [tvb_memcpy], [tvb_memdup],
    [tvb_find_guint8], [tvb_pbrk_guint8] and [tvb_strsize] leave every
    header, the memchunk and the release logs as they found them. *)
Theorem copies_and_searches_are_pure (fuel : nat) (tvb : tvb_ptr) :
  (forall offset length, pure_m (tvb_memcpy fuel tvb offset length))
  /\ (forall offset length, pure_m (tvb_memdup fuel tvb offset length))
  /\ (forall offset maxlength needle,
         pure_m (tvb_find_guint8 fuel tvb offset maxlength needle))
  /\ (forall offset maxlength needles,
         pure_m (tvb_pbrk_guint8 fuel tvb offset maxlength needles))
  /\ (forall offset, pure_m (tvb_strsize fuel tvb offset)).
Proof.
  split; [intros; apply pure_tvb_memcpy|].
  split; [intros; apply pure_tvb_memdup|].
  split; [intros; apply pure_tvb_find_guint8|].
  split; [intros; apply pure_tvb_pbrk_guint8|].
  intros; apply pure_tvb_strsize.
Qed.

(** ** Strings and comparisons *)

(** The index of the first zero among the first [n] bytes. *)
Lemma first_index_first_zero hay n :
  first_index (fun v => v =? 0) hay n = first_zero (take n hay).
Proof.
  revert hay. induction n as [| n IH]; intros [| b rest]; cbn; try reflexivity.
  destruct (byte_val b =? 0); [reflexivity|]. rewrite IH. reflexivity.
Qed.

Lemma first_zero_some l k :
  first_zero l = Some k ->
  (k < length l)%nat
  /\ (exists b, l !! k = Some b /\ byte_val b = 0)
  /\ first_zero (take (S k) l) = Some k.
Proof.
  revert k. induction l as [| b rest IH]; intros k; cbn [first_zero];
    [discriminate|].
  destruct (byte_val b =? 0) eqn:Hb.
  - intros Heq. inversion Heq; subst.
    split; [cbn [length]; lia|].
    split; [exists b; split; [reflexivity | lia]|].
    cbn [take first_zero]. rewrite Hb. reflexivity.
  - destruct (first_zero rest) as [j |] eqn:Hr; [|discriminate].
    intros Heq. inversion Heq; subst.
    destruct (IH j eq_refl) as (Hlt & (b' & Hb' & Hz) & Htake).
    split; [cbn [length]; lia|].
    split; [exists b'; auto|].
    change (take (S (S j)) (b :: rest)) with (b :: take (S j) rest).
    cbn [first_zero]. rewrite Hb, Htake. reflexivity.
Qed.

Lemma first_zero_take_lt l n k :
  first_zero (take n l) = Some k -> (k < n)%nat /\ (k < length l)%nat.
Proof.
  intros H. apply first_zero_some in H as (Hlt & _).
  rewrite length_take in Hlt. lia.
Qed.

Lemma first_zero_take_take l n k :
  first_zero (take n l) = Some k -> first_zero (take (S k) l) = Some k.
Proof.
  intros H. pose proof (first_zero_take_lt _ _ _ H) as [Hk _].
  apply first_zero_some in H as (_ & _ & H).
  rewrite take_take in H. rewrite Nat.min_l in H by lia. exact H.
Qed.

(** A check that passed for no bytes passes for any number of bytes up to
    the end of the captured bytes. *)
Lemma check_offset_length_extend tvb data offset ao al n :
  direct_buffer tvb data -> is_gint offset ->
  check_offset_length tvb offset 0 = Ret (ao, al) ->
  0 <= n <= t_length tvb - ao ->
  check_offset_length tvb offset n = Ret (ao, n).
Proof.
  intros Hd Ho Hc Hn. pose proof (direct_buffer_fields _ _ Hd) as Hf.
  pose proof (direct_buffer_well_formed _ _ Hd) as Hw.
  destruct Hd as (Hinit & _ & Hlr & Hr & Hmax & _).
  assert (HI : INT_MAX = 2147483647) by reflexivity.
  assert (HU : UINT_MAX = 4294967295) by reflexivity.
  destruct (check_zero_length_success _ _ _ _ Hf Ho Hinit Hc) as [-> Hao0].
  assert (Hg0 : is_gint 0) by (unfold is_gint, INT_MIN; lia).
  assert (Hgn : is_gint n) by (unfold is_gint, INT_MIN; lia).
  pose proof (check_inr _ _ _ _ _ Hc) as Hcomp.
  rewrite (compute_offset_length_spec _ _ _ Hf Ho Hg0) in Hcomp.
  apply normalize_spec_inr in Hcomp as (Ha1 & Ha2 & Hao & _ & _).
  unfold check_offset_length.
  rewrite (check_offset_length_no_exception_spec _ _ _ Hinit Hf Ho Hgn).
  unfold bounds_check_spec.
  rewrite (normalize_spec_in_range tvb offset n Hw) by lia.
  fold (abs_offset_of tvb offset) in Hao. rewrite <- Hao.
  rewrite (proj2 (Z.eqb_neq n (-1))) by lia.
  unfold classify_spec, clamped_end.
  assert (0 <= ao).
  { rewrite Hao. unfold abs_offset_of. destruct (Z.leb_spec 0 offset); lia. }
  rewrite Z.min_l by lia.
  rewrite (proj2 (Z.leb_le _ _)) by lia. reflexivity.
Qed.

(** [tvb_memcpy] on a direct buffer. *)
Lemma tvb_memcpy_run fuel s p tvb data offset length ao al :
  heap s !! p = Some tvb -> direct_buffer tvb data ->
  0 <= length <= INT_MAX ->
  check_offset_length tvb offset length = Ret (ao, al) ->
  tvb_memcpy (S fuel) p offset length s
  = (Ret (take (Z.to_nat al) (ptr_add data ao)), s).
Proof.
  intros Hp Hd Hl Hc.
  pose proof (direct_buffer_well_formed _ _ Hd) as Hw.
  destruct (check_offset_length_window _ _ _ _ _ Hw Hc) as (Hao & Hal & Hend).
  destruct Hd as (Hinit & Hdata & Hlr & Hr & Hmax & Halloc).
  assert (HI : INT_MAX = 2147483647) by reflexivity.
  cbn [tvb_memcpy].
  erewrite bind_run by (apply assert_run; apply Z.leb_le; lia).
  erewrite bind_run by (apply deref_some; exact Hp).
  rewrite (gint_id length) by (unfold is_gint, INT_MIN; lia).
  erewrite bind_run by (unfold lift; rewrite Hc; reflexivity).
  cbn [fst snd]. rewrite Hdata.
  unfold memcpy, ptr_add. rewrite length_drop.
  rewrite (proj2 (Z.leb_le _ _)) by lia. reflexivity.
Qed.

(** [tvb_strsize] on a direct buffer. *)
Lemma tvb_strsize_run fuel s p tvb data offset ao al :
  heap s !! p = Some tvb -> direct_buffer tvb data -> is_gint offset ->
  check_offset_length tvb offset 0 = Ret (ao, al) ->
  tvb_strsize (S fuel) p offset s
  = match first_zero
            (take (Z.to_nat (t_length tvb - ao)) (ptr_add data ao)) with
    | Some k => (Ret (Z.of_nat k + 1), s)
    | None => (Throw (if t_length tvb <? t_reported_length tvb
                      then BoundsError else ReportedBoundsError), s)
    end.
Proof.
  intros Hp Hd Ho Hc. pose proof (direct_buffer_fields _ _ Hd) as Hf.
  pose proof Hd as (Hinit & Hdata & Hlr & Hr & Hmax & Halloc).
  assert (HI : INT_MAX = 2147483647) by reflexivity.
  assert (HU : UINT_MAX = 4294967295) by reflexivity.
  destruct (check_zero_length_success _ _ _ _ Hf Ho Hinit Hc) as [-> Hao].
  unfold tvb_strsize.
  erewrite bind_run by (apply deref_some; exact Hp).
  erewrite bind_run by (unfold lift; rewrite Hc; reflexivity).
  cbn [fst].
  rewrite (gint_id ao) by (unfold is_gint, INT_MIN; lia).
  erewrite bind_run.
  2:{ apply (tvb_find_guint8_run fuel s p tvb data ao (-1) 0 ao 0 Hp Hd).
      - unfold is_gint, INT_MIN; lia.
      - unfold is_gint, INT_MIN; lia.
      - apply (check_zero_length_in_bounds tvb data ao Hd Hao). }
  rewrite limit_spec_all. change (guint8 0) with 0.
  rewrite first_index_first_zero.
  destruct (first_zero (take (Z.to_nat (t_length tvb - ao)) (ptr_add data ao)))
    as [k |] eqn:Hz; cbn [search_result].
  - apply first_zero_take_lt in Hz as [Hk _].
    rewrite (proj2 (Z.eqb_neq _ _)) by lia.
    replace (ao + Z.of_nat k - ao + 1) with (Z.of_nat k + 1) by lia.
    rewrite guint_id by (unfold is_guint; lia). reflexivity.
  - change (-1 =? -1) with true. cbv iota.
    erewrite bind_run by (eapply tvb_length_run; eassumption).
    erewrite bind_run by (eapply tvb_reported_length_run; eassumption).
    destruct (t_length tvb <? t_reported_length tvb); reflexivity.
Qed.

(** [tvb_strnlen] on a direct buffer. *)
Lemma tvb_strnlen_run fuel s p tvb data offset maxlength ao al :
  heap s !! p = Some tvb -> direct_buffer tvb data -> is_gint offset ->
  is_guint maxlength ->
  check_offset_length tvb offset 0 = Ret (ao, al) ->
  tvb_strnlen (S fuel) p offset maxlength s
  = (Ret (match first_zero
                  (take (Z.to_nat (Z.min (t_length tvb - ao) maxlength))
                     (ptr_add data ao)) with
          | Some k => Z.of_nat k
          | None => -1
          end), s).
Proof.
  intros Hp Hd Ho Hm Hc. pose proof (direct_buffer_fields _ _ Hd) as Hf.
  pose proof Hd as (Hinit & Hdata & Hlr & Hr & Hmax & Halloc).
  assert (HI : INT_MAX = 2147483647) by reflexivity.
  assert (HU : UINT_MAX = 4294967295) by reflexivity.
  assert (HN : INT_MIN = -2147483648) by reflexivity.
  destruct (check_zero_length_success _ _ _ _ Hf Ho Hinit Hc) as [-> Hao].
  unfold tvb_strnlen.
  erewrite bind_run by (apply deref_some; exact Hp).
  erewrite bind_run by (unfold lift; rewrite Hc; reflexivity).
  cbn [fst].
  rewrite (gint_id ao) by (unfold is_gint, INT_MIN; lia).
  assert (Hgm : is_gint (gint maxlength)
                /\ limit_spec (t_length tvb - ao) (gint maxlength)
                   = Z.min (t_length tvb - ao) maxlength).
  { unfold is_guint in Hm. unfold gint, limit_spec, is_gint.
    rewrite HI, HN.
    destruct (Z.leb_spec maxlength 2147483647).
    - rewrite Z.mod_small by lia.
      rewrite (proj2 (Z.ltb_ge _ _)) by lia. lia.
    - replace (maxlength + 2147483648)
        with (maxlength - 2147483648 + 1 * 4294967296) by lia.
      rewrite Z.mod_add by lia. rewrite Z.mod_small by lia.
      rewrite (proj2 (Z.ltb_lt _ _)) by lia. lia. }
  destruct Hgm as [Hgm Hlim].
  erewrite bind_run.
  2:{ apply (tvb_find_guint8_run fuel s p tvb data ao (gint maxlength) 0 ao 0
               Hp Hd).
      - unfold is_gint; lia.
      - exact Hgm.
      - apply (check_zero_length_in_bounds tvb data ao Hd Hao). }
  rewrite Hlim. change (guint8 0) with 0.
  rewrite first_index_first_zero.
  destruct (first_zero _) as [k |] eqn:Hz; cbn [search_result].
  - apply first_zero_take_lt in Hz as [Hk _].
    rewrite (proj2 (Z.eqb_neq _ _)) by lia.
    replace (ao + Z.of_nat k - ao) with (Z.of_nat k) by lia.
    rewrite guint_id by (unfold is_guint; lia).
    rewrite gint_id by (unfold is_gint; lia). reflexivity.
  - reflexivity.
Qed.

(** Side conditions on the sample string. *)
Ltac string_facts :=
  unfold well_formed, direct_buffer, tvb_guint_fields, is_guint, is_gint,
    UINT_MAX, INT_MAX, INT_MIN, with_nul;
  cbn; repeat split; lia.

(** The bounds check in its throwing form, on unbounded integers. *)
Lemma check_offset_length_spec tvb offset length :
  t_initialized tvb = true -> tvb_guint_fields tvb ->
  is_gint offset -> is_gint length ->
  check_offset_length tvb offset length
  = match bounds_check_spec tvb offset length with
    | inl e => Throw e
    | inr ol => Ret ol
    end.
Proof.
  intros Hinit Hf Ho Hl. unfold check_offset_length.
  rewrite (check_offset_length_no_exception_spec _ _ _ Hinit Hf Ho Hl).
  reflexivity.
Qed.

(** A check with a length that is not negative returns that length. *)
Lemma bounds_check_spec_length tvb offset length ao al :
  0 <= length -> bounds_check_spec tvb offset length = inr (ao, al) ->
  al = length.
Proof.
  intros Hl. unfold bounds_check_spec.
  destruct (normalize_spec tvb offset length) as [e | [ao' al']] eqn:Hn;
    [discriminate|].
  apply normalize_spec_inr in Hn as (_ & _ & _ & _ & Hal).
  rewrite (proj2 (Z.eqb_neq length (-1))) in Hal by lia.
  unfold classify_spec.
  destruct (_ <=? t_length tvb); [|destruct (_ <=? _); discriminate].
  intros Heq. inversion Heq. subst. reflexivity.
Qed.

(** X15. [tvb_strnlen] on a direct buffer searches the captured bytes from
    the offset on, and at most [maxlength] of them, for a zero byte: it
    returns the distance of the first one from the offset, and -1 when
    there is none, without throwing; only an offset out of bounds throws,
    the error of the bounds check. *)
Theorem strnlen_bounded_search
    (fuel : nat) (s : state) (p : tvb_ptr) (tvb : tvbuff_t) (data : data_ptr)
    (offset maxlength : Z) :
  heap s !! p = Some tvb -> direct_buffer tvb data ->
  is_gint offset -> is_guint maxlength ->
  (forall ao al,
      check_offset_length tvb offset 0 = Ret (ao, al) ->
      exists r,
        first_match (fun v => v =? 0) data ao
          (ao + Z.min (t_length tvb - ao) maxlength) r
        /\ tvb_strnlen (S fuel) p offset maxlength s
           = (Ret (if r =? -1 then -1 else r - ao), s))
  /\ (forall e,
         check_offset_length tvb offset 0 = Throw e ->
         tvb_strnlen (S fuel) p offset maxlength s = (Throw e, s)).
Proof.
  intros Hp Hd Ho Hm. split.
  - intros ao al Hc.
    pose proof (direct_buffer_fields _ _ Hd) as Hf.
    pose proof Hd as (Hinit & _).
    destruct (check_zero_length_success _ _ _ _ Hf Ho Hinit Hc) as [_ Hao].
    unfold is_guint in Hm.
    rewrite (tvb_strnlen_run fuel s p tvb data offset maxlength ao al
               Hp Hd Ho Hm Hc).
    pose proof (first_index_first_match (fun v => v =? 0) data ao
                  (Z.min (t_length tvb - ao) maxlength)
                  ltac:(lia) ltac:(lia)) as Hfm.
    rewrite first_index_first_zero in Hfm.
    eexists. split; [exact Hfm|].
    destruct (first_zero _) as [k |]; cbn [search_result].
    + rewrite (proj2 (Z.eqb_neq _ _)) by lia.
      do 2 f_equal. lia.
    + reflexivity.
  - intros e Hc. unfold tvb_strnlen.
    erewrite bind_run by (apply deref_some; exact Hp).
    unfold bind, lift. rewrite Hc. reflexivity.
Qed.

Lemma strnlen_bounded_search_witness :
  exists r,
    first_match (fun v => v =? 0) (bytes_of [65; 66; 0; 67]) 0
      (0 + Z.min (4 - 0) 10) r
    /\ tvb_strnlen 1 0%nat 0 10 (sample_state with_nul)
       = (Ret (if r =? -1 then -1 else r - 0), sample_state with_nul).
Proof.
  exact (proj1 (strnlen_bounded_search 0 (sample_state with_nul) 0%nat
                  with_nul (bytes_of [65; 66; 0; 67]) 0 10 eq_refl
                  ltac:(string_facts) ltac:(string_facts)
                  ltac:(string_facts))
           0 0 eq_refl).
Defined.

(** X16. [tvb_get_stringz] on a direct buffer returns the zero-terminated
    string at the offset: when the captured bytes from the offset on hold
    a zero byte, the first at distance [k], the copy consists of the
    [k + 1] bytes up to and including it, so it holds no other zero byte,
    the length stored is [k + 1], and [tvb_strnlen] gives [k]; when they
    hold none, it throws the captured-bounds error if the packet was cut
    short and the reported-bounds error otherwise. *)
Theorem get_stringz_is_terminated
    (fuel : nat) (s : state) (p : tvb_ptr) (tvb : tvbuff_t) (data : data_ptr)
    (offset ao al : Z) :
  heap s !! p = Some tvb -> direct_buffer tvb data -> is_gint offset ->
  check_offset_length tvb offset 0 = Ret (ao, al) ->
  match first_zero (take (Z.to_nat (t_length tvb - ao)) (ptr_add data ao)) with
  | Some k =>
      tvb_get_stringz (S fuel) p offset s
      = (Ret (take (S k) (ptr_add data ao), Z.of_nat k + 1), s)
      /\ length (take (S k) (ptr_add data ao)) = S k
      /\ first_zero (take (S k) (ptr_add data ao)) = Some k
      /\ tvb_strnlen (S fuel) p offset UINT_MAX s = (Ret (Z.of_nat k), s)
  | None =>
      tvb_get_stringz (S fuel) p offset s
      = (Throw (if t_length tvb <? t_reported_length tvb
                then BoundsError else ReportedBoundsError), s)
  end.
Proof.
  intros Hp Hd Ho Hc.
  pose proof (direct_buffer_fields _ _ Hd) as Hf.
  pose proof Hd as (Hinit & Hdata & Hlr & Hr & Hmax & Halloc).
  assert (HI : INT_MAX = 2147483647) by reflexivity.
  assert (HU : UINT_MAX = 4294967295) by reflexivity.
  destruct (check_zero_length_success _ _ _ _ Hf Ho Hinit Hc) as [_ Hao].
  pose proof (tvb_strsize_run fuel s p tvb data offset ao al Hp Hd Ho Hc)
    as Hsize.
  pose proof (tvb_strnlen_run fuel s p tvb data offset UINT_MAX ao al Hp Hd Ho
                ltac:(unfold is_guint; lia) Hc) as Hlen.
  rewrite Z.min_l in Hlen by lia.
  destruct (first_zero (take (Z.to_nat (t_length tvb - ao)) (ptr_add data ao)))
    as [k |] eqn:Hz.
  - pose proof (first_zero_take_lt _ _ _ Hz) as [Hk Hk'].
    pose proof (first_zero_take_take _ _ _ Hz) as Htt.
    split; [| split; [| split; [exact Htt | exact Hlen]]].
    + unfold tvb_get_stringz.
      erewrite bind_run by exact Hsize.
      unfold size_t. rewrite (Z.mod_small (Z.of_nat k + 1)) by lia.
      erewrite bind_run.
      2:{ apply (tvb_memcpy_run fuel s p tvb data offset (Z.of_nat k + 1)
                   ao (Z.of_nat k + 1) Hp Hd); [lia|].
          apply (check_offset_length_extend tvb data offset ao al _ Hd Ho Hc).
          lia. }
      rewrite gint_id by (unfold is_gint, INT_MIN; lia).
      replace (Z.to_nat (Z.of_nat k + 1)) with (S k) by lia.
      reflexivity.
    + rewrite length_take. lia.
  - unfold tvb_get_stringz. unfold bind. rewrite Hsize. reflexivity.
Qed.

Lemma get_stringz_is_terminated_witness :
  tvb_get_stringz 1 0%nat 0 (sample_state with_nul)
  = (Ret (bytes_of [65; 66; 0], 3), sample_state with_nul)
  /\ length (bytes_of [65; 66; 0]) = 3%nat
  /\ first_zero (bytes_of [65; 66; 0]) = Some 2%nat
  /\ tvb_strnlen 1 0%nat 0 UINT_MAX (sample_state with_nul)
     = (Ret 2, sample_state with_nul).
Proof.
  exact (get_stringz_is_terminated 0 (sample_state with_nul) 0%nat with_nul
           (bytes_of [65; 66; 0; 67]) 0 0 0 eq_refl
           ltac:(string_facts) ltac:(string_facts) eq_refl).
Defined.

(** [tvb_ensure_bytes_exist] on an initialized buffer. *)
Lemma tvb_ensure_bytes_exist_run s p tvb offset length :
  heap s !! p = Some tvb -> t_initialized tvb = true ->
  tvb_guint_fields tvb -> is_gint offset -> is_gint length ->
  tvb_ensure_bytes_exist p offset length s
  = if length <? 0 then (Throw ReportedBoundsError, s)
    else match bounds_check_spec tvb offset length with
         | inl e => (Throw e, s)
         | inr _ => (Ret tt, s)
         end.
Proof.
  intros Hp Hinit Hf Ho Hl. unfold tvb_ensure_bytes_exist.
  erewrite bind_run by (apply deref_some; exact Hp).
  erewrite bind_run by (apply assert_run; exact Hinit).
  destruct (length <? 0); [reflexivity|].
  unfold bind, lift.
  rewrite (check_offset_length_spec _ _ _ Hinit Hf Ho Hl).
  destruct (bounds_check_spec tvb offset length); reflexivity.
Qed.

(** X17. [tvb_get_string] on a direct buffer: a negative length throws the
    reported-bounds error, a window that fails the bounds check throws the
    error of the check, and otherwise the buffer returned holds the
    [length] bytes of the window followed by one zero byte. *)
Theorem get_string_copies_window
    (fuel : nat) (s : state) (p : tvb_ptr) (tvb : tvbuff_t) (data : data_ptr)
    (offset length : Z) :
  heap s !! p = Some tvb -> direct_buffer tvb data ->
  is_gint offset -> is_gint length ->
  if length <? 0
  then tvb_get_string (S fuel) p offset length s
       = (Throw ReportedBoundsError, s)
  else match bounds_check_spec tvb offset length with
       | inl e => tvb_get_string (S fuel) p offset length s = (Throw e, s)
       | inr (ao, _) =>
           tvb_get_string (S fuel) p offset length s
           = (Ret (take (Z.to_nat length) (ptr_add data ao) ++ [x00]), s)
           /\ Z.of_nat
                (List.length
                   (take (Z.to_nat length) (ptr_add data ao) ++ [x00]))
              = length + 1
       end.
Proof.
  intros Hp Hd Ho Hl.
  pose proof (direct_buffer_fields _ _ Hd) as Hf.
  pose proof (direct_buffer_well_formed _ _ Hd) as Hw.
  pose proof Hd as (Hinit & Hdata & Hlr & Hr & Hmax & Halloc).
  assert (HI : INT_MAX = 2147483647) by reflexivity.
  pose proof (tvb_ensure_bytes_exist_run s p tvb offset length Hp Hinit Hf
                Ho Hl) as Hexist.
  pose proof (ensure_contiguous_direct fuel s p tvb data offset length
                Hp Hd Ho Hl) as Hptr.
  pose proof (check_offset_length_spec _ _ _ Hinit Hf Ho Hl) as Hc.
  unfold tvb_get_string.
  destruct (Z.ltb_spec length 0) as [Hneg | Hpos].
  - unfold bind. rewrite Hexist. reflexivity.
  - destruct (bounds_check_spec tvb offset length) as [e | [ao al]] eqn:Hb.
    + unfold bind. rewrite Hexist. reflexivity.
    + pose proof (bounds_check_spec_length _ _ _ _ _ Hpos Hb) as ->.
      destruct (check_offset_length_window _ _ _ _ _ Hw Hc) as (Hao & _ & Hend).
      assert (Hlen : Z.of_nat
                       (List.length (take (Z.to_nat length) (ptr_add data ao)))
                     = length).
      { rewrite length_take. unfold ptr_add. rewrite length_drop. lia. }
      split.
      * erewrite bind_run by exact Hexist.
        erewrite bind_run by exact Hptr.
        unfold is_gint in Hl.
        destruct (Z.eqb_spec length 0) as [-> | Hnz].
        { erewrite bind_run by reflexivity. reflexivity. }
        erewrite bind_run.
        2:{ unfold memcpy, size_t. rewrite (Z.mod_small length) by lia.
            unfold ptr_add. rewrite length_drop.
            rewrite (proj2 (Z.leb_le _ _)) by lia. reflexivity. }
        reflexivity.
      * rewrite length_app. cbn [List.length]. lia.
Qed.

Lemma get_string_copies_window_witness :
  tvb_get_string 1 0%nat 1 2 (sample_state with_nul)
  = (Ret (bytes_of [66; 0; 0]), sample_state with_nul)
  /\ Z.of_nat (length (bytes_of [66; 0; 0])) = 2 + 1.
Proof.
  exact (get_string_copies_window 0 (sample_state with_nul) 0%nat with_nul
           (bytes_of [65; 66; 0; 67]) 1 2 eq_refl
           ltac:(string_facts) ltac:(string_facts) ltac:(string_facts)).
Defined.

(** [ensure_contiguous_no_exception] on a direct buffer, without a place for
    the exception. *)
Lemma ensure_contiguous_no_exception_direct fuel s p tvb data offset length :
  heap s !! p = Some tvb -> direct_buffer tvb data ->
  is_gint offset -> is_gint length ->
  ensure_contiguous_no_exception (S fuel) p offset length false s
  = (Ret (match bounds_check_spec tvb offset length with
          | inr (abs_offset, _) => inr (ptr_add data abs_offset)
          | inl _ => inl None
          end), s).
Proof.
  intros Hp Hd Ho Hl. pose proof (direct_buffer_fields _ _ Hd) as Hf.
  destruct Hd as (Hinit & Hdata & _).
  cbn [ensure_contiguous_no_exception].
  pose proof (check_offset_length_no_exception_spec _ _ _ Hinit Hf Ho Hl) as Hc.
  erewrite bind_run by (apply deref_some; exact Hp).
  erewrite bind_run by (unfold lift; rewrite Hc; reflexivity).
  destruct (bounds_check_spec tvb offset length) as [e | [ao al]].
  - reflexivity.
  - rewrite Hdata. reflexivity.
Qed.

(** X18. [tvb_memeql] on a direct buffer never throws: it returns 0 when the
    window of [size] bytes at the offset passes the bounds check and holds
    the same bytes as [str], and -1 in every other case, a window out of
    bounds included. *)
Theorem memeql_never_throws
    (fuel : nat) (s : state) (p : tvb_ptr) (tvb : tvbuff_t) (data : data_ptr)
    (offset : Z) (str : data_ptr) (size : Z) :
  heap s !! p = Some tvb -> direct_buffer tvb data ->
  is_gint offset -> 0 <= size <= INT_MAX ->
  size <= Z.of_nat (length str) ->
  tvb_memeql (S fuel) p offset str size s
  = (Ret (match bounds_check_spec tvb offset size with
          | inr (ao, _) =>
              if bool_decide
                   (byte_val <$> take (Z.to_nat size) (ptr_add data ao)
                    = byte_val <$> take (Z.to_nat size) str)
              then 0 else -1
          | inl _ => -1
          end), s).
Proof.
  intros Hp Hd Ho Hsz Hstr.
  pose proof (direct_buffer_fields _ _ Hd) as Hf.
  pose proof (direct_buffer_well_formed _ _ Hd) as Hw.
  pose proof Hd as (Hinit & Hdata & Hlr & Hr & Hmax & Halloc).
  assert (HI : INT_MAX = 2147483647) by reflexivity.
  assert (Hg : is_gint size) by (unfold is_gint, INT_MIN; lia).
  pose proof (check_offset_length_spec _ _ _ Hinit Hf Ho Hg) as Hc.
  unfold tvb_memeql. rewrite (gint_id size Hg).
  erewrite bind_run
    by (apply (ensure_contiguous_no_exception_direct fuel s p tvb data);
        assumption).
  destruct (bounds_check_spec tvb offset size) as [e | [ao al]] eqn:Hb;
    [reflexivity|].
  pose proof (bounds_check_spec_length tvb offset size ao al ltac:(lia) Hb)
    as ->.
  destruct (check_offset_length_window _ _ _ _ _ Hw Hc) as (Hao & _ & Hend).
  unfold bind, lift, memcmp, ptr_add. rewrite length_drop.
  rewrite (proj2 (Z.leb_le size _)) by lia.
  rewrite (proj2 (Z.leb_le size _)) by lia. cbn [andb].
  destruct (bool_decide _); reflexivity.
Qed.

Lemma memeql_never_throws_witness :
  tvb_memeql 1 0%nat 0 (bytes_of [65; 66]) 2 (sample_state with_nul)
  = (Ret 0, sample_state with_nul)
  /\ tvb_memeql 1 0%nat 3 (bytes_of [67; 68]) 2 (sample_state with_nul)
     = (Ret (-1), sample_state with_nul).
Proof.
  split.
  - rewrite (memeql_never_throws 0 (sample_state with_nul) 0%nat with_nul
               (bytes_of [65; 66; 0; 67]) 0 (bytes_of [65; 66]) 2 eq_refl
               ltac:(string_facts) ltac:(string_facts) ltac:(string_facts)
               ltac:(string_facts)).
    reflexivity.
  - rewrite (memeql_never_throws 0 (sample_state with_nul) 0%nat with_nul
               (bytes_of [65; 66; 0; 67]) 3 (bytes_of [67; 68]) 2 eq_refl
               ltac:(string_facts) ltac:(string_facts) ltac:(string_facts)
               ltac:(string_facts)).
    reflexivity.
Defined.
